(** * Address book: a shallow embedding of [main.py]

    The development follows the layout of the program: Python values and
    strings, the exceptions the program raises, a store of field objects
    (so that object identity and in-place mutation are visible), the
    library functions the program calls ([str.isdigit], [str.lower],
    [datetime]), and then the classes [Phone], [Birthday], [Contact] and
    [AddressBook]. *)

From Stdlib Require Import ZArith NArith String Ascii DecimalString Lia Bool.
From stdpp Require Import base tactics option list numbers.

Local Open Scope Z_scope.

(** ** Python strings and values *)

(** A Python [str] is a sequence of Unicode code points. *)
Definition str := list N.

(** [u "abc"] is the [str] whose code points are the ASCII codes of the
    characters of the literal. *)
Definition u (s : string) : str := map N_of_ascii (list_ascii_of_string s).

(** The line feed character of the f-strings.  *)
Definition nl : str := [10%N].

(** The values the program stores in its fields: the console hands it
    strings, and [None] is the default of every optional argument. *)
Inductive pyval :=
| PyNone
| PyStr (s : str).

#[global] Instance pyval_eq_dec : EqDecision pyval.
Proof. solve_decision. Defined.

#[global] Instance pyval_inhabited : Inhabited pyval := populate PyNone.

(** [a == b] on these values. *)
Definition py_eq (a b : pyval) : bool := bool_decide (a = b).

(** Truth value of an object: [None] and the empty string are false. *)
Definition truthy (v : pyval) : bool :=
  match v with
  | PyNone => false
  | PyStr [] => false
  | PyStr (_ :: _) => true
  end.

(** [isinstance(v, str)] *)
Definition isinstance_str (v : pyval) : bool :=
  match v with
  | PyStr _ => true
  | PyNone => false
  end.

(** [q in s] for two strings: [q] occurs in [s] as a contiguous run. *)
Fixpoint startswith (s q : str) : bool :=
  match q, s with
  | [], _ => true
  | _ :: _, [] => false
  | a :: q', b :: s' => (a =? b)%N && startswith s' q'
  end.

Fixpoint str_contains (s q : str) : bool :=
  startswith s q ||
  match s with
  | [] => false
  | _ :: s' => str_contains s' q
  end.

(** [sep.join(items)] *)
Fixpoint str_join (sep : str) (items : list str) : str :=
  match items with
  | [] => []
  | [x] => x
  | x :: rest => x ++ sep ++ str_join sep rest
  end.

(** [str(n)] for an integer. *)
Definition str_of_int (n : Z) : str :=
  u (DecimalString.NilZero.string_of_int (Z.to_int n)).

(** ** Exceptions *)

Inductive exn :=
| ValueError (msg : string)
| TypeError (msg : string)
| FileNotFoundError (path : str)
| NotADirectoryError (path : str)
| IsADirectoryError (path : str)
| PermissionError (path : str)
| EOFError
| UnpicklingError.

Definition is_ValueError (e : exn) : bool :=
  match e with
  | ValueError _ => true
  | _ => false
  end.

(** The exceptions [except FileNotFoundError] catches: the class has no
    subclass. *)
Definition is_FileNotFoundError (e : exn) : bool :=
  match e with
  | FileNotFoundError _ => true
  | _ => false
  end.

(** The result of running a piece of code: a value, or a raised exception. *)
Inductive res (A : Type) :=
| Ret (a : A)
| Raise (e : exn).
Arguments Ret {A} a.
Arguments Raise {A} e.

(** ** The Unicode tables behind [str.isdigit], [\d] and [int]

    Taken from the Unicode character database the interpreter ships
    (version 14.0.0), as inclusive ranges of code points. *)

Definition in_ranges (c : N) (tbl : list (N * N)) : bool :=
  existsb (fun r => (fst r <=? c)%N && (c <=? snd r)%N) tbl.

(** Characters with [Numeric_Type] [Digit] or [Decimal]: those for which
    [str.isdigit] is true. *)
Definition digit_ranges : list (N * N) :=
  [ (48, 57); (178, 179); (185, 185); (1632, 1641); (1776, 1785);
    (1984, 1993); (2406, 2415); (2534, 2543); (2662, 2671); (2790, 2799);
    (2918, 2927); (3046, 3055); (3174, 3183); (3302, 3311); (3430, 3439);
    (3558, 3567); (3664, 3673); (3792, 3801); (3872, 3881); (4160, 4169);
    (4240, 4249); (4969, 4977); (6112, 6121); (6160, 6169); (6470, 6479);
    (6608, 6618); (6784, 6793); (6800, 6809); (6992, 7001); (7088, 7097);
    (7232, 7241); (7248, 7257); (8304, 8304); (8308, 8313); (8320, 8329);
    (9312, 9320); (9332, 9340); (9352, 9360); (9450, 9450); (9461, 9469);
    (9471, 9471); (10102, 10110); (10112, 10120); (10122, 10130);
    (42528, 42537); (43216, 43225); (43264, 43273); (43472, 43481);
    (43504, 43513); (43600, 43609); (44016, 44025); (65296, 65305);
    (66720, 66729); (68160, 68163); (68912, 68921); (69216, 69224);
    (69714, 69722); (69734, 69743); (69872, 69881); (69942, 69951);
    (70096, 70105); (70384, 70393); (70736, 70745); (70864, 70873);
    (71248, 71257); (71360, 71369); (71472, 71481); (71904, 71913);
    (72016, 72025); (72784, 72793); (73040, 73049); (73120, 73129);
    (92768, 92777); (92864, 92873); (93008, 93017); (120782, 120831);
    (123200, 123209); (123632, 123641); (125264, 125273); (127232, 127242);
    (130032, 130041) ]%N.

(** Characters of general category [Nd] (decimal digits): those [\d]
    matches in a [str] pattern and [int] converts.  Every range starts at
    a digit zero and holds whole runs of ten. *)
Definition decimal_ranges : list (N * N) :=
  [ (48, 57); (1632, 1641); (1776, 1785); (1984, 1993); (2406, 2415);
    (2534, 2543); (2662, 2671); (2790, 2799); (2918, 2927); (3046, 3055);
    (3174, 3183); (3302, 3311); (3430, 3439); (3558, 3567); (3664, 3673);
    (3792, 3801); (3872, 3881); (4160, 4169); (4240, 4249); (6112, 6121);
    (6160, 6169); (6470, 6479); (6608, 6617); (6784, 6793); (6800, 6809);
    (6992, 7001); (7088, 7097); (7232, 7241); (7248, 7257); (42528, 42537);
    (43216, 43225); (43264, 43273); (43472, 43481); (43504, 43513);
    (43600, 43609); (44016, 44025); (65296, 65305); (66720, 66729);
    (68912, 68921); (69734, 69743); (69872, 69881); (69942, 69951);
    (70096, 70105); (70384, 70393); (70736, 70745); (70864, 70873);
    (71248, 71257); (71360, 71369); (71472, 71481); (71904, 71913);
    (72016, 72025); (72784, 72793); (73040, 73049); (73120, 73129);
    (92768, 92777); (92864, 92873); (93008, 93017); (120782, 120831);
    (123200, 123209); (123632, 123641); (125264, 125273);
    (130032, 130041) ]%N.

Definition char_isdigit (c : N) : bool := in_ranges c digit_ranges.

(** [s.isdigit()]: every character is a digit and there is at least one. *)
Definition str_isdigit (s : str) : bool :=
  match s with
  | [] => false
  | _ => forallb char_isdigit s
  end.

(** The ASCII decimal digits ['0'..'9']. *)
Definition ascii_digit (c : N) : bool := (48 <=? c)%N && (c <=? 57)%N.

(** The value of a decimal digit character, if it is one. *)
Definition decimal_value (c : N) : option Z :=
  match find (fun r => (fst r <=? c)%N && (c <=? snd r)%N) decimal_ranges with
  | Some r => Some (Z.of_N ((c - fst r) mod 10))
  | None => None
  end.

(** ** [str.lower]

    The interpreter lower-cases a string character by character with the
    lower-case mapping of the same character database.  One character
    depends on its place: GREEK CAPITAL LETTER SIGMA, U+03A3, becomes the
    final sigma U+03C2 at the end of a word and the sigma U+03C3
    elsewhere. *)

(** Characters with the property [Case_Ignorable]. *)
Definition case_ignorable_ranges : list (N * N) :=
  [ (39, 39); (46, 46); (58, 58); (94, 94); (96, 96); (168, 168); (173, 173);
    (175, 175); (180, 180); (183, 184); (688, 879); (884, 885); (890, 890);
    (900, 901); (903, 903); (1155, 1161); (1369, 1369); (1375, 1375);
    (1425, 1469); (1471, 1471); (1473, 1474); (1476, 1477); (1479, 1479);
    (1524, 1524); (1536, 1541); (1552, 1562); (1564, 1564); (1600, 1600);
    (1611, 1631); (1648, 1648); (1750, 1757); (1759, 1768); (1770, 1773);
    (1807, 1807); (1809, 1809); (1840, 1866); (1958, 1968); (2027, 2037);
    (2042, 2042); (2045, 2045); (2070, 2093); (2137, 2139); (2184, 2184);
    (2192, 2193); (2200, 2207); (2249, 2306); (2362, 2362); (2364, 2364);
    (2369, 2376); (2381, 2381); (2385, 2391); (2402, 2403); (2417, 2417);
    (2433, 2433); (2492, 2492); (2497, 2500); (2509, 2509); (2530, 2531);
    (2558, 2558); (2561, 2562); (2620, 2620); (2625, 2626); (2631, 2632);
    (2635, 2637); (2641, 2641); (2672, 2673); (2677, 2677); (2689, 2690);
    (2748, 2748); (2753, 2757); (2759, 2760); (2765, 2765); (2786, 2787);
    (2810, 2815); (2817, 2817); (2876, 2876); (2879, 2879); (2881, 2884);
    (2893, 2893); (2901, 2902); (2914, 2915); (2946, 2946); (3008, 3008);
    (3021, 3021); (3072, 3072); (3076, 3076); (3132, 3132); (3134, 3136);
    (3142, 3144); (3146, 3149); (3157, 3158); (3170, 3171); (3201, 3201);
    (3260, 3260); (3263, 3263); (3270, 3270); (3276, 3277); (3298, 3299);
    (3328, 3329); (3387, 3388); (3393, 3396); (3405, 3405); (3426, 3427);
    (3457, 3457); (3530, 3530); (3538, 3540); (3542, 3542); (3633, 3633);
    (3636, 3642); (3654, 3662); (3761, 3761); (3764, 3772); (3782, 3782);
    (3784, 3789); (3864, 3865); (3893, 3893); (3895, 3895); (3897, 3897);
    (3953, 3966); (3968, 3972); (3974, 3975); (3981, 3991); (3993, 4028);
    (4038, 4038); (4141, 4144); (4146, 4151); (4153, 4154); (4157, 4158);
    (4184, 4185); (4190, 4192); (4209, 4212); (4226, 4226); (4229, 4230);
    (4237, 4237); (4253, 4253); (4348, 4348); (4957, 4959); (5906, 5908);
    (5938, 5939); (5970, 5971); (6002, 6003); (6068, 6069); (6071, 6077);
    (6086, 6086); (6089, 6099); (6103, 6103); (6109, 6109); (6155, 6159);
    (6211, 6211); (6277, 6278); (6313, 6313); (6432, 6434); (6439, 6440);
    (6450, 6450); (6457, 6459); (6679, 6680); (6683, 6683); (6742, 6742);
    (6744, 6750); (6752, 6752); (6754, 6754); (6757, 6764); (6771, 6780);
    (6783, 6783); (6823, 6823); (6832, 6862); (6912, 6915); (6964, 6964);
    (6966, 6970); (6972, 6972); (6978, 6978); (7019, 7027); (7040, 7041);
    (7074, 7077); (7080, 7081); (7083, 7085); (7142, 7142); (7144, 7145);
    (7149, 7149); (7151, 7153); (7212, 7219); (7222, 7223); (7288, 7293);
    (7376, 7378); (7380, 7392); (7394, 7400); (7405, 7405); (7412, 7412);
    (7416, 7417); (7468, 7530); (7544, 7544); (7579, 7679); (8125, 8125);
    (8127, 8129); (8141, 8143); (8157, 8159); (8173, 8175); (8189, 8190);
    (8203, 8207); (8216, 8217); (8228, 8228); (8231, 8231); (8234, 8238);
    (8288, 8292); (8294, 8303); (8305, 8305); (8319, 8319); (8336, 8348);
    (8400, 8432); (11388, 11389); (11503, 11505); (11631, 11631);
    (11647, 11647); (11744, 11775); (11823, 11823); (12293, 12293);
    (12330, 12333); (12337, 12341); (12347, 12347); (12441, 12446);
    (12540, 12542); (40981, 40981); (42232, 42237); (42508, 42508);
    (42607, 42610); (42612, 42621); (42623, 42623); (42652, 42655);
    (42736, 42737); (42752, 42785); (42864, 42864); (42888, 42890);
    (42994, 42996); (43000, 43001); (43010, 43010); (43014, 43014);
    (43019, 43019); (43045, 43046); (43052, 43052); (43204, 43205);
    (43232, 43249); (43263, 43263); (43302, 43309); (43335, 43345);
    (43392, 43394); (43443, 43443); (43446, 43449); (43452, 43453);
    (43471, 43471); (43493, 43494); (43561, 43566); (43569, 43570);
    (43573, 43574); (43587, 43587); (43596, 43596); (43632, 43632);
    (43644, 43644); (43696, 43696); (43698, 43700); (43703, 43704);
    (43710, 43711); (43713, 43713); (43741, 43741); (43756, 43757);
    (43763, 43764); (43766, 43766); (43867, 43871); (43881, 43883);
    (44005, 44005); (44008, 44008); (44013, 44013); (64286, 64286);
    (64434, 64450); (65024, 65039); (65043, 65043); (65056, 65071);
    (65106, 65106); (65109, 65109); (65279, 65279); (65287, 65287);
    (65294, 65294); (65306, 65306); (65342, 65342); (65344, 65344);
    (65392, 65392); (65438, 65439); (65507, 65507); (65529, 65531);
    (66045, 66045); (66272, 66272); (66422, 66426); (67456, 67461);
    (67463, 67504); (67506, 67514); (68097, 68099); (68101, 68102);
    (68108, 68111); (68152, 68154); (68159, 68159); (68325, 68326);
    (68900, 68903); (69291, 69292); (69446, 69456); (69506, 69509);
    (69633, 69633); (69688, 69702); (69744, 69744); (69747, 69748);
    (69759, 69761); (69811, 69814); (69817, 69818); (69821, 69821);
    (69826, 69826); (69837, 69837); (69888, 69890); (69927, 69931);
    (69933, 69940); (70003, 70003); (70016, 70017); (70070, 70078);
    (70089, 70092); (70095, 70095); (70191, 70193); (70196, 70196);
    (70198, 70199); (70206, 70206); (70367, 70367); (70371, 70378);
    (70400, 70401); (70459, 70460); (70464, 70464); (70502, 70508);
    (70512, 70516); (70712, 70719); (70722, 70724); (70726, 70726);
    (70750, 70750); (70835, 70840); (70842, 70842); (70847, 70848);
    (70850, 70851); (71090, 71093); (71100, 71101); (71103, 71104);
    (71132, 71133); (71219, 71226); (71229, 71229); (71231, 71232);
    (71339, 71339); (71341, 71341); (71344, 71349); (71351, 71351);
    (71453, 71455); (71458, 71461); (71463, 71467); (71727, 71735);
    (71737, 71738); (71995, 71996); (71998, 71998); (72003, 72003);
    (72148, 72151); (72154, 72155); (72160, 72160); (72193, 72202);
    (72243, 72248); (72251, 72254); (72263, 72263); (72273, 72278);
    (72281, 72283); (72330, 72342); (72344, 72345); (72752, 72758);
    (72760, 72765); (72767, 72767); (72850, 72871); (72874, 72880);
    (72882, 72883); (72885, 72886); (73009, 73014); (73018, 73018);
    (73020, 73021); (73023, 73029); (73031, 73031); (73104, 73105);
    (73109, 73109); (73111, 73111); (73459, 73460); (78896, 78904);
    (92912, 92916); (92976, 92982); (92992, 92995); (94031, 94031);
    (94095, 94111); (94176, 94177); (94179, 94180); (110576, 110579);
    (110581, 110587); (110589, 110590); (113821, 113822); (113824, 113827);
    (118528, 118573); (118576, 118598); (119143, 119145); (119155, 119170);
    (119173, 119179); (119210, 119213); (119362, 119364); (121344, 121398);
    (121403, 121452); (121461, 121461); (121476, 121476); (121499, 121503);
    (121505, 121519); (122880, 122886); (122888, 122904); (122907, 122913);
    (122915, 122916); (122918, 122922); (123184, 123197); (123566, 123566);
    (123628, 123631); (125136, 125142); (125252, 125259); (127995, 127999);
    (917505, 917505); (917536, 917631); (917760, 917999) ]%N.

(** Characters with the property [Cased]. *)
Definition cased_ranges : list (N * N) :=
  [ (65, 90); (97, 122); (170, 170); (181, 181); (186, 186); (192, 214);
    (216, 246); (248, 442); (444, 447); (452, 659); (661, 696); (704, 705);
    (736, 740); (837, 837); (880, 883); (886, 887); (890, 893); (895, 895);
    (902, 902); (904, 906); (908, 908); (910, 929); (931, 1013); (1015, 1153);
    (1162, 1327); (1329, 1366); (1376, 1416); (4256, 4293); (4295, 4295);
    (4301, 4301); (4304, 4346); (4349, 4351); (5024, 5109); (5112, 5117);
    (7296, 7304); (7312, 7354); (7357, 7359); (7424, 7615); (7680, 7957);
    (7960, 7965); (7968, 8005); (8008, 8013); (8016, 8023); (8025, 8025);
    (8027, 8027); (8029, 8029); (8031, 8061); (8064, 8116); (8118, 8124);
    (8126, 8126); (8130, 8132); (8134, 8140); (8144, 8147); (8150, 8155);
    (8160, 8172); (8178, 8180); (8182, 8188); (8305, 8305); (8319, 8319);
    (8336, 8348); (8450, 8450); (8455, 8455); (8458, 8467); (8469, 8469);
    (8473, 8477); (8484, 8484); (8486, 8486); (8488, 8488); (8490, 8493);
    (8495, 8500); (8505, 8505); (8508, 8511); (8517, 8521); (8526, 8526);
    (8544, 8575); (8579, 8580); (9398, 9449); (11264, 11492); (11499, 11502);
    (11506, 11507); (11520, 11557); (11559, 11559); (11565, 11565);
    (42560, 42605); (42624, 42653); (42786, 42887); (42891, 42894);
    (42896, 42954); (42960, 42961); (42963, 42963); (42965, 42969);
    (42997, 42998); (43000, 43002); (43824, 43866); (43868, 43880);
    (43888, 43967); (64256, 64262); (64275, 64279); (65313, 65338);
    (65345, 65370); (66560, 66639); (66736, 66771); (66776, 66811);
    (66928, 66938); (66940, 66954); (66956, 66962); (66964, 66965);
    (66967, 66977); (66979, 66993); (66995, 67001); (67003, 67004);
    (67456, 67456); (67459, 67461); (67463, 67504); (67506, 67514);
    (68736, 68786); (68800, 68850); (71840, 71903); (93760, 93823);
    (119808, 119892); (119894, 119964); (119966, 119967); (119970, 119970);
    (119973, 119974); (119977, 119980); (119982, 119993); (119995, 119995);
    (119997, 120003); (120005, 120069); (120071, 120074); (120077, 120084);
    (120086, 120092); (120094, 120121); (120123, 120126); (120128, 120132);
    (120134, 120134); (120138, 120144); (120146, 120485); (120488, 120512);
    (120514, 120538); (120540, 120570); (120572, 120596); (120598, 120628);
    (120630, 120654); (120656, 120686); (120688, 120712); (120714, 120744);
    (120746, 120770); (120772, 120779); (122624, 122633); (122635, 122654);
    (125184, 125251); (127280, 127305); (127312, 127337);
    (127344, 127369) ]%N.

(** The characters whose lower-case mapping is one other character, as
    runs [(first, last, step, image of first)]: every [step]-th character
    from [first] to [last] maps to the character at the same distance
    from the image of [first]. *)
Definition lower_runs : list (N * N * N * N) :=
  [ (65, 90, 1, 97); (192, 214, 1, 224); (216, 222, 1, 248);
    (256, 302, 2, 257); (306, 310, 2, 307); (313, 327, 2, 314);
    (330, 374, 2, 331); (376, 376, 1, 255); (377, 381, 2, 378);
    (385, 385, 1, 595); (386, 388, 2, 387); (390, 390, 1, 596);
    (391, 391, 1, 392); (393, 394, 1, 598); (395, 395, 1, 396);
    (398, 398, 1, 477); (399, 399, 1, 601); (400, 400, 1, 603);
    (401, 401, 1, 402); (403, 403, 1, 608); (404, 404, 1, 611);
    (406, 406, 1, 617); (407, 407, 1, 616); (408, 408, 1, 409);
    (412, 412, 1, 623); (413, 413, 1, 626); (415, 415, 1, 629);
    (416, 420, 2, 417); (422, 422, 1, 640); (423, 423, 1, 424);
    (425, 425, 1, 643); (428, 428, 1, 429); (430, 430, 1, 648);
    (431, 431, 1, 432); (433, 434, 1, 650); (435, 437, 2, 436);
    (439, 439, 1, 658); (440, 440, 1, 441); (444, 444, 1, 445);
    (452, 452, 1, 454); (453, 453, 1, 454); (455, 455, 1, 457);
    (456, 456, 1, 457); (458, 458, 1, 460); (459, 475, 2, 460);
    (478, 494, 2, 479); (497, 497, 1, 499); (498, 500, 2, 499);
    (502, 502, 1, 405); (503, 503, 1, 447); (504, 542, 2, 505);
    (544, 544, 1, 414); (546, 562, 2, 547); (570, 570, 1, 11365);
    (571, 571, 1, 572); (573, 573, 1, 410); (574, 574, 1, 11366);
    (577, 577, 1, 578); (579, 579, 1, 384); (580, 580, 1, 649);
    (581, 581, 1, 652); (582, 590, 2, 583); (880, 882, 2, 881);
    (886, 886, 1, 887); (895, 895, 1, 1011); (902, 902, 1, 940);
    (904, 906, 1, 941); (908, 908, 1, 972); (910, 911, 1, 973);
    (913, 929, 1, 945); (932, 939, 1, 964); (975, 975, 1, 983);
    (984, 1006, 2, 985); (1012, 1012, 1, 952); (1015, 1015, 1, 1016);
    (1017, 1017, 1, 1010); (1018, 1018, 1, 1019); (1021, 1023, 1, 891);
    (1024, 1039, 1, 1104); (1040, 1071, 1, 1072); (1120, 1152, 2, 1121);
    (1162, 1214, 2, 1163); (1216, 1216, 1, 1231); (1217, 1229, 2, 1218);
    (1232, 1326, 2, 1233); (1329, 1366, 1, 1377); (4256, 4293, 1, 11520);
    (4295, 4295, 1, 11559); (4301, 4301, 1, 11565); (5024, 5103, 1, 43888);
    (5104, 5109, 1, 5112); (7312, 7354, 1, 4304); (7357, 7359, 1, 4349);
    (7680, 7828, 2, 7681); (7838, 7838, 1, 223); (7840, 7934, 2, 7841);
    (7944, 7951, 1, 7936); (7960, 7965, 1, 7952); (7976, 7983, 1, 7968);
    (7992, 7999, 1, 7984); (8008, 8013, 1, 8000); (8025, 8031, 2, 8017);
    (8040, 8047, 1, 8032); (8072, 8079, 1, 8064); (8088, 8095, 1, 8080);
    (8104, 8111, 1, 8096); (8120, 8121, 1, 8112); (8122, 8123, 1, 8048);
    (8124, 8124, 1, 8115); (8136, 8139, 1, 8050); (8140, 8140, 1, 8131);
    (8152, 8153, 1, 8144); (8154, 8155, 1, 8054); (8168, 8169, 1, 8160);
    (8170, 8171, 1, 8058); (8172, 8172, 1, 8165); (8184, 8185, 1, 8056);
    (8186, 8187, 1, 8060); (8188, 8188, 1, 8179); (8486, 8486, 1, 969);
    (8490, 8490, 1, 107); (8491, 8491, 1, 229); (8498, 8498, 1, 8526);
    (8544, 8559, 1, 8560); (8579, 8579, 1, 8580); (9398, 9423, 1, 9424);
    (11264, 11311, 1, 11312); (11360, 11360, 1, 11361);
    (11362, 11362, 1, 619); (11363, 11363, 1, 7549); (11364, 11364, 1, 637);
    (11367, 11371, 2, 11368); (11373, 11373, 1, 593); (11374, 11374, 1, 625);
    (11375, 11375, 1, 592); (11376, 11376, 1, 594); (11378, 11378, 1, 11379);
    (11381, 11381, 1, 11382); (11390, 11391, 1, 575);
    (11392, 11490, 2, 11393); (11499, 11501, 2, 11500);
    (11506, 11506, 1, 11507); (42560, 42604, 2, 42561);
    (42624, 42650, 2, 42625); (42786, 42798, 2, 42787);
    (42802, 42862, 2, 42803); (42873, 42875, 2, 42874);
    (42877, 42877, 1, 7545); (42878, 42886, 2, 42879);
    (42891, 42891, 1, 42892); (42893, 42893, 1, 613);
    (42896, 42898, 2, 42897); (42902, 42920, 2, 42903);
    (42922, 42922, 1, 614); (42923, 42923, 1, 604); (42924, 42924, 1, 609);
    (42925, 42925, 1, 620); (42926, 42926, 1, 618); (42928, 42928, 1, 670);
    (42929, 42929, 1, 647); (42930, 42930, 1, 669); (42931, 42931, 1, 43859);
    (42932, 42946, 2, 42933); (42948, 42948, 1, 42900);
    (42949, 42949, 1, 642); (42950, 42950, 1, 7566); (42951, 42953, 2, 42952);
    (42960, 42960, 1, 42961); (42966, 42968, 2, 42967);
    (42997, 42997, 1, 42998); (65313, 65338, 1, 65345);
    (66560, 66599, 1, 66600); (66736, 66771, 1, 66776);
    (66928, 66938, 1, 66967); (66940, 66954, 1, 66979);
    (66956, 66962, 1, 66995); (66964, 66965, 1, 67003);
    (68736, 68786, 1, 68800); (71840, 71871, 1, 71872);
    (93760, 93791, 1, 93792); (125184, 125217, 1, 125218) ]%N.

Definition in_run (c : N) (r : N * N * N * N) : bool :=
  match r with
  | (first, last, step, _) =>
      (first <=? c)%N && (c <=? last)%N && ((c - first) mod step =? 0)%N
  end.

(** The lower-case mapping of one character.  LATIN CAPITAL LETTER I WITH
    DOT ABOVE, U+0130, is the one character that maps to two. *)
Definition char_lower (c : N) : str :=
  if (c =? 304)%N then [105; 775]%N
  else match find (in_run c) lower_runs with
       | Some (first, _, _, image) => [(image + (c - first))%N]
       | None => [c]
       end.

Definition char_case_ignorable (c : N) : bool :=
  in_ranges c case_ignorable_ranges.

Definition char_cased (c : N) : bool := in_ranges c cased_ranges.

(** The first character of [s] that is not case-ignorable. *)
Fixpoint skip_ignorable (s : str) : option N :=
  match s with
  | [] => None
  | c :: rest =>
      if char_case_ignorable c then skip_ignorable rest else Some c
  end.

(** A capital sigma ends a word when a cased character comes before it
    and none comes after it, case-ignorable characters aside.  [before]
    is the text before the sigma, the nearest character first; [after]
    is the text after it. *)
Definition final_sigma (before after : str) : bool :=
  match skip_ignorable before with
  | Some c =>
      char_cased c
      && match skip_ignorable after with
         | Some c' => negb (char_cased c')
         | None => true
         end
  | None => false
  end.

Fixpoint lower_from (before s : str) : str :=
  match s with
  | [] => []
  | c :: rest =>
      (if (c =? 931)%N
       then [if final_sigma before rest then 962%N else 963%N]
       else char_lower c)
      ++ lower_from (c :: before) rest
  end.

(** [s.lower()] *)
Definition str_lower (s : str) : str := lower_from [] s.

(** ** The store and the monad of the program

    Every field object ([Name], [Phone], [Birthday]) has the single
    attribute [_value].  Objects live in a store indexed by their
    identity; an object is never freed, and a new one takes the next free
    index.  The world also carries what the program printed, the files on
    disk (added with the address book below) and the clock. *)

Definition loc := nat.

(** State and exceptions: the state survives a raised exception, as the
    effects of the statements executed before a [raise] do. *)
Definition M (S A : Type) : Type := S -> res A * S.

Definition ret {S A} (a : A) : M S A := fun s => (Ret a, s).

Definition raise {S A} (e : exn) : M S A := fun s => (Raise e, s).

Definition bind {S A B} (m : M S A) (k : A -> M S B) : M S B :=
  fun s =>
    match m s with
    | (Ret a, s') => k a s'
    | (Raise e, s') => (Raise e, s')
    end.

Notation "x <- m ;; k" := (bind m (fun x => k))
  (at level 100, m at level 99, k at level 200, right associativity).
Notation "m ;;; k" := (bind m (fun _ => k))
  (at level 100, k at level 200, right associativity).

(** [try: body / except <handled>: handler]: [handler e] is [None] for an
    exception the clause does not catch. *)
Definition try_except {S A} (body : M S A) (handler : exn -> option (M S A))
  : M S A :=
  fun s =>
    match body s with
    | (Ret a, s') => (Ret a, s')
    | (Raise e, s') =>
        match handler e with
        | Some h => h s'
        | None => (Raise e, s')
        end
    end.

Definition get {S} : M S S := fun s => (Ret s, s).
Definition put {S} (s : S) : M S unit := fun _ => (Ret tt, s).

(** A list that runs [f] on each element in order, as a list
    comprehension does. *)
Fixpoint mapM {S A B} (f : A -> M S B) (l : list A) : M S (list B) :=
  match l with
  | [] => ret []
  | x :: rest => y <- f x ;; ys <- mapM f rest ;; ret (y :: ys)
  end.

(** ** The [datetime] library

    The parts of the interpreter's [datetime] and [_strptime] modules the
    program calls: date validation, ordinals, comparison, subtraction and
    [strptime] for the one format the program uses, ["%Y-%m-%d"].  The
    texts of the library's error messages are shortened (the originals
    quote the offending data). *)

Module datetime.

Record t := mk {
  year : Z; month : Z; day : Z;
  hour : Z; minute : Z; second : Z; microsecond : Z
}.

Definition MINYEAR : Z := 1.
Definition MAXYEAR : Z := 9999.

Definition is_leap (y : Z) : bool :=
  (y mod 4 =? 0) && (negb (y mod 100 =? 0) || (y mod 400 =? 0)).

Definition DAYS_IN_MONTH : list Z :=
  [-1; 31; 28; 31; 30; 31; 30; 31; 31; 30; 31; 30; 31].

Definition DAYS_BEFORE_MONTH : list Z :=
  [-1; 0; 31; 59; 90; 120; 151; 181; 212; 243; 273; 304; 334].

Definition days_in_month (y m : Z) : Z :=
  if (m =? 2) && is_leap y then 29
  else nth (Z.to_nat m) DAYS_IN_MONTH 0.

Definition days_before_year (y : Z) : Z :=
  let y := y - 1 in y * 365 + y / 4 - y / 100 + y / 400.

Definition days_before_month (y m : Z) : Z :=
  nth (Z.to_nat m) DAYS_BEFORE_MONTH 0
  + (if (m >? 2) && is_leap y then 1 else 0).

Definition ymd2ord (y m d : Z) : Z :=
  days_before_year y + days_before_month y m + d.

(** [datetime(y, m, d)]: the fields are checked, the time is midnight. *)
Definition new (y m d : Z) : res t :=
  if negb ((MINYEAR <=? y) && (y <=? MAXYEAR))
  then Raise (ValueError "year is out of range")
  else if negb ((1 <=? m) && (m <=? 12))
  then Raise (ValueError "month must be in 1..12")
  else if negb ((1 <=? d) && (d <=? days_in_month y m))
  then Raise (ValueError "day is out of range for month")
  else Ret (mk y m d 0 0 0 0).

Definition toordinal (a : t) : Z := ymd2ord (year a) (month a) (day a).

(** Comparison is that of the tuples of fields. *)
Definition fields (a : t) : list Z :=
  [year a; month a; day a; hour a; minute a; second a; microsecond a].

Fixpoint tuple_cmp (a b : list Z) : comparison :=
  match a, b with
  | [], [] => Eq
  | [], _ :: _ => Lt
  | _ :: _, [] => Gt
  | x :: a', y :: b' =>
      match x ?= y with
      | Eq => tuple_cmp a' b'
      | c => c
      end
  end.

(** [a > b] *)
Definition gt (a b : t) : bool :=
  match tuple_cmp (fields a) (fields b) with
  | Gt => true
  | _ => false
  end.

(** [(a - b).days]: the difference is a [timedelta] normalised so that
    its seconds and microseconds are not negative; the days take the
    carries. *)
Definition sub_days (a b : t) : Z :=
  let days := toordinal a - toordinal b in
  let secs := (second a + minute a * 60 + hour a * 3600)
              - (second b + minute b * 60 + hour b * 3600) in
  let us := microsecond a - microsecond b in
  let secs := secs + us / 1000000 in
  days + secs / 86400.

(** *** [strptime(data_string, "%Y-%m-%d")]

    The format compiles to the regular expression
    [(?P<Y>\d\d\d\d)-(?P<m>1[0-2]|0[1-9]|[1-9])-(?P<d>3[0-1]|[1-2]\d|0[1-9]|[1-9]| [1-9])],
    matched at the start of the string.  Alternatives are tried in order,
    each with the rest of the expression as its continuation. *)

(** The character class [[lo-hi]]. *)
Definition in_class (lo hi c : N) : bool := (lo <=? c)%N && (c <=? hi)%N.

Definition ascii_value (c : N) : Z := Z.of_N (c - 48).

Fixpoint first_match {A} (alts : list (option A)) : option A :=
  match alts with
  | [] => None
  | Some a :: _ => Some a
  | None :: rest => first_match rest
  end.

(** [\d\d\d\d], with the integer [int] makes of the four digits. *)
Definition group_Y {A} (s : str) (k : Z -> str -> option A) : option A :=
  match s with
  | c1 :: c2 :: c3 :: c4 :: r =>
      match decimal_value c1, decimal_value c2,
            decimal_value c3, decimal_value c4 with
      | Some a, Some b, Some c, Some d =>
          k (1000 * a + 100 * b + 10 * c + d) r
      | _, _, _, _ => None
      end
  | _ => None
  end.

(** [1[0-2]|0[1-9]|[1-9]] *)
Definition group_m {A} (s : str) (k : Z -> str -> option A) : option A :=
  first_match
    [ match s with
      | c1 :: c2 :: r =>
          if (c1 =? 49)%N && in_class 48 50 c2
          then k (10 + ascii_value c2) r else None
      | _ => None
      end;
      match s with
      | c1 :: c2 :: r =>
          if (c1 =? 48)%N && in_class 49 57 c2
          then k (ascii_value c2) r else None
      | _ => None
      end;
      match s with
      | c1 :: r =>
          if in_class 49 57 c1 then k (ascii_value c1) r else None
      | _ => None
      end ].

(** [3[0-1]|[1-2]\d|0[1-9]|[1-9]| [1-9]]; [int] skips the blank of the
    last alternative. *)
Definition group_d {A} (s : str) (k : Z -> str -> option A) : option A :=
  first_match
    [ match s with
      | c1 :: c2 :: r =>
          if (c1 =? 51)%N && in_class 48 49 c2
          then k (30 + ascii_value c2) r else None
      | _ => None
      end;
      match s with
      | c1 :: c2 :: r =>
          if in_class 49 50 c1
          then match decimal_value c2 with
               | Some v => k (10 * ascii_value c1 + v) r
               | None => None
               end
          else None
      | _ => None
      end;
      match s with
      | c1 :: c2 :: r =>
          if (c1 =? 48)%N && in_class 49 57 c2
          then k (ascii_value c2) r else None
      | _ => None
      end;
      match s with
      | c1 :: r =>
          if in_class 49 57 c1 then k (ascii_value c1) r else None
      | _ => None
      end;
      match s with
      | c1 :: c2 :: r =>
          if (c1 =? 32)%N && in_class 49 57 c2
          then k (ascii_value c2) r else None
      | _ => None
      end ].

(** A literal character of the pattern. *)
Definition literal {A} (c : N) (s : str) (k : str -> option A) : option A :=
  match s with
  | c' :: r => if (c' =? c)%N then k r else None
  | [] => None
  end.

(** [format_regex.match(data_string)]: the three integers and the text
    after the end of the match. *)
Definition regex_match (s : str) : option (Z * Z * Z * str) :=
  group_Y s (fun Y r1 =>
  literal 45 r1 (fun r2 =>
  group_m r2 (fun m r3 =>
  literal 45 r3 (fun r4 =>
  group_d r4 (fun d r5 => Some (Y, m, d, r5)))))).

Definition strptime (data_string : pyval) : res t :=
  match data_string with
  | PyNone => Raise (TypeError "strptime() argument 1 must be str")
  | PyStr s =>
      match regex_match s with
      | None => Raise (ValueError "time data does not match format")
      | Some (Y, m, d, rest) =>
          match rest with
          | _ :: _ => Raise (ValueError "unconverted data remains")
          | [] => new Y m d
          end
      end
  end.

End datetime.

(** ** The data model *)

(** A contact: its name (the value of its [Name] field, which nothing
    validates, compares or mutates), the list of its [Phone] objects and
    the birthday as it was given.  *)
Record Contact := mkContact {
  name : str;
  phones : list loc;
  birthday : pyval
}.

(** The [data] of an address book: a dictionary from names to contacts,
    in insertion order. *)
Definition dict := list (str * Contact).

(** What [pickle.load] makes of the contents of a file: it returns a
    dictionary of contacts, together with the objects the dictionary
    refers to, or it raises.  A pickle of any other value is outside this
    model, in which the [data] of a book is a dictionary of contacts. *)
Inductive contents :=
| Pickle (objects : list pyval) (d : dict)
| NoPickle (e : exn).

(** What [open(name, 'rb')] makes of a path: it returns the file, or it
    raises. *)
Inductive file :=
| Opens (c : contents)
| Refuses (e : exn).

Record world := mkWorld {
  heap : list pyval;
  stdout : list str;
  files : list (str * file);
  clock : datetime.t
}.

(** *** Operations on the world *)

(** A new object with the given [_value]; its identity is the next index. *)
Definition alloc (v : pyval) : M world loc :=
  fun w =>
    (Ret (length (heap w)),
     mkWorld (heap w ++ [v]) (stdout w) (files w) (clock w)).

(** [obj._value] *)
Definition read (l : loc) : M world pyval :=
  fun w => (Ret (heap w !!! l), w).

(** [obj._value = v] *)
Definition write (l : loc) (v : pyval) : M world unit :=
  fun w =>
    (Ret tt, mkWorld (<[l := v]> (heap w)) (stdout w) (files w) (clock w)).

(** [print(line)] *)
Definition print (line : str) : M world unit :=
  fun w =>
    (Ret tt, mkWorld (heap w) (stdout w ++ [line]) (files w) (clock w)).

(** [datetime.now()] *)
Definition now : M world datetime.t :=
  fun w => (Ret (clock w), w).

(** The outcome of a pure library call, inside the monad. *)
Definition lift_res {S A} (r : res A) : M S A := fun s => (r, s).

(** A method runs in the state made of its object and the world. *)
Definition in_world {S A} (m : M world A) : M (S * world) A :=
  fun st =>
    match m (snd st) with
    | (r, w') => (r, (fst st, w'))
    end.

Definition get_self {S} : M (S * world) S :=
  fun st => (Ret (fst st), st).

Definition set_self {S} (s : S) : M (S * world) unit :=
  fun st => (Ret tt, (s, snd st)).

(** ** Fields *)

(** [Field.__init__] *)
Definition Field_init (value : pyval) : M world loc := alloc value.

(** [Field.value] (the getter, the same in every subclass) *)
Definition Field_value (self : loc) : M world pyval := read self.

(** *** [Phone] *)

Definition Phone_validate (self : loc) : M world unit :=
  v <- read self ;;
  match v with
  | PyStr s =>
      if negb (length s =? 10)%nat || negb (str_isdigit s)
      then raise (ValueError "Invalid phone number format")
      else ret tt
  | PyNone => raise (ValueError "Invalid phone number format")
  end.

Definition Phone_init (value : pyval) : M world loc :=
  self <- Field_init value ;;
  Phone_validate self ;;;
  ret self.

(** The setter of [Phone.value]. *)
Definition Phone_set_value (self : loc) (new_value : pyval) : M world unit :=
  write self new_value ;;;
  Phone_validate self.

(** *** [Birthday] *)

Definition Birthday_validate_b (self : loc) : M world unit :=
  v <- read self ;;
  date_value <-
    try_except (lift_res (datetime.strptime v))
      (fun e =>
         match e with
         | ValueError _ =>
             Some (raise (ValueError
               "Invalid date format. Please provide Year-Month-Day."))
         | _ => None
         end) ;;
  if negb ((1 <=? datetime.month date_value)
           && (datetime.month date_value <=? 12)
           && (1 <=? datetime.day date_value)
           && (datetime.day date_value <=? 31))
  then raise (ValueError
    "Invalid date. Month should be between 1 and 12, day between 1 and 31.")
  else ret tt.

Definition Birthday_init (value : pyval) : M world loc :=
  self <- Field_init value ;;
  Birthday_validate_b self ;;;
  ret self.

(** The setter of [Birthday.value]. *)
Definition Birthday_set_value (self : loc) (new_value : pyval)
  : M world unit :=
  write self new_value ;;;
  Birthday_validate_b self.

(** ** [Contact] *)

(** [str(v)] *)
Definition py_str (v : pyval) : str :=
  match v with
  | PyNone => u "None"
  | PyStr s => s
  end.

(** [Contact.__init__]: every given phone goes through [Phone]; the
    birthday is stored as it is. *)
Definition Contact_init (name : str) (phones : option (list pyval))
    (birthday : pyval) : M world Contact :=
  phones <- mapM Phone_init (default [] phones) ;;
  ret (mkContact name phones birthday).

(** The items handed to [join] must be strings. *)
Fixpoint str_items (vals : list pyval) : res (list str) :=
  match vals with
  | [] => Ret []
  | PyStr s :: rest =>
      match str_items rest with
      | Ret l => Ret (s :: l)
      | Raise e => Raise e
      end
  | PyNone :: _ => Raise (TypeError "sequence item: expected str instance")
  end.

(** [Contact.__str__] *)
Definition Contact_str (self : Contact) : M world str :=
  if truthy (birthday self)
  then
    vals <- mapM Field_value (phones self) ;;
    items <- lift_res (str_items vals) ;;
    ret (u "Contact name: " ++ name self ++ u ", phones: "
         ++ str_join (u "; ") items
         ++ u ", birthday: " ++ py_str (birthday self))
  else
    vals <- mapM Field_value (phones self) ;;
    items <- lift_res (str_items vals) ;;
    ret (u "Contact name: " ++ name self ++ u ", phones: "
         ++ str_join (u "; ") items).

(** [x in l] for a list of field objects.  The field classes define no
    [__eq__], so two of them are equal only when they are the same
    object. *)
Definition list_contains (l : list loc) (x : loc) : bool :=
  existsb (Nat.eqb x) l.

(** [l.index(x)], with the same equality; [ValueError] when absent. *)
Fixpoint list_index (l : list loc) (x : loc) : option nat :=
  match l with
  | [] => None
  | y :: rest =>
      if Nat.eqb y x then Some 0%nat else S <$> list_index rest x
  end.

(** [Contact.add_phone] *)
Definition Contact_add_phone (phone_number : pyval)
  : M (Contact * world) unit :=
  phone <- in_world (Phone_init phone_number) ;;
  self <- get_self ;;
  if negb (list_contains (phones self) phone)
  then set_self (mkContact (name self) (phones self ++ [phone])
                           (birthday self))
  else ret tt.

(** The [for] loop of [edit_phone].  The loop reads [self.phones] afresh
    at every step, at the position [i] of its iterator, and stops when
    [i] is past the end; the list keeps its length, so [fuel] equal to
    that length lets the iterator run out.  The result is [flag]. *)
Fixpoint edit_phone_loop (fuel : nat) (i : nat) (old new : loc)
    (flag : bool) : M (Contact * world) bool :=
  match fuel with
  | O => ret flag
  | S fuel' =>
      self <- get_self ;;
      match phones self !! i with
      | None => ret flag
      | Some phone =>
          pv <- in_world (Field_value phone) ;;
          ov <- in_world (Field_value old) ;;
          if py_eq pv ov
          then
            match list_index (phones self) phone with
            | None => raise (ValueError "is not in list")
            | Some index =>
                set_self (mkContact (name self)
                                    (<[index := new]> (phones self))
                                    (birthday self)) ;;;
                edit_phone_loop fuel' (S i) old new false
            end
          else edit_phone_loop fuel' (S i) old new flag
      end
  end.

(** [Contact.edit_phone] *)
Definition Contact_edit_phone (old new : pyval) : M (Contact * world) unit :=
  old <- in_world (Phone_init old) ;;
  new <- in_world (Phone_init new) ;;
  self <- get_self ;;
  flag <- edit_phone_loop (length (phones self)) 0 old new true ;;
  if flag then raise (ValueError "") else ret tt.

(** [Contact.days_to_birthday]; the result is [None] or the message. *)
Definition Contact_days_to_birthday (self : Contact) : M world pyval :=
  if negb (truthy (birthday self)) then ret PyNone
  else
    today <- now ;;
    trans <- lift_res (datetime.strptime (PyStr (py_str (birthday self)))) ;;
    next_birthday <-
      lift_res (datetime.new (datetime.year today) (datetime.month trans)
                             (datetime.day trans)) ;;
    next_birthday <-
      (if datetime.gt today next_birthday
       then lift_res (datetime.new (datetime.year today + 1)
                                   (datetime.month trans)
                                   (datetime.day trans))
       else ret next_birthday) ;;
    let days_left := datetime.sub_days next_birthday today in
    ret (PyStr (str_of_int days_left ++ u " days left until birthday "
                ++ name self)).

(** ** [AddressBook] *)

(** [d[k] = v]: a key already present keeps its place. *)
Fixpoint dict_set (d : dict) (k : str) (v : Contact) : dict :=
  match d with
  | [] => [(k, v)]
  | (k', v') :: rest =>
      if decide (k' = k) then (k', v) :: rest
      else (k', v') :: dict_set rest k v
  end.

(** [d.get(k)] *)
Fixpoint dict_get (d : dict) (k : str) : option Contact :=
  match d with
  | [] => None
  | (k', v) :: rest => if decide (k' = k) then Some v else dict_get rest k
  end.

Definition AddressBook_add_record (record : Contact)
  : M (dict * world) unit :=
  data <- get_self ;;
  set_self (dict_set data (name record) record).

Definition AddressBook_find (name : str) : M (dict * world) (option Contact) :=
  data <- get_self ;;
  ret (dict_get data name).

Definition AddressBook_delete (name : str) : M (dict * world) unit :=
  data <- get_self ;;
  set_self (filter (fun kv => fst kv ≠ name) data).

Section Search.

(** [str.lower]: the loops are written over the lower-casing, which is
    [str_lower] in the interpreter. *)
Variable lower : str -> str.

(** The inner loop of [search], over the phones of one record. *)
Fixpoint search_phones (query : str) (record : Contact)
    (todo : list loc) (matches : list Contact) : M world (list Contact) :=
  match todo with
  | [] => ret matches
  | phone :: rest =>
      v <- Field_value phone ;;
      match v with
      | PyStr s =>
          if str_contains s query
          then search_phones query record rest (matches ++ [record])
          else search_phones query record rest matches
      | PyNone =>
          raise (TypeError "argument of type 'NoneType' is not iterable")
      end
  end.

(** The outer loop of [search], over the items of the dictionary. *)
Fixpoint search_loop (query : str) (items : dict)
    (matches : list Contact) : M world (list Contact) :=
  match items with
  | [] => ret matches
  | (name, record) :: rest =>
      let matches :=
        if str_contains (lower name) (lower query)
        then matches ++ [record] else matches in
      matches <- search_phones query record (phones record) matches ;;
      search_loop query rest matches
  end.

Definition AddressBook_search (query : str)
  : M (dict * world) (list Contact) :=
  data <- get_self ;;
  in_world (search_loop query data []).

End Search.

(** Lower-casing of the ASCII letters, which is what [str.lower] does on
    a string of ASCII characters. *)
Definition ascii_lower (s : str) : str :=
  map (fun c => if (65 <=? c)%N && (c <=? 90)%N then (c + 32)%N else c) s.

(** [iterator] is a generator: its state is the list of the pages it has
    yielded so far, and the world. *)
Definition yield (page : str) : M (list str * world) unit :=
  fun st => (Ret tt, (fst st ++ [page], snd st)).

Fixpoint iterator_loop (item_number : Z) (items : dict) (counter : Z)
    (result : str) : M (list str * world) unit :=
  match items with
  | [] =>
      match result with
      | _ :: _ => yield result
      | [] => ret tt
      end
  | (item, record) :: rest =>
      line <- in_world (Contact_str record) ;;
      let result := result ++ item ++ u ": " ++ line ++ nl in
      let counter := counter + 1 in
      if counter >=? item_number
      then yield result ;;; iterator_loop item_number rest 0 []
      else iterator_loop item_number rest counter result
  end.

Definition AddressBook_iterator (data : dict) (item_number : Z)
  : M (list str * world) unit :=
  iterator_loop item_number data 0 [].

(** The pages the generator yields when it is run from no page. *)
Definition pages_of (data : dict) (item_number : Z) (w : world) : list str :=
  fst (snd (AddressBook_iterator data item_number ([], w))).

(** *** Files *)

Fixpoint files_get (fs : list (str * file)) (path : str) : option file :=
  match fs with
  | [] => None
  | (p, f) :: rest => if decide (p = path) then Some f else files_get rest path
  end.

(** [open(name, 'rb')].  The table of the world says what [open] makes
    of each path; a path the table does not list is one for which [open]
    raises [FileNotFoundError]. *)
Definition open_rb (name : str) : M world contents :=
  fun w =>
    match files_get (files w) name with
    | Some (Opens c) => (Ret c, w)
    | Some (Refuses e) => (Raise e, w)
    | None => (Raise (FileNotFoundError name), w)
    end.

(** The objects of a pickle are created anew when it is loaded: the
    references of the loaded dictionary move with them. *)
Definition relocate (offset : nat) (d : dict) : dict :=
  map (fun kv =>
         (fst kv,
          mkContact (name (snd kv))
                    (map (Nat.add offset) (phones (snd kv)))
                    (birthday (snd kv)))) d.

(** [pickle.load(file)] *)
Definition pickle_load (f : contents) : M world dict :=
  match f with
  | NoPickle e => raise e
  | Pickle objects d =>
      fun w =>
        (Ret (relocate (length (heap w)) d),
         mkWorld (heap w ++ objects) (stdout w) (files w) (clock w))
  end.

Definition AddressBook_load_bin (name : str) : M (dict * world) unit :=
  try_except
    (file <- in_world (open_rb name) ;;
     data <- in_world (pickle_load file) ;;
     set_self data)
    (fun e =>
       match e with
       | FileNotFoundError _ =>
           Some (in_world (print (u "File '" ++ name ++ u "' not found.")))
       | _ => None
       end).

(** ** Predicates and functions the statements are written with *)

(** The world with another store, and the world after [print(line)]. *)
Definition set_heap (w : world) (h : list pyval) : world :=
  mkWorld h (stdout w) (files w) (clock w).

Definition printed (w : world) (line : str) : world :=
  mkWorld (heap w) (stdout w ++ [line]) (files w) (clock w).

(** The condition [Phone.validate] accepts, read off its [if]. *)
Definition phone_ok (v : pyval) : bool :=
  match v with
  | PyStr s => (length s =? 10)%nat && str_isdigit s
  | PyNone => false
  end.

(** The condition [Birthday.validate_b] accepts: [strptime] returns. *)
Definition birthday_ok (v : pyval) : bool :=
  match datetime.strptime v with
  | Ret _ => true
  | Raise _ => false
  end.

(** The references of a contact point into the store. *)
Definition phones_allocated (c : Contact) (w : world) : Prop :=
  Forall (fun l => (l < length (heap w))%nat) (phones c).

(** Every phone of the contact holds a string. *)
Definition phones_hold_str (c : Contact) (w : world) : Prop :=
  Forall (fun l => isinstance_str (heap w !!! l) = true) (phones c).

(** The values of the phones of a contact, in list order. *)
Definition phone_values (c : Contact) (w : world) : list pyval :=
  map (fun l => heap w !!! l) (phones c).

(** What [edit_phone] does to one phone of the list: a phone whose value
    equals that of [old] gives way to [new]. *)
Definition edit_hit (w : world) (old : loc) (l : loc) : bool :=
  py_eq (heap w !!! l) (heap w !!! old).

Definition edit_swap (w : world) (old new : loc) (l : loc) : loc :=
  if edit_hit w old l then new else l.

(** The same on values: every [old] becomes [new]. *)
Definition replace_value (old new : pyval) (v : pyval) : pyval :=
  if py_eq v old then new else v.

(** The page [iterator] makes of one item whose record renders as
    [line]. *)
Definition page_of (kv : str * Contact) (line : str) : str :=
  fst kv ++ u ": " ++ line ++ nl.

(** A date of the calendar. *)
Definition calendar_date (Y M D : Z) : Prop :=
  1 <= Y <= 9999 /\ 1 <= M <= 12 /\ 1 <= D <= datetime.days_in_month Y M.

(** The three fields of a date as [strptime] reads them under
    ["%Y-%m-%d"], each with the number it writes.  A year is four decimal
    digits, of any script. *)
Definition year_written (t : str) : option Z :=
  match t with
  | [c1; c2; c3; c4] =>
      match decimal_value c1, decimal_value c2,
            decimal_value c3, decimal_value c4 with
      | Some a, Some b, Some c, Some d =>
          Some (1000 * a + 100 * b + 10 * c + d)
      | _, _, _, _ => None
      end
  | _ => None
  end.

(** A month is ["10"] to ["12"], ["01"] to ["09"] or ["1"] to ["9"], in
    ASCII digits. *)
Definition month_written (t : str) : option Z :=
  match t with
  | [c1] =>
      if datetime.in_class 49 57 c1
      then Some (datetime.ascii_value c1) else None
  | [c1; c2] =>
      if (c1 =? 49)%N && datetime.in_class 48 50 c2
      then Some (10 + datetime.ascii_value c2)
      else if (c1 =? 48)%N && datetime.in_class 49 57 c2
      then Some (datetime.ascii_value c2)
      else None
  | _ => None
  end.

(** A day is ["30"] or ["31"]; ['1'] or ['2'] and then a decimal digit of
    any script; ['0'] or a blank and then ['1'] to ['9']; or ["1"] to
    ["9"]. *)
Definition day_written (t : str) : option Z :=
  match t with
  | [c1] =>
      if datetime.in_class 49 57 c1
      then Some (datetime.ascii_value c1) else None
  | [c1; c2] =>
      if (c1 =? 51)%N && datetime.in_class 48 49 c2
      then Some (30 + datetime.ascii_value c2)
      else if datetime.in_class 49 50 c1
      then match decimal_value c2 with
           | Some v => Some (10 * datetime.ascii_value c1 + v)
           | None => None
           end
      else if ((c1 =? 48)%N || (c1 =? 32)%N) && datetime.in_class 49 57 c2
      then Some (datetime.ascii_value c2)
      else None
  | _ => None
  end.

(** A reading of the clock: a date of the calendar and a time of day. *)
Definition clock_reading (a : datetime.t) : Prop :=
  calendar_date (datetime.year a) (datetime.month a) (datetime.day a)
  /\ 0 <= datetime.hour a < 24
  /\ 0 <= datetime.minute a < 60
  /\ 0 <= datetime.second a < 60
  /\ 0 <= datetime.microsecond a < 1000000.

(** Some time has passed since midnight. *)
Definition after_midnight (a : datetime.t) : Prop :=
  0 < datetime.hour a + datetime.minute a + datetime.second a
      + datetime.microsecond a.

(** The message of [days_to_birthday]. *)
Definition days_left_message (days_left : Z) (c : Contact) : pyval :=
  PyStr (str_of_int days_left ++ u " days left until birthday " ++ name c).

(** ** The specification's wording

    Definitions that follow the words of the specification, to be set
    against the code. *)

(** A phone: exactly ten ASCII decimal digits. *)
Definition spec_phone (s : str) : bool :=
  (length s =? 10)%nat && forallb ascii_digit s.

(** A birthday: the shape [YYYY-MM-DD], ten characters, the digits
    ASCII.  [shape_fields] gives the three numbers so written. *)
Definition two_digits (a b : N) : Z :=
  10 * datetime.ascii_value a + datetime.ascii_value b.

Definition shape_fields (s : str) : option (Z * Z * Z) :=
  match s with
  | [y1; y2; y3; y4; h1; m1; m2; h2; d1; d2] =>
      if forallb ascii_digit [y1; y2; y3; y4; m1; m2; d1; d2]
         && (h1 =? 45)%N && (h2 =? 45)%N
      then Some (100 * two_digits y1 y2 + two_digits y3 y4,
                 two_digits m1 m2, two_digits d1 d2)
      else None
  | _ => None
  end.

(** The strings the specification says [Birthday] accepts: that shape,
    the month in 1..12 and the day in 1..31. *)
Definition spec_birthday (s : str) : bool :=
  match shape_fields s with
  | Some (_, M, D) => (1 <=? M) && (M <=? 12) && (1 <=? D) && (D <=? 31)
  | None => false
  end.

(** The result of [search]: in the order of the dictionary, a record
    occurs once if its name matches, and once more for each of its phones
    that matches. *)
Definition name_matches (lower : str -> str) (query name : str) : bool :=
  str_contains (lower name) (lower query).

Definition phone_matches (w : world) (query : str) (l : loc) : bool :=
  match heap w !!! l with
  | PyStr s => str_contains s query
  | PyNone => false
  end.

Definition occurrences (lower : str -> str) (w : world) (query : str)
    (kv : str * Contact) : nat :=
  ((if name_matches lower query (fst kv) then 1 else 0)
   + length (List.filter (phone_matches w query) (phones (snd kv))))%nat.

Definition spec_search (lower : str -> str) (w : world) (query : str)
    (data : dict) : list Contact :=
  flat_map (fun kv => replicate (occurrences lower w query kv) (snd kv)) data.

(** A string of ASCII characters, and two such strings that are equal
    when the case of their letters is set aside. *)
Definition ascii_str (s : str) : Prop := Forall (fun c => (c < 128)%N) s.

Definition same_letters (a b : str) : Prop := ascii_lower a = ascii_lower b.

(** ** Sample data for the closed statements *)

(** Noon of 10 May 2024. *)
Definition noon : datetime.t := datetime.mk 2024 5 10 12 0 0 0.

(** A world with an empty store and no file. *)
Definition empty_world : world := mkWorld [] [] [] noon.

(** A world whose store holds one object, with the given value. *)
Definition world_with (v : pyval) : world := mkWorld [v] [] [] noon.

(** Ten ARABIC-INDIC digits, U+0661 .. U+0669 and U+0660. *)
Definition arabic_indic_phone : str :=
  [1633; 1634; 1635; 1636; 1637; 1638; 1639; 1640; 1641; 1632]%N.

(** The year 1999 in ARABIC-INDIC digits, and the digit five. *)
Definition arabic_indic_1999 : str := [1633; 1641; 1641; 1641]%N.
Definition arabic_indic_5 : str := [1637]%N.

(** Two contacts and their phones. *)
Definition two_phones : world :=
  mkWorld [PyStr (u "1234567890"); PyStr (u "0987654321")] [] [] noon.

Definition alice : Contact :=
  mkContact (u "Alice") [0%nat] (PyStr (u "2000-05-10")).

Definition bob : Contact := mkContact (u "Bob") [1%nat] PyNone.

Definition alice_and_bob : dict := [(u "Alice", alice); (u "Bob", bob)].

(** A contact whose name and both of whose phones contain a zero. *)
Definition agent : Contact :=
  mkContact (u "Agent 007") [0; 1]%nat PyNone.

Definition agent_and_bob : dict := [(u "Agent 007", agent); (u "Bob", bob)].

(** A contact with a Greek name, [U+0391 U+03A3], and the capital sigma
    [U+03A3]. *)
Definition alpha_sigma : str := [913; 931]%N.

Definition capital_sigma : str := [931]%N.

Definition greek : Contact := mkContact alpha_sigma [0%nat] PyNone.

(** A contact with three phones, the first and the last with the same
    number, and the world that holds them. *)
Definition three_phones : world :=
  mkWorld [PyStr (u "1234567890"); PyStr (u "5550000000");
           PyStr (u "1234567890")] [] [] noon.

Definition carol : Contact := mkContact (u "Carol") [0; 1; 2]%nat PyNone.

(** ** More of [Contact]: [find_phone] and [remove_phone] *)

(** The loop of [find_phone]: the first phone whose value equals the
    wanted string is returned. *)
Fixpoint find_phone_loop (todo : list loc) (wanted : str)
  : M world (option loc) :=
  match todo with
  | [] => ret None
  | phone :: rest =>
      v <- Field_value phone ;;
      if py_eq v (PyStr wanted) then ret (Some phone)
      else find_phone_loop rest wanted
  end.

(** [Contact.find_phone]; the result is the [Phone] object or [None]. *)
Definition Contact_find_phone (self : Contact) (phone_number : pyval)
  : M world (option loc) :=
  find_phone_loop (phones self) (py_str phone_number).

(** [l.remove(x)]: the first element equal to [x] goes; [None] stands for
    the [ValueError] of an absent [x]. *)
Fixpoint list_remove (l : list loc) (x : loc) : option (list loc) :=
  match l with
  | [] => None
  | y :: rest =>
      if Nat.eqb y x then Some rest else cons y <$> list_remove rest x
  end.

(** The [for] loop of [remove_phone].  As in [edit_phone] the iterator
    reads [self.phones] afresh at its position [i]; the list only gets
    shorter, so [fuel] equal to its first length lets the iterator run
    out. *)
Fixpoint remove_phone_loop (fuel : nat) (i : nat) (new_phone : loc)
  : M (Contact * world) unit :=
  match fuel with
  | O => ret tt
  | S fuel' =>
      self <- get_self ;;
      match phones self !! i with
      | None => ret tt
      | Some num =>
          nv <- in_world (Field_value num) ;;
          pv <- in_world (Field_value new_phone) ;;
          if py_eq nv pv
          then
            match list_remove (phones self) num with
            | None => raise (ValueError "list.remove(x): x not in list")
            | Some l =>
                set_self (mkContact (name self) l (birthday self)) ;;;
                remove_phone_loop fuel' (S i) new_phone
            end
          else remove_phone_loop fuel' (S i) new_phone
      end
  end.

(** [Contact.remove_phone] *)
Definition Contact_remove_phone (phone : pyval) : M (Contact * world) unit :=
  new_phone <- in_world (Phone_init phone) ;;
  self <- get_self ;;
  remove_phone_loop (length (phones self)) 0 new_phone.

(** ** Functions the further statements are written with *)

(** What a loop that removes the element under its iterator leaves of a
    list: after a removal the next element moves under the iterator's
    old position and is passed over. *)
Fixpoint remove_skip (hit : loc -> bool) (l : list loc) : list loc :=
  match l with
  | [] => []
  | x :: rest =>
      if hit x
      then match rest with
           | [] => []
           | y :: rest' => y :: remove_skip hit rest'
           end
      else x :: remove_skip hit rest
  end.

(** No two neighbours of the list are both hit. *)
Fixpoint no_adjacent (hit : loc -> bool) (l : list loc) : bool :=
  match l with
  | [] => true
  | x :: rest =>
      match rest with
      | [] => true
      | y :: _ => negb (hit x && hit y) && no_adjacent hit rest
      end
  end.

(** The phone holds the value [v]. *)
Definition holds (w : world) (v : pyval) (l : loc) : bool :=
  py_eq (heap w !!! l) v.

(** The invariant of a dictionary built with [add_record]: no key twice,
    and every key the name of its record. *)
Definition book_keys (data : dict) : list str := map fst data.


(** The date of a moment comes before the day [m]/[d] of its year. *)
Definition before_day (a : datetime.t) (m d : Z) : Prop :=
  datetime.month a < m \/ (datetime.month a = m /\ datetime.day a < d).

(** * Proofs *)

(** ** The store *)

Lemma heap_read_new (h : list pyval) (v : pyval) :
  (h ++ [v]) !!! length h = v.
Proof. by rewrite list_lookup_total_middle. Qed.

Lemma heap_read_old (h : list pyval) (v : pyval) (l : loc) :
  (l < length h)%nat -> (h ++ [v]) !!! l = h !!! l.
Proof. intros Hl. by rewrite lookup_total_app_l. Qed.

(** ** [Phone] *)

Lemma Phone_validate_run (self : loc) (w : world) :
  Phone_validate self w =
  (if phone_ok (heap w !!! self) then Ret tt
   else Raise (ValueError "Invalid phone number format"), w).
Proof.
  unfold Phone_validate, bind, read, phone_ok. cbn.
  destruct (heap w !!! self) as [|s]; [done|].
  destruct (length s =? 10)%nat; cbn; [|done].
  by destruct (str_isdigit s).
Qed.

Lemma Phone_init_run (value : pyval) (w : world) :
  Phone_init value w =
  (if phone_ok value then Ret (length (heap w))
   else Raise (ValueError "Invalid phone number format"),
   set_heap w (heap w ++ [value])).
Proof.
  unfold Phone_init, Field_init, bind, alloc.
  rewrite Phone_validate_run. cbn. rewrite heap_read_new.
  by destruct (phone_ok value).
Qed.

Lemma Phone_set_value_run (self : loc) (new_value : pyval) (w : world) :
  (self < length (heap w))%nat ->
  Phone_set_value self new_value w =
  (if phone_ok new_value then Ret tt
   else Raise (ValueError "Invalid phone number format"),
   set_heap w (<[self := new_value]> (heap w))).
Proof.
  intros Hl. unfold Phone_set_value, bind, write.
  rewrite Phone_validate_run. cbn.
  by rewrite list_lookup_total_insert_eq.
Qed.

Lemma ascii_digit_isdigit (c : N) :
  ascii_digit c = true -> char_isdigit c = true.
Proof.
  unfold ascii_digit, char_isdigit, in_ranges. intros H.
  cbn [digit_ranges existsb fst snd]. by rewrite H.
Qed.

Lemma spec_phone_ok (s : str) :
  spec_phone s = true -> phone_ok (PyStr s) = true.
Proof.
  unfold spec_phone, phone_ok, str_isdigit.
  intros [Hlen Hall]%andb_true_iff. rewrite Hlen. cbn.
  destruct s as [|c s]; [done|].
  apply forallb_forall. intros x Hx. apply ascii_digit_isdigit.
  rewrite forallb_forall in Hall. by apply Hall.
Qed.

(** ** [datetime] *)

(** The model on inputs whose outcome in the interpreter is known. *)
Example strptime_one_digit_fields :
  datetime.strptime (PyStr (u "2000-1-5"))
  = Ret (datetime.mk 2000 1 5 0 0 0 0).
Proof. reflexivity. Qed.

Example strptime_blank_before_day :
  datetime.strptime (PyStr (u "2000-01- 5"))
  = Ret (datetime.mk 2000 1 5 0 0 0 0).
Proof. reflexivity. Qed.

Example strptime_unicode_decimals :
  datetime.strptime
    (PyStr (arabic_indic_1999 ++ u "-01-1" ++ arabic_indic_5))
  = Ret (datetime.mk 1999 1 15 0 0 0 0).
Proof. reflexivity. Qed.

Example strptime_february_30 :
  datetime.strptime (PyStr (u "2000-02-30"))
  = Raise (ValueError "day is out of range for month").
Proof. reflexivity. Qed.

Example strptime_february_29_1900 :
  datetime.strptime (PyStr (u "1900-02-29"))
  = Raise (ValueError "day is out of range for month").
Proof. reflexivity. Qed.

Example strptime_year_0 :
  datetime.strptime (PyStr (u "0000-02-29"))
  = Raise (ValueError "year is out of range").
Proof. reflexivity. Qed.

Example strptime_month_13 :
  datetime.strptime (PyStr (u "2000-13-05"))
  = Raise (ValueError "time data does not match format").
Proof. reflexivity. Qed.

Example strptime_three_digit_day :
  datetime.strptime (PyStr (u "2000-12-311"))
  = Raise (ValueError "unconverted data remains").
Proof. reflexivity. Qed.

Example strptime_None :
  datetime.strptime PyNone
  = Raise (TypeError "strptime() argument 1 must be str").
Proof. reflexivity. Qed.

Example sub_days_noon_to_next_year :
  datetime.sub_days (datetime.mk 2025 5 10 0 0 0 0) noon = 364.
Proof. reflexivity. Qed.

Example isdigit_superscript_two : str_isdigit [178%N] = true.
Proof. reflexivity. Qed.

Example isdigit_letters : str_isdigit (u "12a4") = false.
Proof. reflexivity. Qed.

Lemma days_in_month_bounds (y m : Z) :
  1 <= m <= 12 -> 28 <= datetime.days_in_month y m <= 31.
Proof.
  intros Hm. unfold datetime.days_in_month.
  destruct ((m =? 2) && datetime.is_leap y); [lia|].
  assert (m = 1 \/ m = 2 \/ m = 3 \/ m = 4 \/ m = 5 \/ m = 6 \/ m = 7
          \/ m = 8 \/ m = 9 \/ m = 10 \/ m = 11 \/ m = 12) as Hc by lia.
  destruct_or!; subst m; vm_compute; split; discriminate.
Qed.

Lemma datetime_new_Ret (y m d : Z) (dt : datetime.t) :
  datetime.new y m d = Ret dt ->
  dt = datetime.mk y m d 0 0 0 0
  /\ 1 <= y <= 9999 /\ 1 <= m <= 12 /\ 1 <= d <= datetime.days_in_month y m.
Proof.
  unfold datetime.new, datetime.MINYEAR, datetime.MAXYEAR.
  destruct ((1 <=? y) && (y <=? 9999)) eqn:Hy; cbn; [|done].
  destruct ((1 <=? m) && (m <=? 12)) eqn:Hm; cbn; [|done].
  destruct ((1 <=? d) && (d <=? datetime.days_in_month y m)) eqn:Hd;
    cbn; [|done].
  intros [= <-]. split; [done|]. lia.
Qed.

Lemma datetime_new_ok (y m d : Z) :
  1 <= y <= 9999 -> 1 <= m <= 12 -> 1 <= d <= datetime.days_in_month y m ->
  datetime.new y m d = Ret (datetime.mk y m d 0 0 0 0).
Proof.
  intros Hy Hm Hd. unfold datetime.new, datetime.MINYEAR, datetime.MAXYEAR.
  replace ((1 <=? y) && (y <=? 9999)) with true by lia.
  replace ((1 <=? m) && (m <=? 12)) with true by lia.
  replace ((1 <=? d) && (d <=? datetime.days_in_month y m)) with true by lia.
  done.
Qed.

Lemma datetime_new_Raise (y m d : Z) (e : exn) :
  datetime.new y m d = Raise e -> is_ValueError e = true.
Proof.
  unfold datetime.new.
  repeat match goal with
         | |- context [if ?b then _ else _] => destruct b
         end; by intros [= <-].
Qed.

Lemma strptime_Ret (v : pyval) (dt : datetime.t) :
  datetime.strptime v = Ret dt ->
  exists s Y m d,
    v = PyStr s /\ datetime.regex_match s = Some (Y, m, d, [])
    /\ datetime.new Y m d = Ret dt.
Proof.
  unfold datetime.strptime. destruct v as [|s]; [discriminate|].
  destruct (datetime.regex_match s) as [[[[Y m] d] rest]|] eqn:E;
    [|discriminate].
  destruct rest; [|discriminate]. intros H. by exists s, Y, m, d.
Qed.

Lemma strptime_Raise_str (s : str) (e : exn) :
  datetime.strptime (PyStr s) = Raise e -> is_ValueError e = true.
Proof.
  unfold datetime.strptime.
  destruct (datetime.regex_match s) as [[[[Y m] d] rest]|];
    [|by intros [= <-]].
  destruct rest; [|by intros [= <-]]. apply datetime_new_Raise.
Qed.

(** A date [strptime] returns is a date of the calendar. *)
Lemma strptime_calendar (v : pyval) (dt : datetime.t) :
  datetime.strptime v = Ret dt ->
  1 <= datetime.year dt <= 9999
  /\ 1 <= datetime.month dt <= 12
  /\ 1 <= datetime.day dt
       <= datetime.days_in_month (datetime.year dt) (datetime.month dt).
Proof.
  intros (s & Y & m & d & _ & _ & Hnew)%strptime_Ret.
  apply datetime_new_Ret in Hnew as (-> & ? & ? & ?). by cbn.
Qed.

(** ** [Birthday] *)

(** The second test of [validate_b] never fires: what [strptime] returns
    already has its month in 1..12 and its day in 1..31. *)
Lemma Birthday_validate_b_run (self : loc) (w : world) :
  Birthday_validate_b self w =
  (match datetime.strptime (heap w !!! self) with
   | Ret _ => Ret tt
   | Raise (ValueError _) =>
       Raise (ValueError "Invalid date format. Please provide Year-Month-Day.")
   | Raise e => Raise e
   end, w).
Proof.
  unfold Birthday_validate_b, bind, read, try_except, lift_res, raise. cbn.
  destruct (datetime.strptime (heap w !!! self)) as [dt|e] eqn:Hp.
  - apply strptime_calendar in Hp as (_ & Hm & Hd).
    pose proof (days_in_month_bounds (datetime.year dt) _ Hm).
    replace ((1 <=? datetime.month dt) && (datetime.month dt <=? 12)
             && (1 <=? datetime.day dt) && (datetime.day dt <=? 31))
      with true by lia.
    done.
  - by destruct e.
Qed.

Lemma Birthday_init_run (value : pyval) (w : world) :
  Birthday_init value w =
  (match datetime.strptime value with
   | Ret _ => Ret (length (heap w))
   | Raise (ValueError _) =>
       Raise (ValueError "Invalid date format. Please provide Year-Month-Day.")
   | Raise e => Raise e
   end, set_heap w (heap w ++ [value])).
Proof.
  unfold Birthday_init, Field_init, bind, alloc.
  rewrite Birthday_validate_b_run. cbn. rewrite heap_read_new.
  destruct (datetime.strptime value) as [dt|e]; [done|]. by destruct e.
Qed.

Lemma Birthday_set_value_run (self : loc) (new_value : pyval) (w : world) :
  (self < length (heap w))%nat ->
  Birthday_set_value self new_value w =
  (match datetime.strptime new_value with
   | Ret _ => Ret tt
   | Raise (ValueError _) =>
       Raise (ValueError "Invalid date format. Please provide Year-Month-Day.")
   | Raise e => Raise e
   end, set_heap w (<[self := new_value]> (heap w))).
Proof.
  intros Hl. unfold Birthday_set_value, bind, write.
  rewrite Birthday_validate_b_run. cbn.
  rewrite list_lookup_total_insert_eq by done.
  destruct (datetime.strptime new_value) as [dt|e]; [done|]. by destruct e.
Qed.

(** ** C1: a failed [set] *)

(** C1.  The claim: when a [Phone] or [Birthday] holding a valid value
    [v] is set to an invalid value, the setter raises and the stored value
    is still [v].  The setters assign before they validate: the call
    raises, and the object then holds the invalid value. *)
Theorem C1_failed_set_stores_the_invalid_value
    (w : world) (self : loc) (v new_value : pyval) :
  heap w !! self = Some v ->
  (phone_ok v = true -> phone_ok new_value = false ->
   exists w',
     Phone_set_value self new_value w
     = (Raise (ValueError "Invalid phone number format"), w')
     /\ heap w' !! self = Some new_value /\ new_value <> v)
  /\
  (birthday_ok v = true -> birthday_ok new_value = false ->
   exists e w',
     Birthday_set_value self new_value w = (Raise e, w')
     /\ (isinstance_str new_value = true -> is_ValueError e = true)
     /\ heap w' !! self = Some new_value /\ new_value <> v).
Proof.
  intros Hv. pose proof (lookup_lt_Some _ _ _ Hv) as Hl. split.
  - intros Hok Hbad. eexists. rewrite Phone_set_value_run by done.
    rewrite Hbad. split; [done|]. cbn. split.
    + by apply list_lookup_insert_eq.
    + intros ->. congruence.
  - unfold birthday_ok. intros Hok Hbad.
    rewrite Birthday_set_value_run by done.
    destruct (datetime.strptime new_value) as [dt|e] eqn:Hp; [done|].
    assert (isinstance_str new_value = true -> is_ValueError e = true) as He.
    { intros Hs. destruct new_value as [|s]; [done|].
      by apply strptime_Raise_str in Hp. }
    assert (new_value <> v) as Hne.
    { intros ->. by rewrite Hp in Hok. }
    destruct e; (eexists _, _; split; [done|]; cbn; split; [|split];
      [first [exact He | by intros _] | by apply list_lookup_insert_eq | done]).
Qed.

Lemma C1_failed_set_witness :
  (exists w',
     Phone_set_value 0%nat (PyStr (u "abc")) (world_with (PyStr (u "1234567890")))
     = (Raise (ValueError "Invalid phone number format"), w')
     /\ heap w' !! 0%nat = Some (PyStr (u "abc"))
     /\ PyStr (u "abc") <> PyStr (u "1234567890"))
  /\
  (exists e w',
     Birthday_set_value 0%nat (PyStr (u "soon"))
                        (world_with (PyStr (u "2000-05-10")))
     = (Raise e, w')
     /\ (isinstance_str (PyStr (u "soon")) = true -> is_ValueError e = true)
     /\ heap w' !! 0%nat = Some (PyStr (u "soon"))
     /\ PyStr (u "soon") <> PyStr (u "2000-05-10")).
Proof.
  split.
  - apply (C1_failed_set_stores_the_invalid_value
             (world_with (PyStr (u "1234567890"))) 0%nat
             (PyStr (u "1234567890")) (PyStr (u "abc")));
      reflexivity.
  - apply (C1_failed_set_stores_the_invalid_value
             (world_with (PyStr (u "2000-05-10"))) 0%nat
             (PyStr (u "2000-05-10")) (PyStr (u "soon")));
      reflexivity.
Defined.

(** ** C5: the strings [Phone] accepts *)

(** C5, as the code has it.  [Phone(p)] succeeds, with [.value == p],
    exactly when [p] has ten characters and [str.isdigit] holds of each:
    the Unicode digits, of which the ASCII decimal digits are ten.  Every
    other string is refused with [ValueError]. *)
Theorem C5_phone_accepts_ten_isdigit_characters (p : str) (w : world) :
  (length p = 10%nat /\ forallb char_isdigit p = true ->
   exists self w',
     Phone_init (PyStr p) w = (Ret self, w')
     /\ heap w' !! self = Some (PyStr p))
  /\
  (~ (length p = 10%nat /\ forallb char_isdigit p = true) ->
   exists w',
     Phone_init (PyStr p) w
     = (Raise (ValueError "Invalid phone number format"), w'))
  /\
  (spec_phone p = true ->
   length p = 10%nat /\ forallb char_isdigit p = true).
Proof.
  assert (phone_ok (PyStr p) = true
          <-> length p = 10%nat /\ forallb char_isdigit p = true) as Hok.
  { unfold phone_ok, str_isdigit. rewrite andb_true_iff, Nat.eqb_eq.
    split; intros [Hlen Hall]; (split; [done|]); by destruct p. }
  rewrite Phone_init_run. split; [|split].
  - intros H. apply Hok in H. rewrite H. eexists _, _. split; [done|].
    cbn. by apply list_lookup_middle.
  - intros H. destruct (phone_ok (PyStr p)) eqn:E.
    + exfalso. by apply H, Hok.
    + by eexists.
  - intros H. by apply Hok, spec_phone_ok.
Qed.

Lemma C5_phone_witness :
  (exists self w',
     Phone_init (PyStr (u "0123456789")) empty_world = (Ret self, w')
     /\ heap w' !! self = Some (PyStr (u "0123456789")))
  /\
  (exists w',
     Phone_init (PyStr (u "12345")) empty_world
     = (Raise (ValueError "Invalid phone number format"), w'))
  /\
  (length (u "0123456789") = 10%nat
   /\ forallb char_isdigit (u "0123456789") = true).
Proof.
  split; [|split].
  - apply (C5_phone_accepts_ten_isdigit_characters (u "0123456789")).
    split; reflexivity.
  - apply (C5_phone_accepts_ten_isdigit_characters (u "12345")).
    intros [Hlen _]. discriminate Hlen.
  - apply (C5_phone_accepts_ten_isdigit_characters (u "0123456789")
             empty_world).
    reflexivity.
Defined.

(** C5, as the claim words it, fails: ten ARABIC-INDIC digits are not
    ASCII decimal digits, and [Phone] accepts them. *)
Lemma C5_phone_counterexample :
  spec_phone arabic_indic_phone = false
  /\ Phone_init (PyStr arabic_indic_phone) empty_world
     = (Ret 0%nat, world_with (PyStr arabic_indic_phone)).
Proof. split; reflexivity. Qed.

(** ** [Contact]: construction and [add_phone] *)

Lemma list_contains_fresh (l : list loc) (x : loc) :
  Forall (fun y => y <> x) l -> list_contains l x = false.
Proof.
  unfold list_contains. induction 1 as [|y l Hy _ IH]; [done|].
  cbn. rewrite IH, orb_false_r. apply Nat.eqb_neq. congruence.
Qed.

Lemma allocated_fresh (l : list loc) (n : nat) :
  Forall (fun y => (y < n)%nat) l -> Forall (fun y => y <> n) l.
Proof. apply Forall_impl. lia. Qed.

Lemma Contact_add_phone_run (phone_number : pyval) (c : Contact) (w : world) :
  phones_allocated c w -> phone_ok phone_number = true ->
  Contact_add_phone phone_number (c, w)
  = (Ret tt,
     (mkContact (name c) (phones c ++ [length (heap w)]) (birthday c),
      set_heap w (heap w ++ [phone_number]))).
Proof.
  intros Hc Hok. unfold Contact_add_phone, bind, in_world, get_self.
  cbn [fst snd]. rewrite Phone_init_run, Hok. cbn.
  by rewrite list_contains_fresh by by apply allocated_fresh.
Qed.

Lemma phone_values_add (c : Contact) (w : world) (v : pyval) :
  phones_allocated c w ->
  phone_values
    (mkContact (name c) (phones c ++ [length (heap w)]) (birthday c))
    (set_heap w (heap w ++ [v]))
  = phone_values c w ++ [v].
Proof.
  unfold phones_allocated, phone_values. cbn. intros Hc.
  rewrite map_app. cbn. rewrite heap_read_new. f_equal.
  induction Hc as [|l ls Hl _ IH]; [done|].
  cbn. by rewrite IH, heap_read_old.
Qed.

Lemma phones_allocated_add (c : Contact) (w : world) (v : pyval) :
  phones_allocated c w ->
  phones_allocated
    (mkContact (name c) (phones c ++ [length (heap w)]) (birthday c))
    (set_heap w (heap w ++ [v])).
Proof.
  unfold phones_allocated. cbn. intros Hc. rewrite length_app. cbn.
  apply Forall_app. split.
  - eapply Forall_impl; [|exact Hc]. cbn. lia.
  - apply Forall_singleton. lia.
Qed.

(** C2.  The claim: [add_phone] of a number the contact already has
    leaves one phone with that value.  [add_phone] looks for the new
    [Phone] object in the list, and no object of the list is that new
    object: it always appends, and two calls leave two phones with the
    same value. *)
Theorem C2_add_phone_twice_keeps_both (c : Contact) (w : world) (p : str) :
  phones_allocated c w -> phone_ok (PyStr p) = true ->
  exists c' w',
    (Contact_add_phone (PyStr p) ;;; Contact_add_phone (PyStr p)) (c, w)
    = (Ret tt, (c', w'))
    /\ phone_values c' w' = phone_values c w ++ [PyStr p; PyStr p].
Proof.
  intros Hc Hok. unfold bind.
  rewrite (Contact_add_phone_run _ c w Hc Hok).
  rewrite Contact_add_phone_run; [|by apply phones_allocated_add|done].
  eexists _, _. split; [done|].
  pose proof (phones_allocated_add c w (PyStr p) Hc) as Hc'.
  rewrite (phone_values_add _ _ (PyStr p) Hc').
  rewrite (phone_values_add c w (PyStr p) Hc).
  by rewrite <- app_assoc.
Qed.

Lemma C2_add_phone_twice_witness :
  exists c' w',
    (Contact_add_phone (PyStr (u "1234567890")) ;;;
     Contact_add_phone (PyStr (u "1234567890")))
      (mkContact (u "Alice") [] PyNone, empty_world)
    = (Ret tt, (c', w'))
    /\ phone_values c' w'
       = phone_values (mkContact (u "Alice") [] PyNone) empty_world
         ++ [PyStr (u "1234567890"); PyStr (u "1234567890")].
Proof.
  apply (C2_add_phone_twice_keeps_both
           (mkContact (u "Alice") [] PyNone) empty_world (u "1234567890")).
  - apply Forall_nil_2.
  - reflexivity.
Defined.

Lemma mapM_Phone_init_run (vals : list pyval) (w : world) :
  forallb phone_ok vals = true ->
  mapM Phone_init vals w
  = (Ret (seq (length (heap w)) (length vals)),
     set_heap w (heap w ++ vals)).
Proof.
  revert w. induction vals as [|v vals IH]; intros w Hall.
  - cbn. unfold ret, set_heap. rewrite app_nil_r. by destruct w.
  - cbn in Hall. apply andb_true_iff in Hall as [Hv Hall].
    cbn. unfold bind. rewrite Phone_init_run, Hv.
    rewrite (IH _ Hall). cbn. rewrite length_app. cbn.
    rewrite Nat.add_1_r, <- app_assoc. done.
Qed.

(** C10.  [Contact(name, phones, birthday=b)] stores [b] as it is, for
    every string [b]: when the phones pass [Phone], the construction
    succeeds, whatever [Birthday] would say of [b]. *)
Theorem C10_contact_init_stores_birthday_unchecked
    (nm : str) (phone_args : option (list pyval)) (b : str) (w : world) :
  forallb phone_ok (default [] phone_args) = true ->
  exists c w',
    Contact_init nm phone_args (PyStr b) w = (Ret c, w')
    /\ birthday c = PyStr b /\ name c = nm.
Proof.
  intros Hall. unfold Contact_init, bind.
  rewrite (mapM_Phone_init_run _ w Hall). by eexists _, _.
Qed.

Lemma C10_contact_init_witness :
  exists c w',
    Contact_init (u "Bob") (Some [PyStr (u "0987654321")])
                 (PyStr (u "not a date")) empty_world = (Ret c, w')
    /\ birthday c = PyStr (u "not a date") /\ name c = u "Bob".
Proof.
  apply (C10_contact_init_stores_birthday_unchecked
           (u "Bob") (Some [PyStr (u "0987654321")]) (u "not a date")
           empty_world).
  reflexivity.
Defined.

(** ** [Contact.edit_phone] *)

Lemma list_index_app_fresh (pre post : list loc) (x : loc) :
  Forall (fun y => y <> x) pre ->
  list_index (pre ++ x :: post) x = Some (length pre).
Proof.
  induction 1 as [|y pre Hy _ IH]; cbn.
  - by rewrite Nat.eqb_refl.
  - apply Nat.eqb_neq in Hy. by rewrite Hy, IH.
Qed.

Lemma insert_app_head (pre post : list loc) (x y : loc) :
  <[length pre := y]> (pre ++ x :: post) = pre ++ y :: post.
Proof.
  rewrite insert_app_r_alt by lia. by rewrite Nat.sub_diag.
Qed.

Section EditLoop.

Variables (w : world) (old new : loc) (nm : str) (bd : pyval).

(** The loop at position [length pre], the phones before it done and
    those from it on still to visit. *)
Lemma edit_phone_loop_run (post pre : list loc) (flag : bool) :
  Forall (fun l => l <> new) post ->
  Forall (fun l => l = new \/ edit_hit w old l = false) pre ->
  edit_phone_loop (length post) (length pre) old new flag
                  (mkContact nm (pre ++ post) bd, w)
  = (Ret (flag && negb (existsb (edit_hit w old) post)),
     (mkContact nm (pre ++ map (edit_swap w old new) post) bd, w)).
Proof.
  revert pre flag.
  induction post as [|phone post IH]; intros pre flag Hpost Hpre.
  - cbn. by rewrite andb_true_r.
  - apply Forall_cons_iff in Hpost as [Hphone Hpost].
    cbn [edit_phone_loop length].
    unfold bind at 1, get_self at 1. cbn [fst snd phones].
    rewrite (list_lookup_middle pre post phone (length pre) eq_refl).
    unfold bind at 1, in_world at 1, Field_value at 1, read at 1.
    cbn [fst snd].
    unfold bind at 1, in_world at 1, Field_value at 1, read at 1.
    cbn [fst snd].
    fold (edit_hit w old phone). cbn [existsb map]. unfold edit_swap at 1.
    destruct (edit_hit w old phone) eqn:Hhit.
    + rewrite list_index_app_fresh.
      2:{ eapply Forall_impl; [|exact Hpre].
          intros l [->|Hl]; [done|]. intros ->. congruence. }
      unfold bind at 1, set_self at 1. cbn [fst snd name phones birthday].
      rewrite insert_app_head.
      replace (pre ++ new :: post) with ((pre ++ [new]) ++ post)
        by by rewrite <- app_assoc.
      replace (S (length pre)) with (length (pre ++ [new]))
        by (rewrite length_app; cbn; lia).
      rewrite IH; [|done|].
      * rewrite <- app_assoc. cbn. by rewrite andb_false_r.
      * apply Forall_app. split; [done|]. apply Forall_singleton. by left.
    + replace (pre ++ phone :: post) with ((pre ++ [phone]) ++ post)
        by by rewrite <- app_assoc.
      replace (S (length pre)) with (length (pre ++ [phone]))
        by (rewrite length_app; cbn; lia).
      rewrite IH; [|done|].
      * rewrite <- app_assoc. done.
      * apply Forall_app. split; [done|]. apply Forall_singleton.
        by right.
Qed.

End EditLoop.

Lemma py_eq_true (a b : pyval) : py_eq a b = true <-> a = b.
Proof. unfold py_eq. apply bool_decide_eq_true. Qed.

Lemma py_eq_false (a b : pyval) : py_eq a b = false <-> a <> b.
Proof. unfold py_eq. apply bool_decide_eq_false. Qed.

(** The store after [edit_phone] made its two [Phone] objects. *)
Lemma heap_read_two_new (h : list pyval) (a b : pyval) (l : loc) :
  (l < length h)%nat -> ((h ++ [a]) ++ [b]) !!! l = h !!! l.
Proof.
  intros Hl. rewrite lookup_total_app_l by (rewrite length_app; lia).
  by apply heap_read_old.
Qed.

Lemma heap_read_first_new (h : list pyval) (a b : pyval) :
  ((h ++ [a]) ++ [b]) !!! length h = a.
Proof.
  rewrite lookup_total_app_l by (rewrite length_app; cbn; lia).
  apply heap_read_new.
Qed.

Lemma heap_read_second_new (h : list pyval) (a b : pyval) :
  ((h ++ [a]) ++ [b]) !!! S (length h) = b.
Proof.
  replace (S (length h)) with (length (h ++ [a]))
    by (rewrite length_app; cbn; lia).
  apply heap_read_new.
Qed.

Lemma Contact_edit_phone_run (c : Contact) (w : world) (old new : pyval) :
  phones_allocated c w ->
  phone_ok old = true -> phone_ok new = true ->
  let n := length (heap w) in
  let w' := set_heap w ((heap w ++ [old]) ++ [new]) in
  Contact_edit_phone old new (c, w)
  = if existsb (edit_hit w' n) (phones c)
    then (Ret tt,
          (mkContact (name c) (map (edit_swap w' n (S n)) (phones c))
                     (birthday c), w'))
    else (Raise (ValueError ""),
          (mkContact (name c) (map (edit_swap w' n (S n)) (phones c))
                     (birthday c), w')).
Proof.
  intros Hc Hold Hnew n w'. destruct c as [nm ps bd].
  unfold phones_allocated in Hc. cbn [phones name birthday] in *.
  unfold Contact_edit_phone.
  unfold bind at 1, in_world at 1. cbn [fst snd].
  rewrite Phone_init_run, Hold.
  unfold bind at 1, in_world at 1. cbn [fst snd].
  rewrite Phone_init_run, Hnew.
  unfold bind at 1, get_self at 1. cbn [fst snd phones].
  unfold bind at 1.
  pose proof (edit_phone_loop_run w' n (S n) nm bd ps [] true) as Hloop.
  cbn [length app] in Hloop.
  assert (length (heap (set_heap w (heap w ++ [old]))) = S n) as Hlen.
  { cbn. rewrite length_app. cbn. lia. }
  rewrite Hlen.
  change (set_heap (set_heap w (heap w ++ [old]))
            (heap (set_heap w (heap w ++ [old])) ++ [new])) with w'.
  fold n. rewrite Hloop.
  - cbn [andb]. by destruct (existsb (edit_hit w' n) ps).
  - eapply Forall_impl; [|exact Hc]. cbn. fold n. lia.
  - apply Forall_nil_2.
Qed.

Lemma heap_values_two_new (h : list pyval) (a b : pyval) (ps : list loc) :
  Forall (fun l => (l < length h)%nat) ps ->
  map (fun l => ((h ++ [a]) ++ [b]) !!! l) ps = map (fun l => h !!! l) ps.
Proof.
  induction 1 as [|l ps Hl _ IH]; [done|].
  cbn [map]. by rewrite IH, heap_read_two_new.
Qed.

Section EditValues.

Variables (w : world) (old new : pyval).

Let n : nat := length (heap w).
Let w' : world := set_heap w ((heap w ++ [old]) ++ [new]).

Lemma edit_hit_old_phone (l : loc) :
  (l < n)%nat -> edit_hit w' n l = py_eq (heap w !!! l) old.
Proof.
  intros Hl. unfold edit_hit, w', n. cbn.
  by rewrite heap_read_two_new, heap_read_first_new.
Qed.

Lemma edit_swap_value (l : loc) :
  (l < n)%nat ->
  heap w' !!! edit_swap w' n (S n) l = replace_value old new (heap w !!! l).
Proof.
  intros Hl. unfold edit_swap, replace_value.
  rewrite edit_hit_old_phone by done.
  destruct (py_eq (heap w !!! l) old); unfold w', n; cbn.
  - apply heap_read_second_new.
  - by apply heap_read_two_new.
Qed.

Lemma edit_swap_values (ps : list loc) :
  Forall (fun l => (l < n)%nat) ps ->
  map (fun l => heap w' !!! l) (map (edit_swap w' n (S n)) ps)
  = map (replace_value old new) (map (fun l => heap w !!! l) ps).
Proof.
  induction 1 as [|l ps Hl _ IH]; [done|].
  cbn [map]. by rewrite IH, edit_swap_value.
Qed.

Lemma edit_hit_exists (ps : list loc) :
  Forall (fun l => (l < n)%nat) ps ->
  existsb (edit_hit w' n) ps = true
  <-> In old (map (fun l => heap w !!! l) ps).
Proof.
  induction 1 as [|l ps Hl _ IH]; cbn [existsb map In]; [done|].
  rewrite orb_true_iff, IH, edit_hit_old_phone, py_eq_true by done.
  done.
Qed.

Lemma edit_swap_miss (ps : list loc) :
  existsb (edit_hit w' n) ps = false ->
  map (edit_swap w' n (S n)) ps = ps.
Proof.
  induction ps as [|l ps IH]; cbn [existsb map]; [done|].
  intros [Hl Hps]%orb_false_iff. rewrite (IH Hps).
  unfold edit_swap. by rewrite Hl.
Qed.

Lemma edit_swap_keeps (ps : list loc) (i : nat) (l : loc) :
  (l < n)%nat -> ps !! i = Some l -> heap w !!! l <> old ->
  map (edit_swap w' n (S n)) ps !! i = Some l.
Proof.
  intros Hl Hi Hne.
  change (map (edit_swap w' n (S n)) ps) with (edit_swap w' n (S n) <$> ps).
  rewrite list_lookup_fmap, Hi. cbn. f_equal.
  unfold edit_swap. rewrite edit_hit_old_phone by done.
  apply py_eq_false in Hne. by rewrite Hne.
Qed.

End EditValues.

(** C6.  [edit_phone(old, new)] with two valid numbers: when some phone of
    the contact has the value [old], the call returns and every phone
    with that value has given way to [new], the others keeping their
    places; when none has, it raises [ValueError] and the contact is as
    it was. *)
Theorem C6_edit_phone_replaces_every_match
    (c : Contact) (w : world) (old new : str) :
  phones_allocated c w ->
  phone_ok (PyStr old) = true -> phone_ok (PyStr new) = true ->
  exists r c' w',
    Contact_edit_phone (PyStr old) (PyStr new) (c, w) = (r, (c', w'))
    /\ (In (PyStr old) (phone_values c w) ->
        r = Ret tt
        /\ name c' = name c /\ birthday c' = birthday c
        /\ phone_values c' w'
           = map (replace_value (PyStr old) (PyStr new)) (phone_values c w)
        /\ (forall i l,
              phones c !! i = Some l -> heap w !!! l <> PyStr old ->
              phones c' !! i = Some l /\ heap w' !!! l = heap w !!! l))
    /\ (~ In (PyStr old) (phone_values c w) ->
        r = Raise (ValueError "")
        /\ c' = c
        /\ phone_values c' w' = phone_values c w).
Proof.
  intros Hc Hold Hnew.
  rewrite (Contact_edit_phone_run c w _ _ Hc Hold Hnew).
  pose proof (edit_hit_exists w (PyStr old) (PyStr new) (phones c) Hc)
    as Hex.
  pose proof (edit_swap_values w (PyStr old) (PyStr new) (phones c) Hc)
    as Hvals.
  unfold phones_allocated in Hc. unfold phone_values.
  destruct (existsb _ (phones c)) eqn:Hhit.
  - eexists _, _, _. split; [done|]. split.
    + intros _. cbn [name birthday phones].
      split; [done|]. split; [done|]. split; [done|]. split; [exact Hvals|].
      intros i l Hi Hne.
      assert (l < length (heap w))%nat as Hl.
      { rewrite Forall_forall in Hc. apply Hc.
        apply list_elem_of_In. eapply list_elem_of_lookup_2. exact Hi. }
      split.
      * by apply edit_swap_keeps.
      * cbn. by apply heap_read_two_new.
    + intros Hn. exfalso. apply Hn. by apply Hex.
  - eexists _, _, _. split; [done|]. split.
    + intros Hin. apply Hex in Hin. congruence.
    + intros _. rewrite (edit_swap_miss _ _ _ _ Hhit).
      split; [done|]. split; [by destruct c|].
      cbn [phones heap set_heap]. by apply heap_values_two_new.
Qed.

Lemma C6_edit_phone_witness :
  exists r c' w',
    Contact_edit_phone (PyStr (u "1234567890")) (PyStr (u "1111111111"))
                       (carol, three_phones) = (r, (c', w'))
    /\ (In (PyStr (u "1234567890")) (phone_values carol three_phones) ->
        r = Ret tt
        /\ name c' = name carol /\ birthday c' = birthday carol
        /\ phone_values c' w'
           = map (replace_value (PyStr (u "1234567890"))
                                (PyStr (u "1111111111")))
                 (phone_values carol three_phones)
        /\ (forall i l,
              phones carol !! i = Some l ->
              heap three_phones !!! l <> PyStr (u "1234567890") ->
              phones c' !! i = Some l
              /\ heap w' !!! l = heap three_phones !!! l))
    /\ (~ In (PyStr (u "1234567890")) (phone_values carol three_phones) ->
        r = Raise (ValueError "")
        /\ c' = carol
        /\ phone_values c' w' = phone_values carol three_phones).
Proof.
  apply (C6_edit_phone_replaces_every_match
           carol three_phones (u "1234567890") (u "1111111111")).
  - apply (bool_decide_unpack _). vm_compute. exact I.
  - reflexivity.
  - reflexivity.
Defined.

(** ** [AddressBook.load_bin] *)

(** What [load_bin] does with each outcome of [open] and [pickle.load]. *)
Lemma AddressBook_load_bin_run (data : dict) (w : world) (path : str) :
  AddressBook_load_bin path (data, w)
  = match open_rb path w with
    | (Ret c, _) =>
        match pickle_load c w with
        | (Ret loaded, w') => (Ret tt, (loaded, w'))
        | (Raise e, _) =>
            if is_FileNotFoundError e
            then (Ret tt,
                  (data, printed w (u "File '" ++ path ++ u "' not found.")))
            else (Raise e, (data, w))
        end
    | (Raise e, _) =>
        if is_FileNotFoundError e
        then (Ret tt,
              (data, printed w (u "File '" ++ path ++ u "' not found.")))
        else (Raise e, (data, w))
    end.
Proof.
  unfold AddressBook_load_bin, try_except, bind, in_world, open_rb.
  cbn [fst snd].
  destruct (files_get (files w) path) as [[[objects d|e]|e]|]; cbn;
    try done; destruct w; by destruct e.
Qed.




(** ** [AddressBook.iterator] *)

Lemma mapM_Field_value_run (ps : list loc) (w : world) :
  mapM Field_value ps w = (Ret (map (fun l => heap w !!! l) ps), w).
Proof.
  induction ps as [|l ps IH]; [done|].
  cbn [mapM map]. unfold bind at 1, Field_value at 1, read at 1.
  unfold bind at 1. by rewrite IH.
Qed.

(** Rendering a contact reads the store and changes nothing. *)
Lemma Contact_str_world (c : Contact) (w : world) :
  snd (Contact_str c w) = w.
Proof.
  unfold Contact_str.
  destruct (truthy (birthday c)); unfold bind at 1;
    rewrite mapM_Field_value_run; unfold bind, lift_res;
    by destruct (str_items _).
Qed.






(** ** [AddressBook.search] *)

Section SearchProofs.

Variable lower : str -> str.
Variables (w : world) (query : str).

Lemma search_phones_run (record : Contact) (todo : list loc)
    (matches : list Contact) :
  Forall (fun l => isinstance_str (heap w !!! l) = true) todo ->
  search_phones query record todo matches w
  = (Ret (matches
          ++ replicate (length (List.filter (phone_matches w query) todo))
                       record), w).
Proof.
  intros Hall. revert matches.
  induction Hall as [|phone todo Hphone _ IH]; intros matches.
  - cbn. unfold ret. by rewrite app_nil_r.
  - cbn [search_phones List.filter].
    unfold bind at 1, Field_value at 1, read at 1.
    unfold phone_matches at 1.
    destruct (heap w !!! phone) as [|s]; [done|].
    destruct (str_contains s query).
    + rewrite IH. cbn [length replicate]. by rewrite <- app_assoc.
    + by rewrite IH.
Qed.

Lemma search_loop_run (items : dict) (matches : list Contact) :
  Forall (fun kv => phones_hold_str (snd kv) w) items ->
  search_loop lower query items matches w
  = (Ret (matches ++ spec_search lower w query items), w).
Proof.
  intros Hall. revert matches.
  induction Hall as [|[name record] items Hrec _ IH]; intros matches.
  - cbn. unfold ret. by rewrite app_nil_r.
  - cbn [search_loop]. unfold bind at 1.
    rewrite search_phones_run by exact Hrec.
    rewrite IH. unfold spec_search at 2. cbn [flat_map].
    fold (spec_search lower w query items).
    unfold occurrences, name_matches. cbn [fst snd].
    destruct (str_contains (lower name) (lower query)).
    + rewrite replicate_add. cbn [replicate].
      by rewrite <- !app_assoc.
    + cbn [Nat.add]. by rewrite <- !app_assoc.
Qed.

End SearchProofs.

(** *** [str.lower] on ASCII strings, and [in] on strings *)

(** On an ASCII character the lower-case mapping is that of the letters
    ['A'] to ['Z']. *)
Lemma char_lower_ascii (c : N) :
  (c < 128)%N ->
  (c =? 931)%N = false
  /\ char_lower c
     = [if (65 <=? c)%N && (c <=? 90)%N then (c + 32)%N else c].
Proof.
  intros Hc.
  assert (forallb
            (fun c => negb (c =? 931)%N
                      && bool_decide
                           (char_lower c
                            = [if (65 <=? c)%N && (c <=? 90)%N
                               then (c + 32)%N else c]))
            (map N.of_nat (seq 0 128)) = true) as Hall
    by (vm_compute; reflexivity).
  rewrite forallb_forall in Hall.
  assert (In c (map N.of_nat (seq 0 128))) as Hin.
  { apply in_map_iff. exists (N.to_nat c). split; [lia|].
    apply in_seq. lia. }
  apply Hall in Hin. apply andb_true_iff in Hin as [Hne Heq].
  split; [by apply negb_true_iff|]. by apply bool_decide_eq_true in Heq.
Qed.

Lemma lower_from_ascii (s before : str) :
  ascii_str s -> lower_from before s = ascii_lower s.
Proof.
  intros Hs. revert before.
  induction Hs as [|c s Hc _ IH]; intros before; [done|].
  cbn [lower_from]. destruct (char_lower_ascii c Hc) as [-> ->].
  rewrite IH. done.
Qed.

Lemma str_lower_ascii (s : str) : ascii_str s -> str_lower s = ascii_lower s.
Proof. apply lower_from_ascii. Qed.

Lemma startswith_empty (s : str) : startswith s [] = true.
Proof. by destruct s. Qed.


Lemma startswith_prefix (s q : str) :
  startswith s q = true <-> exists post, s = q ++ post.
Proof.
  revert s. induction q as [|a q IH]; intros s.
  - rewrite startswith_empty. split; [by exists s|done].
  - destruct s as [|b s]; cbn.
    + split; [done|by intros [post H]].
    + rewrite andb_true_iff, N.eqb_eq, IH. split.
      * intros [-> [post ->]]. by exists post.
      * intros [post [= -> ->]]. split; [done|by exists post].
Qed.

Lemma str_contains_substring (s q : str) :
  str_contains s q = true <-> exists pre post, s = pre ++ q ++ post.
Proof.
  induction s as [|b s IH].
  - cbn [str_contains]. rewrite orb_false_r, startswith_prefix. split.
    + intros [post H]. by exists [], post.
    + intros (pre & post & H). destruct pre as [|? pre]; [|done].
      by exists post.
  - cbn [str_contains]. rewrite orb_true_iff, startswith_prefix, IH. split.
    + intros [[post H]|(pre & post & ->)].
      * by exists [], post.
      * by exists (b :: pre), post.
    + intros (pre & post & H). destruct pre as [|b' pre].
      * left. by exists post.
      * right. injection H as -> ->. by exists pre, post.
Qed.

Lemma ascii_lower_app (a b : str) :
  ascii_lower (a ++ b) = ascii_lower a ++ ascii_lower b.
Proof. apply map_app. Qed.

Lemma ascii_lower_app_inv (s a b : str) :
  ascii_lower s = a ++ b ->
  exists s1 s2, s = s1 ++ s2 /\ ascii_lower s1 = a /\ ascii_lower s2 = b.
Proof.
  revert s. induction a as [|x a IH]; intros s H.
  - by exists [], s.
  - destruct s as [|c s]; [done|]. injection H as Hc H.
    destruct (IH s H) as (s1 & s2 & -> & <- & <-).
    exists (c :: s1), s2. cbn. by rewrite Hc.
Qed.

(** C8, as the code has it.  [search(query)] returns, in the order of
    the dictionary, each record once if [query.lower()] occurs in the
    [lower()] of its name, and once more for each of its phones in whose
    value [query] occurs as it is; nothing is removed from the result.
    The phones hold strings.  For a name and a query of ASCII characters
    the test of the name is a match of a part of the name with the query,
    the case of the letters set aside.  The test of a phone is a match of
    a part of its value with the query, character for character. *)
Theorem C8_search_lower_cases_name_and_query
    (data : dict) (w : world) (query : str) :
  (Forall (fun kv => phones_hold_str (snd kv) w) data ->
   AddressBook_search str_lower query (data, w)
   = (Ret (spec_search str_lower w query data), (data, w)))
  /\
  (forall name,
     ascii_str name -> ascii_str query ->
     name_matches str_lower query name = true
     <-> exists pre sub post,
           name = pre ++ sub ++ post /\ same_letters sub query)
  /\
  (forall l s,
     heap w !!! l = PyStr s ->
     phone_matches w query l = true
     <-> exists pre post, s = pre ++ query ++ post).
Proof.
  split; [|split].
  - intros Hall. unfold AddressBook_search, bind, get_self, in_world.
    cbn [fst snd]. by rewrite search_loop_run.
  - intros name Hname Hquery. unfold name_matches, same_letters.
    rewrite !str_lower_ascii by done. rewrite str_contains_substring.
    split.
    + intros (pre' & post' & H).
      apply ascii_lower_app_inv in H as (pre & rest & -> & _ & H).
      apply ascii_lower_app_inv in H as (sub & post & -> & Hsub & _).
      by exists pre, sub, post.
    + intros (pre & sub & post & -> & Hsub).
      exists (ascii_lower pre), (ascii_lower post).
      by rewrite !ascii_lower_app, Hsub.
  - intros l s Hl. unfold phone_matches. rewrite Hl.
    apply str_contains_substring.
Qed.

Lemma C8_search_witness :
  AddressBook_search str_lower (u "0") (agent_and_bob, two_phones)
  = (Ret [agent; agent; agent; bob], (agent_and_bob, two_phones))
  /\ name_matches str_lower (u "aGENT") (u "Agent 007") = true.
Proof.
  split.
  - apply (C8_search_lower_cases_name_and_query
             agent_and_bob two_phones (u "0")).
    apply (bool_decide_unpack _). vm_compute. exact I.
  - apply (C8_search_lower_cases_name_and_query
             agent_and_bob two_phones (u "aGENT")).
    + apply (bool_decide_unpack _). vm_compute. exact I.
    + apply (bool_decide_unpack _). vm_compute. exact I.
    + exists [], (u "Agent"), (u " 007"). split; reflexivity.
Defined.

(** C8, as the claim words it, fails: the capital sigma occurs in the
    name, and [search] does not return the contact.  [str.lower] makes a
    final sigma, U+03C2, of the sigma that ends the name, and the sigma
    U+03C3 of the query. *)
Lemma C8_search_counterexample :
  str_contains alpha_sigma capital_sigma = true
  /\ AddressBook_search str_lower capital_sigma
       ([(alpha_sigma, greek)], two_phones)
     = (Ret [], ([(alpha_sigma, greek)], two_phones))
  /\ str_lower alpha_sigma = [945; 962]%N
  /\ str_lower capital_sigma = [963]%N.
Proof. repeat split. Qed.

(** ** [Contact.days_to_birthday] *)

(** A moment after midnight is later than the midnight of its day. *)
Lemma gt_midnight (a : datetime.t) :
  clock_reading a -> after_midnight a ->
  datetime.gt a (datetime.mk (datetime.year a) (datetime.month a)
                             (datetime.day a) 0 0 0 0) = true.
Proof.
  unfold clock_reading, after_midnight, datetime.gt, datetime.fields.
  intros (_ & Hh & Hm & Hs & Hu) Hpos.
  cbn [datetime.tuple_cmp datetime.year datetime.month datetime.day
       datetime.hour datetime.minute datetime.second datetime.microsecond].
  rewrite !Z.compare_refl.
  destruct (Z.compare_spec (datetime.hour a) 0) as [Eh| |]; [|lia|done].
  destruct (Z.compare_spec (datetime.minute a) 0) as [Em| |]; [|lia|done].
  destruct (Z.compare_spec (datetime.second a) 0) as [Es| |]; [|lia|done].
  destruct (Z.compare_spec (datetime.microsecond a) 0) as [Eu| |];
    [lia|lia|done].
Qed.

(** From a day of one year to the same day of the next there are 365 or
    366 days. *)
Lemma ymd2ord_next_year (y m d : Z) :
  365 <= datetime.ymd2ord (y + 1) m d - datetime.ymd2ord y m d <= 366.
Proof.
  unfold datetime.ymd2ord, datetime.days_before_year,
    datetime.days_before_month, datetime.is_leap.
  generalize (nth (Z.to_nat m) datetime.DAYS_BEFORE_MONTH 0). intros k.
  replace (y + 1 - 1) with y by lia.
  destruct (m >? 2); cbn [andb];
    repeat match goal with
           | |- context [(?a =? ?b)] => destruct (Z.eqb_spec a b)
           end; cbn [andb orb negb];
    Z.div_mod_to_equations; lia.
Qed.

(** The days from a moment after midnight to the midnight of the same
    day of the next year. *)
Lemma sub_days_next_year (a next : datetime.t) :
  clock_reading a -> after_midnight a ->
  next = datetime.mk (datetime.year a + 1) (datetime.month a)
                     (datetime.day a) 0 0 0 0 ->
  364 <= datetime.sub_days next a <= 365.
Proof.
  unfold clock_reading, after_midnight.
  intros (_ & Hh & Hm & Hs & Hu) Hpos ->.
  unfold datetime.sub_days, datetime.toordinal.
  cbn [datetime.year datetime.month datetime.day
       datetime.hour datetime.minute datetime.second datetime.microsecond].
  pose proof (ymd2ord_next_year (datetime.year a) (datetime.month a)
                                (datetime.day a)) as Hord.
  Z.div_mod_to_equations. lia.
Qed.

(** C9.  The claim: on the day of the birthday [days_to_birthday] takes
    the branch of the current year and reports 0 days.  The comparison
    [today > next_birthday] is between moments, and [today] carries the
    time of day: at every moment of the birthday after midnight the
    branch of the next year is taken, and 364 or 365 days are reported. *)
Theorem C9_birthday_today_counts_to_next_year
    (c : Contact) (w : world) (trans next : datetime.t) :
  truthy (birthday c) = true ->
  datetime.strptime (PyStr (py_str (birthday c))) = Ret trans ->
  clock_reading (clock w) -> after_midnight (clock w) ->
  datetime.month (clock w) = datetime.month trans ->
  datetime.day (clock w) = datetime.day trans ->
  datetime.new (datetime.year (clock w) + 1) (datetime.month trans)
               (datetime.day trans) = Ret next ->
  Contact_days_to_birthday c w
  = (Ret (days_left_message (datetime.sub_days next (clock w)) c), w)
  /\ 364 <= datetime.sub_days next (clock w) <= 365.
Proof.
  intros Hb Htrans Hclock Hafter Hmonth Hday Hnext.
  pose proof Hclock as ((Hy & Hm & Hd) & _).
  unfold Contact_days_to_birthday. rewrite Hb. cbn [negb].
  unfold bind at 1, now at 1.
  unfold bind at 1, lift_res at 1. rewrite Htrans.
  unfold bind at 1, lift_res at 1.
  rewrite <- Hmonth, <- Hday in *.
  rewrite datetime_new_ok by done.
  rewrite gt_midnight by done.
  unfold bind, lift_res. rewrite Hnext. split; [done|].
  apply datetime_new_Ret in Hnext as (-> & _).
  by apply sub_days_next_year.
Qed.

Lemma C9_birthday_today_witness :
  Contact_days_to_birthday alice two_phones
  = (Ret (PyStr (u "364 days left until birthday Alice")), two_phones)
  /\ 364 <= datetime.sub_days (datetime.mk 2025 5 10 0 0 0 0) noon <= 365.
Proof.
  apply (C9_birthday_today_counts_to_next_year
           alice two_phones (datetime.mk 2000 5 10 0 0 0 0)
           (datetime.mk 2025 5 10 0 0 0 0)).
  - reflexivity.
  - reflexivity.
  - unfold clock_reading, calendar_date. vm_compute.
    repeat split; discriminate.
  - reflexivity.
  - reflexivity.
  - reflexivity.
  - reflexivity.
Defined.

(** ** [strptime] on the strings of the shape [YYYY-MM-DD] *)

Lemma ascii_digit_cases (c : N) :
  ascii_digit c = true ->
  (c = 48 \/ c = 49 \/ c = 50 \/ c = 51 \/ c = 52 \/ c = 53 \/ c = 54
   \/ c = 55 \/ c = 56 \/ c = 57)%N.
Proof.
  unfold ascii_digit. intros [H1 H2]%andb_true_iff.
  apply N.leb_le in H1, H2. lia.
Qed.

Lemma decimal_value_ascii (c : N) :
  ascii_digit c = true -> decimal_value c = Some (datetime.ascii_value c).
Proof.
  intros H. apply ascii_digit_cases in H. by destruct_or!; subst c.
Qed.

Lemma group_Y_ascii {A} (y1 y2 y3 y4 : N) (r : str)
    (k : Z -> str -> option A) :
  forallb ascii_digit [y1; y2; y3; y4] = true ->
  datetime.group_Y (y1 :: y2 :: y3 :: y4 :: r) k
  = k (100 * two_digits y1 y2 + two_digits y3 y4) r.
Proof.
  cbn [forallb]. rewrite !andb_true_iff. intros (H1 & H2 & H3 & H4 & _).
  unfold datetime.group_Y. rewrite !decimal_value_ascii by done.
  f_equal. unfold two_digits. lia.
Qed.

(** The month of two digits, followed by the hyphen. *)
Lemma group_m_ascii {A} (m1 m2 : N) (r : str) (k : Z -> str -> option A) :
  ascii_digit m1 = true -> ascii_digit m2 = true ->
  datetime.group_m (m1 :: m2 :: 45%N :: r)
    (fun m r3 => datetime.literal 45 r3 (k m))
  = if (1 <=? two_digits m1 m2) && (two_digits m1 m2 <=? 12)
    then k (two_digits m1 m2) r else None.
Proof.
  intros H1%ascii_digit_cases H2%ascii_digit_cases.
  destruct_or!; subst m1 m2; vm_compute; try done;
    match goal with |- context [k ?m r] => by destruct (k m r) end.
Qed.

(** The day of two digits, at the end of the string. *)
Lemma group_d_ascii (d1 d2 : N) (Y M : Z) :
  ascii_digit d1 = true -> ascii_digit d2 = true ->
  datetime.group_d [d1; d2] (fun d r => Some (Y, M, d, r))
  = if (1 <=? two_digits d1 d2) && (two_digits d1 d2 <=? 31)
    then Some (Y, M, two_digits d1 d2, [])
    else if datetime.in_class 49 57 d1
         then Some (Y, M, datetime.ascii_value d1, [d2])
         else None.
Proof.
  intros H1%ascii_digit_cases H2%ascii_digit_cases.
  destruct_or!; subst d1 d2; by vm_compute.
Qed.

Lemma shape_fields_Some (s : str) (Y M D : Z) :
  shape_fields s = Some (Y, M, D) ->
  exists y1 y2 y3 y4 m1 m2 d1 d2,
    s = [y1; y2; y3; y4; 45; m1; m2; 45; d1; d2]%N
    /\ forallb ascii_digit [y1; y2; y3; y4; m1; m2; d1; d2] = true
    /\ Y = 100 * two_digits y1 y2 + two_digits y3 y4
    /\ M = two_digits m1 m2 /\ D = two_digits d1 d2.
Proof.
  unfold shape_fields.
  destruct s as [|y1 [|y2 [|y3 [|y4 [|h1 [|m1 [|m2 [|h2 [|d1 [|d2 [|]]]]]]]]]]];
    try discriminate.
  destruct (forallb _ _ && _ && _) eqn:E; [|discriminate].
  apply andb_true_iff in E as [[Hd Hh1]%andb_true_iff Hh2].
  apply N.eqb_eq in Hh1, Hh2. subst h1 h2. intros [= <- <- <-].
  by exists y1, y2, y3, y4, m1, m2, d1, d2.
Qed.

(** What [strptime] makes of a string of the shape. *)
Lemma strptime_shape (s : str) (Y M D : Z) :
  shape_fields s = Some (Y, M, D) ->
  exists msg,
    datetime.strptime (PyStr s)
    = if (1 <=? M) && (M <=? 12) && ((1 <=? D) && (D <=? 31))
      then datetime.new Y M D
      else Raise (ValueError msg).
Proof.
  intros (y1 & y2 & y3 & y4 & m1 & m2 & d1 & d2 & -> & Hd & -> & -> & ->)
    %shape_fields_Some.
  cbn [forallb] in Hd. rewrite !andb_true_iff in Hd.
  destruct Hd as (H1 & H2 & H3 & H4 & H5 & H6 & H7 & H8 & _).
  unfold datetime.strptime, datetime.regex_match.
  rewrite group_Y_ascii by (cbn [forallb]; by rewrite H1, H2, H3, H4).
  cbn [datetime.literal N.eqb Pos.eqb].
  rewrite (group_m_ascii m1 m2 [d1; d2]
             (fun m r4 => datetime.group_d r4
                (fun d r5 =>
                   Some (100 * two_digits y1 y2 + two_digits y3 y4, m, d, r5))))
    by done.
  destruct ((1 <=? two_digits m1 m2) && (two_digits m1 m2 <=? 12));
    cbn [andb]; [|by eexists].
  rewrite group_d_ascii by done.
  destruct ((1 <=? two_digits d1 d2) && (two_digits d1 d2 <=? 31));
    [by exists ""%string|].
  destruct (datetime.in_class 49 57 d1); by eexists.
Qed.

(** ** The form of every string [strptime] accepts *)

Lemma first_match_Some {A} (alts : list (option A)) (x : A) :
  datetime.first_match alts = Some x -> In (Some x) alts.
Proof.
  induction alts as [|[a|] alts IH]; cbn; [done| |].
  - intros [= ->]. by left.
  - intros H. right. by apply IH.
Qed.

Lemma group_Y_written {A} (s : str) (k : Z -> str -> option A) (x : A) :
  datetime.group_Y s k = Some x ->
  exists t r Y, s = t ++ r /\ year_written t = Some Y /\ k Y r = Some x.
Proof.
  unfold datetime.group_Y.
  destruct s as [|c1 [|c2 [|c3 [|c4 r]]]]; try discriminate.
  destruct (decimal_value c1) as [a|] eqn:E1; [|discriminate].
  destruct (decimal_value c2) as [b|] eqn:E2; [|discriminate].
  destruct (decimal_value c3) as [c|] eqn:E3; [|discriminate].
  destruct (decimal_value c4) as [d|] eqn:E4; [|discriminate].
  intros H. exists [c1; c2; c3; c4], r, (1000 * a + 100 * b + 10 * c + d).
  split; [done|]. split; [|exact H].
  cbn [year_written]. by rewrite E1, E2, E3, E4.
Qed.

Lemma literal_Some {A} (c : N) (s : str) (k : str -> option A) (x : A) :
  datetime.literal c s k = Some x -> exists r, s = c :: r /\ k r = Some x.
Proof.
  unfold datetime.literal. destruct s as [|c' r]; [discriminate|].
  destruct (N.eqb_spec c' c) as [->|]; [|discriminate].
  intros H. by exists r.
Qed.

Lemma group_m_written {A} (s : str) (k : Z -> str -> option A) (x : A) :
  datetime.group_m s k = Some x ->
  exists t r m, s = t ++ r /\ month_written t = Some m /\ k m r = Some x.
Proof.
  intros H%first_match_Some. cbn [In] in H.
  destruct H as [H|[H|[H|[]]]].
  - destruct s as [|c1 [|c2 r]]; try discriminate.
    destruct ((c1 =? 49)%N && datetime.in_class 48 50 c2) eqn:E;
      [|discriminate].
    exists [c1; c2], r, (10 + datetime.ascii_value c2).
    split; [done|]. split; [|exact H]. cbn [month_written]. by rewrite E.
  - destruct s as [|c1 [|c2 r]]; try discriminate.
    destruct ((c1 =? 48)%N && datetime.in_class 49 57 c2) eqn:E;
      [|discriminate].
    exists [c1; c2], r, (datetime.ascii_value c2).
    split; [done|]. split; [|exact H]. cbn [month_written]. rewrite E.
    apply andb_true_iff in E as [->%N.eqb_eq _]. done.
  - destruct s as [|c1 r]; try discriminate.
    destruct (datetime.in_class 49 57 c1) eqn:E; [|discriminate].
    exists [c1], r, (datetime.ascii_value c1).
    split; [done|]. split; [|exact H]. cbn [month_written]. by rewrite E.
Qed.

Lemma group_d_written {A} (s : str) (k : Z -> str -> option A) (x : A) :
  datetime.group_d s k = Some x ->
  exists t r d, s = t ++ r /\ day_written t = Some d /\ k d r = Some x.
Proof.
  intros H%first_match_Some. cbn [In] in H.
  destruct H as [H|[H|[H|[H|[H|[]]]]]].
  - destruct s as [|c1 [|c2 r]]; try discriminate.
    destruct ((c1 =? 51)%N && datetime.in_class 48 49 c2) eqn:E;
      [|discriminate].
    exists [c1; c2], r, (30 + datetime.ascii_value c2).
    split; [done|]. split; [|exact H]. cbn [day_written]. by rewrite E.
  - destruct s as [|c1 [|c2 r]]; try discriminate.
    destruct (datetime.in_class 49 50 c1) eqn:E; [|discriminate].
    destruct (decimal_value c2) as [v|] eqn:Ev; [|discriminate].
    exists [c1; c2], r, (10 * datetime.ascii_value c1 + v).
    split; [done|]. split; [|exact H]. cbn [day_written]. rewrite E, Ev.
    replace (c1 =? 51)%N with false; [done|].
    unfold datetime.in_class in E.
    apply andb_true_iff in E as [_ H2%N.leb_le].
    symmetry. apply N.eqb_neq. lia.
  - destruct s as [|c1 [|c2 r]]; try discriminate.
    destruct ((c1 =? 48)%N && datetime.in_class 49 57 c2) eqn:E;
      [|discriminate].
    exists [c1; c2], r, (datetime.ascii_value c2).
    split; [done|]. split; [|exact H]. cbn [day_written].
    apply andb_true_iff in E as [->%N.eqb_eq ->]. done.
  - destruct s as [|c1 r]; try discriminate.
    destruct (datetime.in_class 49 57 c1) eqn:E; [|discriminate].
    exists [c1], r, (datetime.ascii_value c1).
    split; [done|]. split; [|exact H]. cbn [day_written]. by rewrite E.
  - destruct s as [|c1 [|c2 r]]; try discriminate.
    destruct ((c1 =? 32)%N && datetime.in_class 49 57 c2) eqn:E;
      [|discriminate].
    exists [c1; c2], r, (datetime.ascii_value c2).
    split; [done|]. split; [|exact H]. cbn [day_written].
    apply andb_true_iff in E as [->%N.eqb_eq ->]. done.
Qed.

Lemma regex_match_written (s : str) (Y M D : Z) :
  datetime.regex_match s = Some (Y, M, D, []) ->
  exists ytext mtext dtext,
    s = ytext ++ 45%N :: mtext ++ 45%N :: dtext
    /\ year_written ytext = Some Y
    /\ month_written mtext = Some M
    /\ day_written dtext = Some D.
Proof.
  unfold datetime.regex_match.
  intros (ytext & r1 & Y' & -> & Hy & H)%group_Y_written.
  apply literal_Some in H as (r2 & -> & H).
  apply group_m_written in H as (mtext & r3 & M' & -> & Hm & H).
  apply literal_Some in H as (r4 & -> & H).
  apply group_d_written in H as (dtext & r5 & D' & -> & Hd & H).
  injection H as <- <- <- ->. rewrite app_nil_r.
  by exists ytext, mtext, dtext.
Qed.

(** The other way: a string so written matches. *)

Lemma day_written_group_d {A} (t : str) (D : Z)
    (k : Z -> str -> option A) (x : A) :
  day_written t = Some D -> k D [] = Some x -> datetime.group_d t k = Some x.
Proof.
  unfold day_written, datetime.group_d.
  destruct t as [|c1 [|c2 [|]]]; try discriminate.
  - destruct (datetime.in_class 49 57 c1); [|discriminate].
    intros [= <-] Hk. cbn [datetime.first_match]. by rewrite Hk.
  - destruct ((c1 =? 51)%N && datetime.in_class 48 49 c2).
    { intros [= <-] Hk. cbn [datetime.first_match]. by rewrite Hk. }
    destruct (datetime.in_class 49 50 c1) eqn:E1.
    { destruct (decimal_value c2) as [v|]; [|discriminate].
      intros [= <-] Hk. cbn [datetime.first_match]. by rewrite Hk. }
    destruct (N.eqb_spec c1 48) as [->|Hn48]; cbn [orb andb].
    { destruct (datetime.in_class 49 57 c2); [|discriminate].
      intros [= <-] Hk. cbn [datetime.first_match]. by rewrite Hk. }
    destruct (N.eqb_spec c1 32) as [->|Hn32]; cbn [orb andb]; [|discriminate].
    destruct (datetime.in_class 49 57 c2); [|discriminate].
    intros [= <-] Hk. cbn. by rewrite Hk.
Qed.

Lemma month_written_group_m {A} (t r : str) (M : Z)
    (k : Z -> str -> option A) (x : A) :
  month_written t = Some M -> k M (45%N :: r) = Some x ->
  datetime.group_m (t ++ 45%N :: r) k = Some x.
Proof.
  unfold month_written, datetime.group_m.
  destruct t as [|c1 [|c2 [|]]]; try discriminate.
  - cbn [app]. destruct (datetime.in_class 49 57 c1); [|discriminate].
    intros [= <-] Hk.
    change (datetime.in_class 48 50 45) with false.
    change (datetime.in_class 49 57 45) with false.
    rewrite !andb_false_r. cbn [datetime.first_match]. by rewrite Hk.
  - cbn [app].
    destruct ((c1 =? 49)%N && datetime.in_class 48 50 c2).
    { intros [= <-] Hk. cbn [datetime.first_match]. by rewrite Hk. }
    destruct ((c1 =? 48)%N && datetime.in_class 49 57 c2); [|discriminate].
    intros [= <-] Hk. cbn [datetime.first_match]. by rewrite Hk.
Qed.

Lemma written_regex_match (ytext mtext dtext : str) (Y M D : Z) :
  year_written ytext = Some Y ->
  month_written mtext = Some M ->
  day_written dtext = Some D ->
  datetime.regex_match (ytext ++ 45%N :: mtext ++ 45%N :: dtext)
  = Some (Y, M, D, []).
Proof.
  intros Hy Hm Hd. unfold datetime.regex_match.
  unfold year_written in Hy.
  destruct ytext as [|c1 [|c2 [|c3 [|c4 [|]]]]]; try discriminate.
  cbn [app datetime.group_Y].
  destruct (decimal_value c1) as [a|]; [|discriminate].
  destruct (decimal_value c2) as [b|]; [|discriminate].
  destruct (decimal_value c3) as [c|]; [|discriminate].
  destruct (decimal_value c4) as [d|]; [|discriminate].
  injection Hy as <-. cbn [datetime.literal]. rewrite N.eqb_refl.
  apply (month_written_group_m mtext dtext M); [exact Hm|].
  cbn [datetime.literal]. rewrite N.eqb_refl.
  by apply (day_written_group_d dtext D).
Qed.

(** ** C4: the strings [Birthday] accepts *)

(** C4, as the code has it.  [Birthday] accepts what [strptime] accepts
    under ["%Y-%m-%d"], and [strptime] builds a date of the calendar.  A
    string of the shape [YYYY-MM-DD] is accepted exactly when it writes
    such a date: the year at least 1, the month in 1..12, the day no more
    than the month has in that year.  The strings that are accepted, of
    that shape or not, are those made of a year of four decimal digits, a
    hyphen, a month written ["10"] to ["12"], ["01"] to ["09"] or ["1"]
    to ["9"], a hyphen and a day written ["30"], ["31"], ['1'] or ['2']
    and a decimal digit, ['0'] or a blank and ['1'] to ['9'], or ["1"] to
    ["9"], whose three numbers are a date of the calendar.  A string that
    is refused is refused with [ValueError]. *)
Theorem C4_birthday_accepts_calendar_dates (s : str) (w : world) :
  (forall Y M D,
     shape_fields s = Some (Y, M, D) ->
     (calendar_date Y M D ->
      exists self w',
        Birthday_init (PyStr s) w = (Ret self, w')
        /\ heap w' !! self = Some (PyStr s))
     /\
     (~ calendar_date Y M D ->
      exists w',
        Birthday_init (PyStr s) w
        = (Raise (ValueError
             "Invalid date format. Please provide Year-Month-Day."), w')))
  /\
  ((exists self w', Birthday_init (PyStr s) w = (Ret self, w'))
   <->
   (exists ytext mtext dtext Y M D,
      s = ytext ++ 45%N :: mtext ++ 45%N :: dtext
      /\ year_written ytext = Some Y
      /\ month_written mtext = Some M
      /\ day_written dtext = Some D
      /\ calendar_date Y M D))
  /\
  (forall e w',
     Birthday_init (PyStr s) w = (Raise e, w') ->
     e = ValueError "Invalid date format. Please provide Year-Month-Day.").
Proof.
  rewrite Birthday_init_run. split; [|split].
  - intros Y M D Hshape.
    destruct (strptime_shape s Y M D Hshape) as [msg Hs]. rewrite Hs.
    split.
    + intros (Hy & Hm & Hd).
      pose proof (days_in_month_bounds Y M Hm).
      replace ((1 <=? M) && (M <=? 12) && ((1 <=? D) && (D <=? 31)))
        with true by lia.
      rewrite datetime_new_ok by done.
      eexists _, _. split; [done|]. cbn. by apply list_lookup_middle.
    + intros Hnot.
      destruct ((1 <=? M) && (M <=? 12) && ((1 <=? D) && (D <=? 31)));
        [|by eexists].
      destruct (datetime.new Y M D) as [dt|e] eqn:Hnew.
      * exfalso. apply Hnot.
        by apply datetime_new_Ret in Hnew as (_ & ? & ? & ?).
      * apply datetime_new_Raise in Hnew. destruct e; try done.
        by eexists.
  - split.
    + intros (self & w' & H).
      destruct (datetime.strptime (PyStr s)) as [dt|e] eqn:Hp.
      2:{ by destruct e. }
      apply strptime_Ret in Hp as (s' & Y & M & D & [= <-] & Hre & Hnew).
      apply regex_match_written in Hre
        as (ytext & mtext & dtext & Hs & Hy & Hm & Hd).
      apply datetime_new_Ret in Hnew as (_ & Hcal).
      by exists ytext, mtext, dtext, Y, M, D.
    + intros (ytext & mtext & dtext & Y & M & D
              & -> & Hy & Hm & Hd & Hcal).
      unfold datetime.strptime.
      rewrite (written_regex_match _ _ _ Y M D) by done.
      destruct Hcal as (HY & HM & HD).
      rewrite datetime_new_ok by done. by eexists _, _.
  - intros e w' H.
    destruct (datetime.strptime (PyStr s)) as [dt|e'] eqn:Hp; [done|].
    apply strptime_Raise_str in Hp. destruct e'; try done.
    by injection H as <- _.
Qed.

Lemma C4_birthday_witness :
  (exists self w',
     Birthday_init (PyStr (u "2024-02-29")) empty_world = (Ret self, w')
     /\ heap w' !! self = Some (PyStr (u "2024-02-29")))
  /\
  (exists w',
     Birthday_init (PyStr (u "2000-02-30")) empty_world
     = (Raise (ValueError
          "Invalid date format. Please provide Year-Month-Day."), w'))
  /\
  (exists self w',
     Birthday_init (PyStr (u "2000-1- 5")) empty_world = (Ret self, w')).
Proof.
  split; [|split].
  - apply (C4_birthday_accepts_calendar_dates (u "2024-02-29") empty_world)
      with (Y := 2024) (M := 2) (D := 29).
    + reflexivity.
    + unfold calendar_date. vm_compute. repeat split; discriminate.
  - apply (C4_birthday_accepts_calendar_dates (u "2000-02-30") empty_world)
      with (Y := 2000) (M := 2) (D := 30).
    + reflexivity.
    + unfold calendar_date. vm_compute. intros (_ & _ & _ & H). by apply H.
  - apply (C4_birthday_accepts_calendar_dates (u "2000-1- 5") empty_world).
    exists (u "2000"), (u "1"), (u " 5"), 2000, 1, 5.
    split; [reflexivity|]. split; [reflexivity|]. split; [reflexivity|].
    split; [reflexivity|].
    unfold calendar_date. vm_compute. repeat split; discriminate.
Defined.

(** C4, as the claim words it, fails both ways: ["2000-02-30"] has the
    shape, a month in 1..12 and a day in 1..31, and is refused;
    ["2000-1-5"] has not the shape and is accepted. *)
Lemma C4_birthday_counterexample :
  spec_birthday (u "2000-02-30") = true
  /\ fst (Birthday_init (PyStr (u "2000-02-30")) empty_world)
     = Raise (ValueError
         "Invalid date format. Please provide Year-Month-Day.")
  /\ spec_birthday (u "2000-1-5") = false
  /\ fst (Birthday_init (PyStr (u "2000-1-5")) empty_world) = Ret 0%nat.
Proof. repeat split. Qed.

(** * Further properties *)

(** ** The dictionary of the address book *)

Lemma dict_get_set_same (d : dict) (k : str) (v : Contact) :
  dict_get (dict_set d k v) k = Some v.
Proof.
  induction d as [|[k' v'] d IH]; cbn.
  - by rewrite decide_True.
  - destruct (decide (k' = k)) as [->|Hne]; cbn.
    + by rewrite decide_True.
    + by rewrite decide_False.
Qed.

Lemma dict_get_set_other (d : dict) (k k0 : str) (v : Contact) :
  k0 <> k -> dict_get (dict_set d k v) k0 = dict_get d k0.
Proof.
  intros Hne. induction d as [|[k' v'] d IH]; cbn.
  - by rewrite decide_False.
  - destruct (decide (k' = k)) as [->|Hk]; cbn.
    + by rewrite !decide_False.
    + destruct (decide (k' = k0)); [done|]. exact IH.
Qed.

Lemma dict_get_None (d : dict) (k : str) :
  dict_get d k = None <-> ~ In k (book_keys d).
Proof.
  induction d as [|[k' v'] d IH]; cbn; [tauto|].
  destruct (decide (k' = k)) as [->|Hk].
  - split; [done|]. intros H. exfalso. apply H. by left.
  - rewrite IH. tauto.
Qed.



(** X1.  [add_record] then [find]: the record added is the one found
    under its name, and what is found under any other name is what was
    found before. *)
Theorem X1_add_record_then_find
    (data : dict) (w : world) (record : Contact) (other : str) :
  (AddressBook_add_record record ;;; AddressBook_find (name record))
    (data, w)
  = (Ret (Some record), (dict_set data (name record) record, w))
  /\ (other <> name record ->
      fst ((AddressBook_add_record record ;;; AddressBook_find other)
             (data, w))
      = fst (AddressBook_find other (data, w))).
Proof.
  unfold AddressBook_add_record, AddressBook_find, bind, get_self,
    set_self, ret. cbn [fst snd]. split.
  - by rewrite dict_get_set_same.
  - intros Hne. by rewrite dict_get_set_other.
Qed.

Lemma X1_add_record_then_find_witness :
  (AddressBook_add_record bob ;;; AddressBook_find (name bob))
    ([(u "Alice", alice)], two_phones)
  = (Ret (Some bob), (dict_set [(u "Alice", alice)] (name bob) bob,
                      two_phones))
  /\ fst ((AddressBook_add_record bob ;;; AddressBook_find (u "Alice"))
            ([(u "Alice", alice)], two_phones))
     = fst (AddressBook_find (u "Alice") ([(u "Alice", alice)], two_phones)).
Proof.
  destruct (X1_add_record_then_find [(u "Alice", alice)] two_phones bob
              (u "Alice")) as [Hsame Hother].
  split; [exact Hsame|]. apply Hother. discriminate.
Defined.




(** ** [AddressBook.delete] *)

Lemma filter_key_cons (k k' : str) (v' : Contact) (d : dict) :
  filter (fun kv => fst kv <> k) ((k', v') :: d)
  = if decide (k' <> k)
    then (k', v') :: filter (fun kv => fst kv <> k) d
    else filter (fun kv => fst kv <> k) d.
Proof. unfold dict in *. by rewrite list.filter_cons. Qed.

Lemma dict_get_filter_same (d : dict) (k : str) :
  dict_get (filter (fun kv => fst kv <> k) d) k = None.
Proof.
  induction d as [|[k' v'] d IH]; [done|].
  rewrite filter_key_cons. destruct (decide (k' <> k)) as [Hne|Heq].
  - cbn. by rewrite decide_False.
  - exact IH.
Qed.

Lemma dict_get_filter_other (d : dict) (k k0 : str) :
  k0 <> k ->
  dict_get (filter (fun kv => fst kv <> k) d) k0 = dict_get d k0.
Proof.
  intros Hne. induction d as [|[k' v'] d IH]; [done|].
  rewrite filter_key_cons. destruct (decide (k' <> k)) as [Hk|Hk].
  - cbn. by rewrite IH.
  - apply dec_stable in Hk. subst k'. cbn. by rewrite decide_False.
Qed.

Lemma filter_absent (d : dict) (k : str) :
  ~ In k (book_keys d) -> filter (fun kv => fst kv <> k) d = d.
Proof.
  induction d as [|[k' v'] d IH]; [done|]. cbn [book_keys map fst In].
  intros Hin. rewrite filter_key_cons. rewrite decide_True by tauto.
  f_equal. apply IH. tauto.
Qed.

(** X3.  [delete]: a name that is not in the book leaves the book as it
    is, and no error is raised; after [delete] nothing is found under the
    name, and what is found under any other name is what was found
    before. *)
Theorem X3_delete_removes_only_the_name
    (data : dict) (w : world) (k other : str) :
  exists data',
    AddressBook_delete k (data, w) = (Ret tt, (data', w))
    /\ (~ In k (book_keys data) -> data' = data)
    /\ dict_get data' k = None
    /\ (other <> k -> dict_get data' other = dict_get data other).
Proof.
  eexists. split; [done|]. split; [|split].
  - apply filter_absent.
  - apply dict_get_filter_same.
  - apply dict_get_filter_other.
Qed.

Lemma X3_delete_witness :
  exists data',
    AddressBook_delete (u "Carol") (alice_and_bob, two_phones)
    = (Ret tt, (data', two_phones))
    /\ data' = alice_and_bob
    /\ dict_get data' (u "Carol") = None
    /\ dict_get data' (u "Bob") = dict_get alice_and_bob (u "Bob").
Proof.
  destruct (X3_delete_removes_only_the_name
              alice_and_bob two_phones (u "Carol") (u "Bob"))
    as (data' & Hrun & Habsent & Hgone & Hother).
  exists data'. split; [exact Hrun|]. split; [|split; [exact Hgone|]].
  - apply Habsent. vm_compute. intros [H|[H|[]]]; discriminate H.
  - apply Hother. discriminate.
Defined.

(** ** [Contact.find_phone] *)

Lemma find_phone_loop_run (todo : list loc) (wanted : str) (w : world) :
  find_phone_loop todo wanted w
  = (Ret (List.find (holds w (PyStr wanted)) todo), w).
Proof.
  induction todo as [|phone rest IH]; [done|].
  cbn [find_phone_loop List.find].
  unfold bind at 1, Field_value at 1, read at 1. unfold holds at 1.
  by destruct (py_eq (heap w !!! phone) (PyStr wanted)).
Qed.

Lemma find_first (hit : loc -> bool) (l : list loc) (x : loc) :
  List.find hit l = Some x ->
  exists i,
    l !! i = Some x /\ hit x = true
    /\ forall j y, (j < i)%nat -> l !! j = Some y -> hit y = false.
Proof.
  induction l as [|y l IH]; [done|]. cbn [List.find].
  destruct (hit y) eqn:Hy.
  - intros [= ->]. exists 0%nat. split; [done|]. split; [done|]. lia.
  - intros (i & Hi & Hx & Hbefore)%IH. exists (S i).
    split; [done|]. split; [done|].
    intros [|j] z Hj; cbn.
    + by intros [= <-].
    + apply Hbefore. lia.
Qed.

Lemma find_none (hit : loc -> bool) (l : list loc) :
  List.find hit l = None <-> Forall (fun x => hit x = false) l.
Proof.
  induction l as [|y l IH]; cbn [List.find].
  - split; [constructor|done].
  - destruct (hit y) eqn:Hy.
    + split; [done|]. intros [H _]%Forall_cons_iff. congruence.
    + rewrite IH. split.
      * by constructor.
      * by intros [_ H]%Forall_cons_iff.
Qed.

Lemma holds_none (w : world) (v : pyval) (l : list loc) :
  Forall (fun x => holds w v x = false) l
  <-> ~ In v (map (fun x => heap w !!! x) l).
Proof.
  induction l as [|y l IH]; cbn [map In].
  - split; [tauto|constructor].
  - rewrite Forall_cons_iff, IH. unfold holds at 1.
    rewrite py_eq_false. tauto.
Qed.

(** X4.  [find_phone] returns the first phone of the list whose value is
    [str(phone_number)]; it returns [None] exactly when no phone has that
    value.  It never raises and changes nothing. *)
Theorem X4_find_phone_returns_the_first_match
    (c : Contact) (w : world) (phone_number : pyval) :
  exists r,
    Contact_find_phone c phone_number w = (Ret r, w)
    /\ (forall l,
          r = Some l ->
          exists i,
            phones c !! i = Some l
            /\ heap w !!! l = PyStr (py_str phone_number)
            /\ forall j l',
                 (j < i)%nat -> phones c !! j = Some l' ->
                 heap w !!! l' <> PyStr (py_str phone_number))
    /\ (r = None <-> ~ In (PyStr (py_str phone_number)) (phone_values c w)).
Proof.
  unfold Contact_find_phone. rewrite find_phone_loop_run.
  eexists. split; [done|]. split.
  - intros l (i & Hi & Hl & Hbefore)%find_first. exists i.
    split; [done|]. split; [by apply py_eq_true|].
    intros j l' Hj Hl'. apply py_eq_false. by apply (Hbefore j).
  - rewrite find_none. apply holds_none.
Qed.

Lemma X4_find_phone_witness :
  exists r,
    Contact_find_phone carol (PyStr (u "1234567890")) three_phones
    = (Ret r, three_phones)
    /\ r = Some 0%nat
    /\ (r = None
        <-> ~ In (PyStr (py_str (PyStr (u "1234567890"))))
                 (phone_values carol three_phones)).
Proof.
  destruct (X4_find_phone_returns_the_first_match
              carol three_phones (PyStr (u "1234567890")))
    as (r & Hrun & _ & Hnone).
  exists r. split; [exact Hrun|]. split; [|exact Hnone].
  vm_compute in Hrun. by injection Hrun as <-.
Defined.

(** ** [Contact.remove_phone] *)

Lemma list_remove_app_fresh (pre post : list loc) (x : loc) :
  x ∉ pre -> list_remove (pre ++ x :: post) x = Some (pre ++ post).
Proof.
  induction pre as [|y pre IH]; cbn; intros Hx.
  - by rewrite Nat.eqb_refl.
  - apply not_elem_of_cons in Hx as [Hne Hx].
    replace (y =? x)%nat with false by (symmetry; by apply Nat.eqb_neq).
    by rewrite IH.
Qed.

Lemma remove_phone_loop_done (fuel i : nat) (new_phone : loc)
    (c : Contact) (w : world) :
  (length (phones c) <= i)%nat ->
  remove_phone_loop fuel i new_phone (c, w) = (Ret tt, (c, w)).
Proof.
  intros Hi. destruct fuel; [done|]. cbn [remove_phone_loop].
  unfold bind, get_self. cbn [fst snd].
  by rewrite lookup_ge_None_2.
Qed.

Section RemoveLoop.

Variables (w : world) (new_phone : loc) (nm : str) (bd : pyval).

(** The loop at position [length pre], the phones before it kept and
    those from it on still to visit. *)
Lemma remove_phone_loop_run (fuel : nat) (post pre : list loc) :
  (length post <= fuel)%nat ->
  NoDup (pre ++ post) ->
  remove_phone_loop fuel (length pre) new_phone
                    (mkContact nm (pre ++ post) bd, w)
  = (Ret tt,
     (mkContact nm (pre ++ remove_skip (edit_hit w new_phone) post) bd, w)).
Proof.
  revert post pre. induction fuel as [|fuel IH]; intros post pre Hfuel Hnd.
  - destruct post; [done|cbn in Hfuel; lia].
  - destruct post as [|num rest].
    + apply remove_phone_loop_done. cbn. rewrite app_nil_r. lia.
    + cbn [remove_phone_loop].
      unfold bind at 1, get_self at 1. cbn [fst snd phones].
      rewrite (list_lookup_middle pre rest num (length pre) eq_refl).
      unfold bind at 1, in_world at 1, Field_value at 1, read at 1.
      cbn [fst snd].
      unfold bind at 1, in_world at 1, Field_value at 1, read at 1.
      cbn [fst snd].
      fold (edit_hit w new_phone num). cbn [remove_skip].
      destruct (edit_hit w new_phone num) eqn:Hhit.
      * rewrite list_remove_app_fresh.
        2:{ apply list.NoDup_app in Hnd as (_ & Hdisj & _).
            intros Hin. apply (Hdisj num Hin). by left. }
        unfold bind at 1, set_self at 1.
        cbn [fst snd name phones birthday].
        destruct rest as [|y rest'].
        -- apply remove_phone_loop_done. cbn. rewrite app_nil_r. lia.
        -- replace (pre ++ y :: rest') with ((pre ++ [y]) ++ rest')
             by by rewrite <- app_assoc.
           replace (S (length pre)) with (length (pre ++ [y]))
             by (rewrite length_app; cbn; lia).
           rewrite IH.
           ++ by rewrite <- app_assoc.
           ++ cbn in Hfuel. lia.
           ++ rewrite <- app_assoc. cbn.
              apply list.NoDup_app in Hnd as (Hpre & Hdisj & Hpost).
              apply list.NoDup_cons in Hpost as [_ Hpost].
              apply list.NoDup_app. split; [done|]. split; [|done].
              intros x Hx Hin. apply (Hdisj x Hx). by right.
      * replace (pre ++ num :: rest) with ((pre ++ [num]) ++ rest)
          by by rewrite <- app_assoc.
        replace (S (length pre)) with (length (pre ++ [num]))
          by (rewrite length_app; cbn; lia).
        rewrite IH.
        -- by rewrite <- app_assoc.
        -- cbn in Hfuel. lia.
        -- by rewrite <- app_assoc.
Qed.

End RemoveLoop.

Lemma remove_skip_ext (f g : loc -> bool) (l : list loc) :
  Forall (fun x => f x = g x) l -> remove_skip f l = remove_skip g l.
Proof.
  revert l. fix IH 2. intros l Hl. destruct Hl as [|x rest Hx Hrest]; [done|].
  cbn [remove_skip]. rewrite Hx. destruct (g x).
  - destruct Hrest as [|y rest' Hy Hrest']; [done|]. f_equal. by apply IH.
  - f_equal. by apply IH.
Qed.

Lemma remove_skip_filter (hit : loc -> bool) (l : list loc) :
  no_adjacent hit l = true ->
  remove_skip hit l = List.filter (fun x => negb (hit x)) l.
Proof.
  induction l as [|x rest IH]; [done|].
  cbn [remove_skip no_adjacent List.filter].
  destruct rest as [|y rest'].
  - by destruct (hit x).
  - intros [Hxy Hrest]%andb_true_iff. specialize (IH Hrest).
    destruct (hit x) eqn:Hx; cbn [negb].
    + cbn [andb] in Hxy. apply negb_true_iff in Hxy.
      cbn [remove_skip List.filter] in IH. rewrite Hxy in IH.
      cbn [negb] in IH. cbn [List.filter]. rewrite Hxy. cbn [negb].
      f_equal. destruct rest' as [|z rest'']; [done|].
      by injection IH.
    + by rewrite IH.
Qed.

Lemma holds_new_phone (w : world) (v : pyval) (ps : list loc) :
  Forall (fun l => (l < length (heap w))%nat) ps ->
  Forall (fun l =>
            edit_hit (set_heap w (heap w ++ [v])) (length (heap w)) l
            = holds w v l) ps.
Proof.
  apply Forall_impl. intros l Hl. unfold edit_hit, holds. cbn.
  by rewrite heap_read_new, heap_read_old.
Qed.

Lemma Contact_remove_phone_run (c : Contact) (w : world) (phone : pyval) :
  phones_allocated c w -> NoDup (phones c) -> phone_ok phone = true ->
  Contact_remove_phone phone (c, w)
  = (Ret tt,
     (mkContact (name c) (remove_skip (holds w phone) (phones c))
                (birthday c),
      set_heap w (heap w ++ [phone]))).
Proof.
  intros Hc Hnd Hok. destruct c as [nm ps bd].
  unfold phones_allocated in Hc. cbn [phones name birthday] in *.
  unfold Contact_remove_phone.
  unfold bind at 1, in_world at 1. cbn [fst snd].
  rewrite Phone_init_run, Hok.
  unfold bind at 1, get_self at 1. cbn [fst snd phones].
  pose proof (remove_phone_loop_run (set_heap w (heap w ++ [phone]))
                (length (heap w)) nm bd (length ps) ps []) as Hloop.
  cbn [length app] in Hloop. rewrite Hloop by done.
  by rewrite (remove_skip_ext _ _ _ (holds_new_phone w phone ps Hc)).
Qed.

Lemma filter_values (w : world) (v : pyval) (ps : list loc) :
  map (fun l => heap w !!! l) (List.filter (fun l => negb (holds w v l)) ps)
  = List.filter (fun x => negb (py_eq x v)) (map (fun l => heap w !!! l) ps).
Proof.
  induction ps as [|l ps IH]; [done|]. cbn [List.filter map].
  unfold holds at 1. destruct (py_eq (heap w !!! l) v); cbn [negb map].
  - exact IH.
  - by rewrite IH.
Qed.

Lemma filter_allocated (hit : loc -> bool) (n : nat) (ps : list loc) :
  Forall (fun l => (l < n)%nat) ps ->
  Forall (fun l => (l < n)%nat) (List.filter hit ps).
Proof.
  induction 1 as [|l ps Hl Hps IH]; [constructor|]. cbn [List.filter].
  destruct (hit l); [by constructor|done].
Qed.

Lemma heap_values_new (h : list pyval) (v : pyval) (ps : list loc) :
  Forall (fun l => (l < length h)%nat) ps ->
  map (fun l => (h ++ [v]) !!! l) ps = map (fun l => h !!! l) ps.
Proof.
  induction 1 as [|l ps Hl _ IH]; [done|].
  cbn [map]. by rewrite IH, heap_read_old.
Qed.

(** X5.  [remove_phone] of a valid number, on a contact no object of
    which is twice in the list: the call returns, and the list is what a
    loop that removes under its own iterator leaves, the phone after each
    removed one being passed over.  When no two neighbours both have the
    number, every phone with the number is gone and the others are in
    their order. *)
Theorem X5_remove_phone_passes_over_the_next
    (c : Contact) (w : world) (p : str) :
  phones_allocated c w -> NoDup (phones c) -> phone_ok (PyStr p) = true ->
  exists c' w',
    Contact_remove_phone (PyStr p) (c, w) = (Ret tt, (c', w'))
    /\ name c' = name c /\ birthday c' = birthday c
    /\ phones c' = remove_skip (holds w (PyStr p)) (phones c)
    /\ (no_adjacent (holds w (PyStr p)) (phones c) = true ->
        phone_values c' w'
        = List.filter (fun v => negb (py_eq v (PyStr p))) (phone_values c w)
        /\ ~ In (PyStr p) (phone_values c' w')).
Proof.
  intros Hc Hnd Hok.
  rewrite (Contact_remove_phone_run c w (PyStr p) Hc Hnd Hok).
  eexists _, _. split; [done|]. cbn [name birthday phones].
  split; [done|]. split; [done|]. split; [done|].
  intros Hadj. unfold phone_values. cbn [phones heap set_heap].
  rewrite (remove_skip_filter _ _ Hadj).
  rewrite heap_values_new by by apply filter_allocated.
  rewrite filter_values. split; [done|].
  intros [_ Hin]%filter_In. rewrite negb_true_iff in Hin.
  apply py_eq_false in Hin. done.
Qed.

Lemma X5_remove_phone_witness :
  exists c' w',
    Contact_remove_phone (PyStr (u "5550000000")) (carol, three_phones)
    = (Ret tt, (c', w'))
    /\ name c' = name carol /\ birthday c' = birthday carol
    /\ phones c'
       = remove_skip (holds three_phones (PyStr (u "5550000000")))
                     (phones carol)
    /\ (no_adjacent (holds three_phones (PyStr (u "5550000000")))
                    (phones carol) = true ->
        phone_values c' w'
        = List.filter (fun v => negb (py_eq v (PyStr (u "5550000000"))))
                      (phone_values carol three_phones)
        /\ ~ In (PyStr (u "5550000000")) (phone_values c' w')).
Proof.
  apply (X5_remove_phone_passes_over_the_next
           carol three_phones (u "5550000000")).
  - apply (bool_decide_unpack _). vm_compute. exact I.
  - apply (bool_decide_unpack _). vm_compute. exact I.
  - reflexivity.
Defined.

Lemma remove_skip_app_miss (hit : loc -> bool) (pre post : list loc) :
  Forall (fun l => hit l = false) pre ->
  remove_skip hit (pre ++ post) = pre ++ remove_skip hit post.
Proof.
  induction 1 as [|l pre Hl _ IH]; [done|].
  cbn [app remove_skip]. by rewrite Hl, IH.
Qed.

(** X6.  [add_phone] twice and then [remove_phone], all with one valid
    number the contact did not have: one phone with the number is left.
    The first of the two is removed, the second moves under the iterator
    and is passed over. *)
Theorem X6_remove_phone_leaves_a_duplicate
    (c : Contact) (w : world) (p : str) :
  phones_allocated c w -> NoDup (phones c) -> phone_ok (PyStr p) = true ->
  ~ In (PyStr p) (phone_values c w) ->
  exists c' w',
    (Contact_add_phone (PyStr p) ;;; Contact_add_phone (PyStr p) ;;;
     Contact_remove_phone (PyStr p)) (c, w)
    = (Ret tt, (c', w'))
    /\ phone_values c' w' = phone_values c w ++ [PyStr p].
Proof.
  intros Hc Hnd Hok Hnone. unfold bind.
  rewrite (Contact_add_phone_run _ c w Hc Hok).
  pose proof (phones_allocated_add c w (PyStr p) Hc) as Hc1.
  rewrite Contact_add_phone_run by done.
  cbn [name phones birthday heap set_heap].
  set (n := length (heap w)).
  set (w2 := set_heap _ _).
  set (c2 := mkContact _ _ _).
  assert (heap w2 = (heap w ++ [PyStr p]) ++ [PyStr p]) as Hheap by done.
  assert (length (heap w ++ [PyStr p]) = S n) as Hlen.
  { rewrite length_app. cbn. unfold n. lia. }
  assert (phones c2 = phones c ++ [n; S n]) as Hphones.
  { unfold c2. cbn. by rewrite Hlen, <- app_assoc. }
  assert (phones_allocated c2 w2) as Hc2.
  { unfold phones_allocated. rewrite Hphones, Hheap, !length_app. cbn.
    apply Forall_app. split.
    - eapply Forall_impl; [|exact Hc]. cbn. lia.
    - repeat constructor; unfold n; lia. }
  assert (NoDup (phones c2)) as Hnd2.
  { rewrite Hphones. apply list.NoDup_app. split; [done|]. split.
    - intros x Hx Hin. unfold phones_allocated in Hc.
      rewrite Forall_forall in Hc.
      apply list_elem_of_In, Hc in Hx. fold n in Hx.
      apply list_elem_of_In in Hin. cbn in Hin. lia.
    - apply list.NoDup_cons. split.
      + intros [H|[]]%list_elem_of_In. lia.
      + apply NoDup_singleton. }
  rewrite (Contact_remove_phone_run c2 w2 (PyStr p) Hc2 Hnd2 Hok).
  eexists _, _. split; [done|].
  unfold phone_values. cbn [phones heap set_heap]. rewrite Hphones.
  assert (Forall (fun l => holds w2 (PyStr p) l = false) (phones c))
    as Hmiss.
  { apply holds_none. rewrite Hheap.
    unfold phones_allocated in Hc. unfold phone_values in Hnone.
    by rewrite heap_values_two_new. }
  rewrite (remove_skip_app_miss _ _ _ Hmiss).
  assert (holds w2 (PyStr p) n = true) as Hn.
  { unfold holds. rewrite Hheap. apply py_eq_true.
    apply heap_read_first_new. }
  cbn [remove_skip]. rewrite Hn. rewrite map_app. cbn [map]. f_equal.
  - rewrite Hheap. rewrite heap_values_new.
    + by apply heap_values_two_new.
    + eapply Forall_impl; [|exact Hc]. cbn. intros l Hl.
      rewrite !length_app. cbn. lia.
  - f_equal. rewrite Hheap.
    rewrite lookup_total_app_l by (rewrite !length_app; cbn; fold n; lia).
    apply heap_read_second_new.
Qed.

Lemma X6_remove_phone_duplicate_witness :
  exists c' w',
    (Contact_add_phone (PyStr (u "5551234567")) ;;;
     Contact_add_phone (PyStr (u "5551234567")) ;;;
     Contact_remove_phone (PyStr (u "5551234567"))) (alice, two_phones)
    = (Ret tt, (c', w'))
    /\ phone_values c' w'
       = phone_values alice two_phones ++ [PyStr (u "5551234567")].
Proof.
  apply (X6_remove_phone_leaves_a_duplicate
           alice two_phones (u "5551234567")).
  - apply (bool_decide_unpack _). vm_compute. exact I.
  - apply (bool_decide_unpack _). vm_compute. exact I.
  - reflexivity.
  - vm_compute. intros [H|[]]. discriminate H.
Defined.

(** ** Invalid numbers *)

Lemma phone_values_new (c : Contact) (w : world) (v : pyval) :
  phones_allocated c w ->
  phone_values c (set_heap w (heap w ++ [v])) = phone_values c w.
Proof. intros Hc. unfold phone_values. cbn. by apply heap_values_new. Qed.

(** X7.  A number [Phone] refuses makes [add_phone], [remove_phone] and
    [edit_phone] (as the old or as the new number) raise [ValueError]
    before they touch the list: the contact is as it was, and so are the
    values of its phones. *)
Theorem X7_invalid_number_leaves_the_contact
    (c : Contact) (w : world) (bad good : pyval) :
  phone_ok bad = false -> phone_ok good = true -> phones_allocated c w ->
  let failed (r : res unit * (Contact * world)) :=
    fst r = Raise (ValueError "Invalid phone number format")
    /\ fst (snd r) = c
    /\ phone_values c (snd (snd r)) = phone_values c w in
  failed (Contact_add_phone bad (c, w))
  /\ failed (Contact_remove_phone bad (c, w))
  /\ failed (Contact_edit_phone bad good (c, w))
  /\ failed (Contact_edit_phone good bad (c, w)).
Proof.
  intros Hbad Hgood Hc failed. unfold failed.
  pose proof (phone_values_new c w bad Hc) as Hvals.
  unfold Contact_add_phone, Contact_remove_phone, Contact_edit_phone.
  unfold bind, in_world. cbn [fst snd].
  rewrite !Phone_init_run, Hbad, Hgood. cbn [fst snd].
  rewrite ?Phone_init_run, ?Hbad. cbn [fst snd].
  repeat split; try done.
  unfold phone_values. cbn. unfold phones_allocated in Hc.
  by rewrite heap_values_two_new.
Qed.

Lemma X7_invalid_number_witness :
  let failed (r : res unit * (Contact * world)) :=
    fst r = Raise (ValueError "Invalid phone number format")
    /\ fst (snd r) = carol
    /\ phone_values carol (snd (snd r)) = phone_values carol three_phones in
  failed (Contact_add_phone (PyStr (u "12345")) (carol, three_phones))
  /\ failed (Contact_remove_phone (PyStr (u "12345")) (carol, three_phones))
  /\ failed (Contact_edit_phone (PyStr (u "12345"))
                                (PyStr (u "1111111111"))
                                (carol, three_phones))
  /\ failed (Contact_edit_phone (PyStr (u "1111111111"))
                                (PyStr (u "12345"))
                                (carol, three_phones)).
Proof.
  apply (X7_invalid_number_leaves_the_contact
           carol three_phones (PyStr (u "12345")) (PyStr (u "1111111111"))).
  - reflexivity.
  - reflexivity.
  - apply (bool_decide_unpack _). vm_compute. exact I.
Defined.

(** ** [Contact.__init__] *)

Lemma mapM_Phone_init_fails (vals : list pyval) (w : world) :
  forallb phone_ok vals = false ->
  exists w',
    mapM Phone_init vals w
    = (Raise (ValueError "Invalid phone number format"), w').
Proof.
  revert w. induction vals as [|v vals IH]; intros w; [done|].
  cbn [forallb mapM]. unfold bind at 1. rewrite Phone_init_run.
  destruct (phone_ok v); cbn [andb].
  - intros Hrest. destruct (IH (set_heap w (heap w ++ [v])) Hrest)
      as [w' Hw']. unfold bind. rewrite Hw'. by eexists.
  - intros _. by eexists.
Qed.

Lemma heap_values_seq (h vals : list pyval) :
  map (fun l => (h ++ vals) !!! l) (seq (length h) (length vals)) = vals.
Proof.
  revert h. induction vals as [|v vals IH]; intros h; [done|].
  cbn [length seq map]. rewrite list_lookup_total_middle by done. f_equal.
  replace (h ++ v :: vals) with ((h ++ [v]) ++ vals)
    by by rewrite <- app_assoc.
  replace (S (length h)) with (length (h ++ [v]))
    by (rewrite length_app; cbn; lia).
  apply IH.
Qed.

(** X8.  [Contact(name, phones, birthday)]: when every given number
    passes [Phone], the contact has one new [Phone] object for each, in
    the order given and with the values given, no object twice, and the
    objects that were in the store are untouched; when some number does
    not pass, the construction raises [ValueError]. *)
Theorem X8_contact_init_builds_the_phones
    (nm : str) (vals : list pyval) (b : pyval) (w : world) :
  (forallb phone_ok vals = true ->
   exists c w',
     Contact_init nm (Some vals) b w = (Ret c, w')
     /\ name c = nm /\ birthday c = b
     /\ phone_values c w' = vals
     /\ NoDup (phones c) /\ phones_allocated c w'
     /\ Forall (fun l => (length (heap w) <= l)%nat) (phones c)
     /\ forall l, (l < length (heap w))%nat -> heap w' !!! l = heap w !!! l)
  /\
  (forallb phone_ok vals = false ->
   exists w',
     Contact_init nm (Some vals) b w
     = (Raise (ValueError "Invalid phone number format"), w')).
Proof.
  unfold Contact_init, bind.
  change (default [] (Some vals)) with vals. split.
  - intros Hall. rewrite (mapM_Phone_init_run _ w Hall).
    eexists _, _. split; [done|]. cbn [name birthday phones].
    split; [done|]. split; [done|]. split; [|split; [|split; [|split]]].
    + unfold phone_values. cbn. apply heap_values_seq.
    + apply NoDup_seq.
    + unfold phones_allocated. cbn. rewrite length_app.
      apply Forall_forall. intros l Hl. apply in_seq in Hl. lia.
    + apply Forall_forall. intros l Hl. apply in_seq in Hl. lia.
    + intros l Hl. cbn. by apply lookup_total_app_l.
  - intros Hbad. destruct (mapM_Phone_init_fails vals w Hbad) as [w' ->].
    by eexists.
Qed.

Lemma X8_contact_init_witness :
  (exists c w',
     Contact_init (u "Dana")
       (Some [PyStr (u "1234567890"); PyStr (u "1234567890")])
       (PyStr (u "2000-05-10")) two_phones = (Ret c, w')
     /\ name c = u "Dana" /\ birthday c = PyStr (u "2000-05-10")
     /\ phone_values c w'
        = [PyStr (u "1234567890"); PyStr (u "1234567890")]
     /\ NoDup (phones c) /\ phones_allocated c w'
     /\ Forall (fun l => (length (heap two_phones) <= l)%nat) (phones c)
     /\ forall l,
          (l < length (heap two_phones))%nat ->
          heap w' !!! l = heap two_phones !!! l)
  /\
  (exists w',
     Contact_init (u "Dana") (Some [PyStr (u "1234567890"); PyStr (u "12")])
                  PyNone two_phones
     = (Raise (ValueError "Invalid phone number format"), w')).
Proof.
  split.
  - apply (X8_contact_init_builds_the_phones (u "Dana")
             [PyStr (u "1234567890"); PyStr (u "1234567890")]).
    reflexivity.
  - apply (X8_contact_init_builds_the_phones (u "Dana")
             [PyStr (u "1234567890"); PyStr (u "12")]).
    reflexivity.
Defined.

(** ** [edit_phone] and the object it puts in the list *)

(** X9.  [edit_phone] puts one and the same new [Phone] object in the
    place of every phone it replaces: two places of the list that both
    had the old number hold, after the call, the same object, which is
    none of the objects the store had; a later [set] through one place
    shows at the other. *)
Theorem X9_edit_phone_shares_the_new_object
    (c : Contact) (w : world) (old new later : str) (i j : nat)
    (li lj : loc) :
  phones_allocated c w ->
  phone_ok (PyStr old) = true -> phone_ok (PyStr new) = true ->
  phone_ok (PyStr later) = true ->
  phones c !! i = Some li -> phones c !! j = Some lj ->
  heap w !!! li = PyStr old -> heap w !!! lj = PyStr old ->
  exists c' w' l w'',
    Contact_edit_phone (PyStr old) (PyStr new) (c, w) = (Ret tt, (c', w'))
    /\ phones c' !! i = Some l /\ phones c' !! j = Some l
    /\ (length (heap w) < l)%nat
    /\ Phone_set_value l (PyStr later) w' = (Ret tt, w'')
    /\ phone_values c' w'' !! i = Some (PyStr later)
    /\ phone_values c' w'' !! j = Some (PyStr later).
Proof.
  intros Hc Hold Hnew Hlater Hi Hj Hvi Hvj.
  rewrite (Contact_edit_phone_run c w _ _ Hc Hold Hnew).
  set (n := length (heap w)).
  set (w' := set_heap w ((heap w ++ [PyStr old]) ++ [PyStr new])).
  unfold phones_allocated in Hc. rewrite Forall_forall in Hc.
  assert (li < n)%nat as Hli.
  { apply Hc, list_elem_of_In. by eapply list_elem_of_lookup_2. }
  assert (lj < n)%nat as Hlj.
  { apply Hc, list_elem_of_In. by eapply list_elem_of_lookup_2. }
  assert (edit_hit w' n li = true) as Hhi.
  { unfold w', n. rewrite edit_hit_old_phone by done. by apply py_eq_true. }
  assert (edit_hit w' n lj = true) as Hhj.
  { unfold w', n. rewrite edit_hit_old_phone by done. by apply py_eq_true. }
  assert (existsb (edit_hit w' n) (phones c) = true) as Hex.
  { apply existsb_exists. exists li. split; [|done].
    apply list_elem_of_In. by eapply list_elem_of_lookup_2. }
  rewrite Hex.
  assert (S n < length (heap w'))%nat as Hnew_alloc.
  { unfold w'. cbn. rewrite !length_app. cbn. fold n. lia. }
  eexists _, _, (S n), _. split; [done|]. cbn [phones].
  assert (forall k lk, phones c !! k = Some lk -> edit_hit w' n lk = true ->
            map (edit_swap w' n (S n)) (phones c) !! k = Some (S n))
    as Hswap.
  { intros k lk Hk Hh.
    change (map ?f ?l) with (f <$> l).
    rewrite list_lookup_fmap, Hk. cbn. unfold edit_swap. by rewrite Hh. }
  split; [exact (Hswap i li Hi Hhi)|]. split; [exact (Hswap j lj Hj Hhj)|].
  split; [lia|].
  rewrite Phone_set_value_run by lia. rewrite Hlater.
  split; [done|].
  assert (forall k lk, phones c !! k = Some lk -> edit_hit w' n lk = true ->
            phone_values
              (mkContact (name c) (map (edit_swap w' n (S n)) (phones c))
                         (birthday c))
              (set_heap w' (<[S n := PyStr later]> (heap w'))) !! k
            = Some (PyStr later)) as Hval.
  { intros k lk Hk Hh. unfold phone_values. cbn [phones heap set_heap].
    change (map ?f (map ?g ?l)) with (f <$> map g l).
    rewrite list_lookup_fmap.
    pose proof (Hswap k lk Hk Hh) as Hs. unfold loc in *. rewrite Hs.
    cbn. f_equal.
    by apply list_lookup_total_insert_eq. }
  split; by eapply Hval.
Qed.

Lemma X9_edit_phone_shares_witness :
  exists c' w' l w'',
    Contact_edit_phone (PyStr (u "1234567890")) (PyStr (u "1111111111"))
                       (carol, three_phones) = (Ret tt, (c', w'))
    /\ phones c' !! 0%nat = Some l /\ phones c' !! 2%nat = Some l
    /\ (length (heap three_phones) < l)%nat
    /\ Phone_set_value l (PyStr (u "2222222222")) w' = (Ret tt, w'')
    /\ phone_values c' w'' !! 0%nat = Some (PyStr (u "2222222222"))
    /\ phone_values c' w'' !! 2%nat = Some (PyStr (u "2222222222")).
Proof.
  apply (X9_edit_phone_shares_the_new_object
           carol three_phones (u "1234567890") (u "1111111111")
           (u "2222222222") 0 2 0%nat 2%nat).
  - apply (bool_decide_unpack _). vm_compute. exact I.
  - reflexivity.
  - reflexivity.
  - reflexivity.
  - reflexivity.
  - reflexivity.
  - reflexivity.
  - reflexivity.
Defined.

(** ** [add_phone] and [find_phone] *)

(** X10.  After [add_phone] of a valid number, [find_phone] of the number
    finds a phone of the contact with that value. *)
Theorem X10_add_phone_then_find_phone
    (c : Contact) (w : world) (p : str) :
  phones_allocated c w -> phone_ok (PyStr p) = true ->
  exists c' w' l,
    Contact_add_phone (PyStr p) (c, w) = (Ret tt, (c', w'))
    /\ Contact_find_phone c' (PyStr p) w' = (Ret (Some l), w')
    /\ In l (phones c') /\ heap w' !!! l = PyStr p.
Proof.
  intros Hc Hok. rewrite (Contact_add_phone_run _ c w Hc Hok).
  set (c' := mkContact _ _ _). set (w' := set_heap _ _).
  assert (Contact_find_phone c' (PyStr p) w'
          = (Ret (List.find (holds w' (PyStr p)) (phones c')), w')) as Hrun.
  { unfold Contact_find_phone. by rewrite find_phone_loop_run. }
  destruct (List.find (holds w' (PyStr p)) (phones c')) as [l|] eqn:Hfind.
  - exists c', w', l. split; [done|]. split; [done|].
    apply find_first in Hfind as (i & Hi & Hl & _). split.
    + apply list_elem_of_In. by eapply list_elem_of_lookup_2.
    + by apply py_eq_true.
  - exfalso. apply find_none, holds_none in Hfind. apply Hfind.
    fold (phone_values c' w'). unfold c', w'.
    rewrite phone_values_add by done. apply in_or_app. right. by left.
Qed.

Lemma X10_add_then_find_witness :
  exists c' w' l,
    Contact_add_phone (PyStr (u "5551234567")) (alice, two_phones)
    = (Ret tt, (c', w'))
    /\ Contact_find_phone c' (PyStr (u "5551234567")) w'
       = (Ret (Some l), w')
    /\ In l (phones c') /\ heap w' !!! l = PyStr (u "5551234567").
Proof.
  apply (X10_add_phone_then_find_phone alice two_phones (u "5551234567")).
  - apply (bool_decide_unpack _). vm_compute. exact I.
  - reflexivity.
Defined.

(** ** The pages of [iterator] *)

Section Pages.

Variables (item_number : Z) (w : world).

Lemma iterator_loop_concat (items : dict) (lines : list str) :
  Forall2 (fun kv line => Contact_str (snd kv) w = (Ret line, w))
          items lines ->
  forall (counter : Z) (result : str) (out : list str),
  exists pages,
    iterator_loop item_number items counter result (out, w)
    = (Ret tt, (out ++ pages, w))
    /\ concat pages = result ++ concat (zip_with page_of items lines).
Proof.
  induction 1 as [|[item record] line items lines Hline _ IH];
    intros counter result out.
  - cbn [iterator_loop zip_with concat]. destruct result as [|ch result].
    + exists []. by rewrite app_nil_r.
    + exists [ch :: result]. split; [done|]. cbn. by rewrite !app_nil_r.
  - cbn [iterator_loop]. unfold bind at 1, in_world at 1. cbn [fst snd].
    cbn [snd] in Hline. rewrite Hline.
    cbn [zip_with concat]. unfold page_of at 1. cbn [fst].
    destruct (counter + 1 >=? item_number).
    + unfold bind at 1, yield at 1. cbn [fst snd].
      destruct (IH 0 [] (out ++ [result ++ item ++ u ": " ++ line ++ nl]))
        as (pages & Hrun & Hcat).
      exists ((result ++ item ++ u ": " ++ line ++ nl) :: pages).
      split.
      * etrans; [exact Hrun|]. by rewrite <- app_assoc.
      * cbn [concat]. rewrite Hcat. cbn [app]. by rewrite <- !app_assoc.
    + destruct (IH (counter + 1) (result ++ item ++ u ": " ++ line ++ nl)
                   out) as (pages & Hrun & Hcat).
      exists pages. split; [done|]. rewrite Hcat. by rewrite <- !app_assoc.
Qed.

Hypothesis Hpositive : 1 <= item_number.


End Pages.

(** X11.  Whatever the page size, the pages of [iterator] put end to end
    are the lines of all the records, each once and in the order of the
    dictionary: paging loses and repeats nothing. *)
Theorem X11_iterator_pages_hold_every_line
    (data : dict) (item_number : Z) (w : world) (lines : list str) :
  Forall2 (fun kv line => Contact_str (snd kv) w = (Ret line, w))
          data lines ->
  fst (AddressBook_iterator data item_number ([], w)) = Ret tt
  /\ concat (pages_of data item_number w)
     = concat (zip_with page_of data lines).
Proof.
  intros Hall. unfold pages_of, AddressBook_iterator.
  destruct (iterator_loop_concat item_number w data lines Hall 0 [] [])
    as (pages & Hrun & Hcat).
  rewrite Hrun. by split.
Qed.

Lemma X11_iterator_pages_witness :
  fst (AddressBook_iterator alice_and_bob 5 ([], two_phones)) = Ret tt
  /\ concat (pages_of alice_and_bob 5 two_phones)
     = concat (zip_with page_of alice_and_bob
         [ u "Contact name: Alice, phones: 1234567890, birthday: 2000-05-10";
           u "Contact name: Bob, phones: 0987654321" ]).
Proof.
  apply (X11_iterator_pages_hold_every_line alice_and_bob 5 two_phones).
  constructor; [reflexivity|]. constructor; [reflexivity|]. constructor.
Defined.



(** ** [load_bin] and the exceptions it does not catch *)

(** X14.  [load_bin] catches [FileNotFoundError] alone.  Any other
    exception, raised by [open] or, once the file is open, by
    [pickle.load], reaches the caller; nothing is printed and the book is
    as it was. *)
Theorem X14_load_bin_passes_other_exceptions
    (data : dict) (w : world) (path : str) (e : exn) :
  fst (open_rb path w) = Raise e
  \/ (exists c, fst (open_rb path w) = Ret c
                /\ fst (pickle_load c w) = Raise e) ->
  is_FileNotFoundError e = false ->
  AddressBook_load_bin path (data, w) = (Raise e, (data, w)).
Proof.
  intros Hraise Hclass. rewrite AddressBook_load_bin_run.
  destruct (open_rb path w) as [[c|e'] w']; cbn [fst] in Hraise.
  - destruct Hraise as [|(c' & [= <-] & Hload)]; [discriminate|].
    destruct (pickle_load c w) as [[loaded|e'] w2];
      cbn [fst] in Hload; [discriminate|].
    injection Hload as ->. by rewrite Hclass.
  - destruct Hraise as [[= ->]|(c & ? & _)]; [|discriminate].
    by rewrite Hclass.
Qed.

Lemma X14_load_bin_passes_other_exceptions_witness :
  AddressBook_load_bin (u "notes.txt/x")
    (alice_and_bob,
     mkWorld (heap two_phones) []
       [(u "notes.txt", Opens (NoPickle EOFError));
        (u "notes.txt/x", Refuses (NotADirectoryError (u "notes.txt/x")))]
       noon)
  = (Raise (NotADirectoryError (u "notes.txt/x")),
     (alice_and_bob,
      mkWorld (heap two_phones) []
        [(u "notes.txt", Opens (NoPickle EOFError));
         (u "notes.txt/x", Refuses (NotADirectoryError (u "notes.txt/x")))]
        noon))
  /\ AddressBook_load_bin (u "notes.txt")
       (alice_and_bob,
        mkWorld (heap two_phones) []
          [(u "notes.txt", Opens (NoPickle EOFError))] noon)
     = (Raise EOFError,
        (alice_and_bob,
         mkWorld (heap two_phones) []
           [(u "notes.txt", Opens (NoPickle EOFError))] noon)).
Proof.
  split.
  - apply (X14_load_bin_passes_other_exceptions
             alice_and_bob _ (u "notes.txt/x")
             (NotADirectoryError (u "notes.txt/x"))).
    + left. reflexivity.
    + reflexivity.
  - apply (X14_load_bin_passes_other_exceptions
             alice_and_bob _ (u "notes.txt") EOFError).
    + right. exists (NoPickle EOFError). split; reflexivity.
    + reflexivity.
Defined.

(** ** [search] with the empty query *)




(** ** Days of the year *)

Lemma month_cases (m : Z) :
  1 <= m <= 12 ->
  m = 1 \/ m = 2 \/ m = 3 \/ m = 4 \/ m = 5 \/ m = 6 \/ m = 7 \/ m = 8
  \/ m = 9 \/ m = 10 \/ m = 11 \/ m = 12.
Proof. lia. Qed.

Ltac month_tables :=
  cbv [datetime.days_in_month datetime.days_before_month
       datetime.DAYS_IN_MONTH datetime.DAYS_BEFORE_MONTH
       nth Z.to_nat Pos.to_nat Pos.iter_op Nat.add
       Z.eqb Z.gtb Z.compare Pos.compare Pos.compare_cont Pos.eqb andb] in *.

(** The day of the year of a date lies in the year. *)
Lemma day_of_year_bounds (y m d : Z) :
  1 <= m <= 12 -> 1 <= d <= datetime.days_in_month y m ->
  1 <= datetime.days_before_month y m + d
    <= 365 + (if datetime.is_leap y then 1 else 0).
Proof.
  intros Hm%month_cases Hd.
  destruct_or!; subst m; month_tables;
    destruct (datetime.is_leap y); lia.
Qed.

(** A later date of the year has a later day of the year. *)
Lemma day_of_year_mono (y m d m' d' : Z) :
  1 <= m <= 12 -> 1 <= d <= datetime.days_in_month y m ->
  1 <= m' <= 12 -> 1 <= d' <= datetime.days_in_month y m' ->
  m < m' \/ (m = m' /\ d < d') ->
  datetime.days_before_month y m + d < datetime.days_before_month y m' + d'.
Proof.
  intros Hm%month_cases Hd Hm'%month_cases Hd' Hlt.
  destruct_or! Hm; subst m; destruct_or! Hm'; subst m';
    try lia; month_tables; destruct (datetime.is_leap y); lia.
Qed.

Lemma days_before_next_year (y : Z) :
  datetime.days_before_year (y + 1)
  = datetime.days_before_year y + 365
    + (if datetime.is_leap y then 1 else 0).
Proof.
  unfold datetime.days_before_year, datetime.is_leap.
  replace (y + 1 - 1) with y by lia.
  repeat match goal with
         | |- context [(?a =? ?b)] => destruct (Z.eqb_spec a b)
         end; cbn [andb orb negb];
    Z.div_mod_to_equations; lia.
Qed.

(** A day that is not 29 February is a day of every year. *)
Lemma day_of_every_year (Y y m d : Z) :
  1 <= m <= 12 -> 1 <= d <= datetime.days_in_month Y m ->
  ~ (m = 2 /\ d = 29) ->
  1 <= d <= datetime.days_in_month y m.
Proof.
  intros Hm%month_cases Hd Hfeb.
  destruct_or!; subst m; month_tables;
    destruct (datetime.is_leap Y), (datetime.is_leap y); lia.
Qed.

(** [today > next_birthday] when [next_birthday] is the midnight of a day
    of the year of [today]. *)
Lemma gt_same_year (a : datetime.t) (m d : Z) :
  clock_reading a ->
  datetime.gt a (datetime.mk (datetime.year a) m d 0 0 0 0) = true
  <-> (m < datetime.month a
       \/ (datetime.month a = m
           /\ (d < datetime.day a
               \/ (datetime.day a = d /\ after_midnight a)))).
Proof.
  unfold clock_reading, after_midnight, datetime.gt, datetime.fields.
  intros (_ & Hh & Hmi & Hs & Hu).
  cbn [datetime.tuple_cmp datetime.year datetime.month datetime.day
       datetime.hour datetime.minute datetime.second datetime.microsecond].
  rewrite Z.compare_refl.
  destruct (Z.compare_spec (datetime.month a) m); [|split; [done|lia]|
                                                    split; [lia|done]].
  destruct (Z.compare_spec (datetime.day a) d); [|split; [done|lia]|
                                                  split; [lia|done]].
  destruct (Z.compare_spec (datetime.hour a) 0); [|lia|split; [lia|done]].
  destruct (Z.compare_spec (datetime.minute a) 0); [|lia|split; [lia|done]].
  destruct (Z.compare_spec (datetime.second a) 0); [|lia|split; [lia|done]].
  destruct (Z.compare_spec (datetime.microsecond a) 0);
    [split; [done|lia]|lia|split; [lia|done]].
Qed.

(** The days from a moment to a midnight: the days between the dates,
    less one when the moment is after midnight. *)
Lemma sub_days_to_midnight (a next : datetime.t) :
  clock_reading a ->
  datetime.hour next = 0 -> datetime.minute next = 0 ->
  datetime.second next = 0 -> datetime.microsecond next = 0 ->
  (after_midnight a ->
   datetime.sub_days next a
   = datetime.toordinal next - datetime.toordinal a - 1)
  /\ (~ after_midnight a ->
      datetime.sub_days next a
      = datetime.toordinal next - datetime.toordinal a).
Proof.
  unfold clock_reading, after_midnight, datetime.sub_days.
  intros (_ & Hh & Hm & Hs & Hu) -> -> -> ->.
  split; intros Hpos; Z.div_mod_to_equations; lia.
Qed.

(** ** More of [days_to_birthday] *)

Lemma Contact_init_fields (nm : str) (phone_args : option (list pyval))
    (b : pyval) (w w' : world) (c : Contact) :
  Contact_init nm phone_args b w = (Ret c, w') ->
  name c = nm /\ birthday c = b.
Proof.
  unfold Contact_init, bind, ret.
  destruct (mapM Phone_init (default [] phone_args) w) as [[ps|e] w1];
    [|discriminate].
  by intros [= <- _].
Qed.

(** X16.  A contact built with a birthday that is no date: the
    construction succeeds, and [days_to_birthday] then raises the
    [ValueError] of [strptime]. *)
Theorem X16_days_to_birthday_of_no_date_raises
    (nm : str) (phone_args : option (list pyval)) (b : str)
    (w w' : world) (c : Contact) :
  Contact_init nm phone_args (PyStr b) w = (Ret c, w') ->
  b <> [] -> birthday_ok (PyStr b) = false ->
  exists msg, Contact_days_to_birthday c w' = (Raise (ValueError msg), w').
Proof.
  intros [_ Hb]%Contact_init_fields Hne Hbad.
  unfold Contact_days_to_birthday. rewrite Hb.
  destruct b as [|ch b]; [done|]. cbn [truthy negb py_str].
  unfold bind, now, lift_res. unfold birthday_ok in Hbad.
  destruct (datetime.strptime (PyStr (ch :: b))) as [dt|e] eqn:Hp; [done|].
  apply strptime_Raise_str in Hp. destruct e; try done. by eexists.
Qed.

Lemma X16_days_to_birthday_of_no_date_witness :
  exists msg,
    Contact_days_to_birthday (mkContact (u "Bob") [2%nat] (PyStr (u "soon")))
      (set_heap two_phones (heap two_phones ++ [PyStr (u "0987654321")]))
    = (Raise (ValueError msg),
       set_heap two_phones (heap two_phones ++ [PyStr (u "0987654321")])).
Proof.
  apply (X16_days_to_birthday_of_no_date_raises
           (u "Bob") (Some [PyStr (u "0987654321")]) (u "soon") two_phones).
  - reflexivity.
  - discriminate.
  - reflexivity.
Defined.

(** X17.  A birthday on 29 February: in a year that is no leap year
    [days_to_birthday] raises [ValueError], for there is no such day to
    make [next_birthday] of. *)
Theorem X17_days_to_birthday_february_29
    (c : Contact) (w : world) (trans : datetime.t) :
  truthy (birthday c) = true ->
  datetime.strptime (PyStr (py_str (birthday c))) = Ret trans ->
  datetime.month trans = 2 -> datetime.day trans = 29 ->
  1 <= datetime.year (clock w) <= 9999 ->
  datetime.is_leap (datetime.year (clock w)) = false ->
  Contact_days_to_birthday c w
  = (Raise (ValueError "day is out of range for month"), w).
Proof.
  intros Hb Htrans Hm Hd Hy Hleap.
  unfold Contact_days_to_birthday. rewrite Hb. cbn [negb].
  unfold bind, now, lift_res. rewrite Htrans, Hm, Hd.
  unfold datetime.new, datetime.MINYEAR, datetime.MAXYEAR.
  replace ((1 <=? datetime.year (clock w))
           && (datetime.year (clock w) <=? 9999)) with true by lia.
  unfold datetime.days_in_month. rewrite Hleap. done.
Qed.

Lemma X17_days_to_birthday_february_29_witness :
  Contact_days_to_birthday
    (mkContact (u "Eve") [] (PyStr (u "2000-02-29")))
    (mkWorld [] [] [] (datetime.mk 2023 1 15 9 30 0 0))
  = (Raise (ValueError "day is out of range for month"),
     mkWorld [] [] [] (datetime.mk 2023 1 15 9 30 0 0)).
Proof.
  apply (X17_days_to_birthday_february_29
           (mkContact (u "Eve") [] (PyStr (u "2000-02-29")))
           (mkWorld [] [] [] (datetime.mk 2023 1 15 9 30 0 0))
           (datetime.mk 2000 2 29 0 0 0 0)).
  - reflexivity.
  - reflexivity.
  - reflexivity.
  - reflexivity.
  - vm_compute. split; discriminate.
  - reflexivity.
Defined.

(** X18.  A birthday still to come in the year of the clock: the branch
    of the current year is taken, and the days reported are the days
    between the two dates, less one whenever some time has passed since
    midnight: on the eve of the birthday the count is 0. *)
Theorem X18_days_to_birthday_later_this_year
    (c : Contact) (w : world) (trans next : datetime.t) :
  truthy (birthday c) = true ->
  datetime.strptime (PyStr (py_str (birthday c))) = Ret trans ->
  clock_reading (clock w) ->
  before_day (clock w) (datetime.month trans) (datetime.day trans) ->
  datetime.new (datetime.year (clock w)) (datetime.month trans)
               (datetime.day trans) = Ret next ->
  let between := datetime.toordinal next - datetime.toordinal (clock w) in
  1 <= between
  /\ (after_midnight (clock w) ->
      Contact_days_to_birthday c w
      = (Ret (days_left_message (between - 1) c), w))
  /\ (~ after_midnight (clock w) ->
      Contact_days_to_birthday c w
      = (Ret (days_left_message between c), w)).
Proof.
  intros Hb Htrans Hclock Hbefore Hnext between.
  pose proof Hclock as ((Hy & Hm & Hd) & _).
  pose proof (datetime_new_Ret _ _ _ _ Hnext) as (Enext & _ & HM & HD).
  assert (datetime.gt (clock w) next = false) as Hgt.
  { rewrite Enext. apply not_true_iff_false.
    rewrite (gt_same_year _ _ _ Hclock). unfold before_day in Hbefore. lia. }
  assert (Contact_days_to_birthday c w
          = (Ret (days_left_message (datetime.sub_days next (clock w)) c), w))
    as Hrun.
  { unfold Contact_days_to_birthday. rewrite Hb. cbn [negb].
    unfold bind, now, lift_res. rewrite Htrans, Hnext. by rewrite Hgt. }
  assert (1 <= between) as Hbetween.
  { unfold between, datetime.toordinal, datetime.ymd2ord. rewrite Enext.
    cbn [datetime.year datetime.month datetime.day].
    pose proof (day_of_year_mono (datetime.year (clock w))
                  (datetime.month (clock w)) (datetime.day (clock w))
                  (datetime.month trans) (datetime.day trans)
                  Hm Hd HM HD Hbefore). lia. }
  destruct (sub_days_to_midnight (clock w) next Hclock) as [Hafter Hsharp];
    try (by rewrite Enext).
  split; [done|]. split.
  - intros H. by rewrite Hrun, (Hafter H).
  - intros H. by rewrite Hrun, (Hsharp H).
Qed.

Lemma X18_days_to_birthday_eve_witness :
  let w := mkWorld [] [] [] (datetime.mk 2024 5 9 18 0 0 0) in
  let c := mkContact (u "Alice") [] (PyStr (u "2000-05-10")) in
  Contact_days_to_birthday c w
  = (Ret (PyStr (u "0 days left until birthday Alice")), w).
Proof.
  intros w c.
  destruct (X18_days_to_birthday_later_this_year c w
              (datetime.mk 2000 5 10 0 0 0 0)
              (datetime.mk 2024 5 10 0 0 0 0)) as (_ & Hafter & _).
  - reflexivity.
  - reflexivity.
  - unfold clock_reading, calendar_date. vm_compute.
    repeat split; discriminate.
  - right. split; reflexivity.
  - reflexivity.
  - apply Hafter. reflexivity.
Defined.

(** X19.  For a birthday [strptime] accepts that is not 29 February, and
    a clock before the year 9999, [days_to_birthday] returns its message,
    and the days it reports are at least 0 and at most 365. *)
Theorem X19_days_to_birthday_between_0_and_365
    (c : Contact) (w : world) (trans : datetime.t) :
  truthy (birthday c) = true ->
  datetime.strptime (PyStr (py_str (birthday c))) = Ret trans ->
  ~ (datetime.month trans = 2 /\ datetime.day trans = 29) ->
  clock_reading (clock w) ->
  datetime.year (clock w) <= 9998 ->
  exists days_left,
    Contact_days_to_birthday c w = (Ret (days_left_message days_left c), w)
    /\ 0 <= days_left <= 365.
Proof.
  intros Hb Htrans Hfeb Hclock Hyear.
  pose proof Hclock as ((Hy & Hm & Hd) & _).
  pose proof (strptime_calendar _ _ Htrans) as (_ & HM & HD).
  remember (datetime.year (clock w)) as y eqn:Ey.
  remember (datetime.month trans) as M eqn:EM.
  remember (datetime.day trans) as D eqn:ED.
  pose proof (day_of_every_year _ y M D HM HD Hfeb) as HDy.
  pose proof (day_of_every_year _ (y + 1) M D HM HD Hfeb) as HDy1.
  pose proof (day_of_year_bounds y _ _ Hm Hd) as Btoday.
  pose proof (day_of_year_bounds y M D HM HDy) as Bthis.
  pose proof (day_of_year_bounds (y + 1) M D HM HDy1) as Bnext.
  pose proof (days_before_next_year y) as Hdby.
  pose proof (ymd2ord_next_year y M D) as Hstep.
  unfold datetime.ymd2ord in Hstep.
  assert (forall next : datetime.t,
            datetime.toordinal next - datetime.toordinal (clock w)
            = datetime.days_before_year (datetime.year next)
              + datetime.days_before_month (datetime.year next)
                                           (datetime.month next)
              + datetime.day next
              - (datetime.days_before_year y
                 + datetime.days_before_month y (datetime.month (clock w))
                 + datetime.day (clock w))) as Hord.
  { intros next. unfold datetime.toordinal, datetime.ymd2ord.
    by rewrite <- Ey. }
  unfold Contact_days_to_birthday. rewrite Hb. cbn [negb].
  unfold bind, now, lift_res. rewrite Htrans. rewrite <- Ey, <- EM, <- ED.
  rewrite (datetime_new_ok y M D) by lia.
  pose proof (gt_same_year (clock w) M D Hclock) as Hgt_iff.
  rewrite <- Ey in Hgt_iff.
  destruct (datetime.gt (clock w) (datetime.mk y M D 0 0 0 0)) eqn:Hgt.
  - rewrite (datetime_new_ok (y + 1) M D) by lia.
    eexists. split; [done|].
    destruct Hgt_iff as [Hlater _]. specialize (Hlater eq_refl).
    destruct (sub_days_to_midnight (clock w)
                (datetime.mk (y + 1) M D 0 0 0 0) Hclock)
      as [Hafter Hsharp]; try done.
    rewrite Hord in Hafter, Hsharp.
    cbn [datetime.year datetime.month datetime.day] in Hafter, Hsharp.
    assert (datetime.days_before_month y M + D
            <= datetime.days_before_month y (datetime.month (clock w))
               + datetime.day (clock w)
            /\ (~ after_midnight (clock w) ->
                datetime.days_before_month y M + D
                < datetime.days_before_month y (datetime.month (clock w))
                  + datetime.day (clock w))) as Hpassed.
    { destruct Hlater as [Hlt|[Heq [Hlt|[Heq' Ha]]]].
      - pose proof (day_of_year_mono y M D _ _ HM HDy Hm Hd
                      ltac:(left; exact Hlt)). lia.
      - pose proof (day_of_year_mono y M D _ _ HM HDy Hm Hd
                      ltac:(right; split; [by symmetry|exact Hlt])). lia.
      - rewrite Heq, Heq'. split; [lia|]. intros Hn. by destruct Hn. }
    destruct (decide (after_midnight (clock w))) as [Ha|Ha].
    + rewrite (Hafter Ha).
      destruct (datetime.is_leap y), (datetime.is_leap (y + 1)); lia.
    + rewrite (Hsharp Ha). destruct Hpassed as [_ Hpassed].
      specialize (Hpassed Ha).
      destruct (datetime.is_leap y), (datetime.is_leap (y + 1)); lia.
  - eexists. split; [done|].
    assert (~ (M < datetime.month (clock w)
               \/ (datetime.month (clock w) = M
                   /\ (D < datetime.day (clock w)
                       \/ (datetime.day (clock w) = D
                           /\ after_midnight (clock w)))))) as Hngt.
    { intros H. apply Hgt_iff in H. congruence. }
    destruct (sub_days_to_midnight (clock w)
                (datetime.mk y M D 0 0 0 0) Hclock)
      as [Hafter Hsharp]; try done.
    rewrite Hord in Hafter, Hsharp.
    cbn [datetime.year datetime.month datetime.day] in Hafter, Hsharp.
    destruct (decide (after_midnight (clock w))) as [Ha|Ha].
    + rewrite (Hafter Ha).
      assert (before_day (clock w) M D) as Hbefore
        by (unfold before_day, after_midnight in *; lia).
      pose proof (day_of_year_mono y _ _ M D Hm Hd HM HDy Hbefore).
      destruct (datetime.is_leap y); lia.
    + rewrite (Hsharp Ha).
      destruct (decide (datetime.month (clock w) = M
                        /\ datetime.day (clock w) = D)) as [[E1 E2]|Hne].
      * rewrite E1, E2. lia.
      * assert (before_day (clock w) M D) as Hbefore
          by (unfold before_day, after_midnight in *; lia).
        pose proof (day_of_year_mono y _ _ M D Hm Hd HM HDy Hbefore).
        destruct (datetime.is_leap y); lia.
Qed.

Lemma X19_days_to_birthday_witness :
  exists days_left,
    Contact_days_to_birthday alice two_phones
    = (Ret (days_left_message days_left alice), two_phones)
    /\ 0 <= days_left <= 365.
Proof.
  apply (X19_days_to_birthday_between_0_and_365
           alice two_phones (datetime.mk 2000 5 10 0 0 0 0)).
  - reflexivity.
  - reflexivity.
  - intros [H _]. discriminate H.
  - unfold clock_reading, calendar_date. vm_compute.
    repeat split; discriminate.
  - vm_compute. discriminate.
Defined.

(** ** Phones that hold no string *)

Lemma str_items_Ret (vals : list pyval) :
  Forall (fun v => isinstance_str v = true) vals ->
  exists items, str_items vals = Ret items.
Proof.
  induction 1 as [|v vals Hv _ [items IH]]; [by eexists|].
  destruct v as [|s]; [done|]. cbn. rewrite IH. by eexists.
Qed.

Lemma str_items_Raise (vals : list pyval) :
  ~ Forall (fun v => isinstance_str v = true) vals ->
  str_items vals = Raise (TypeError "sequence item: expected str instance").
Proof.
  induction vals as [|v vals IH]; intros Hnot.
  - exfalso. apply Hnot. constructor.
  - destruct v as [|s]; [done|]. cbn. rewrite IH; [done|].
    intros H. apply Hnot. by constructor.
Qed.

Lemma Forall_values (w : world) (ps : list loc) :
  Forall (fun v => isinstance_str v = true) (map (fun l => heap w !!! l) ps)
  <-> Forall (fun l => isinstance_str (heap w !!! l) = true) ps.
Proof.
  induction ps as [|l ps IH]; cbn [map].
  - split; constructor.
  - rewrite !Forall_cons_iff, IH. done.
Qed.

(** X20.  [str(contact)] succeeds when every phone of the contact holds a
    string, and raises [TypeError] when one does not, as after a [set]
    that was refused; the world is as it was either way. *)
Theorem X20_contact_str_needs_string_phones (c : Contact) (w : world) :
  (phones_hold_str c w -> exists line, Contact_str c w = (Ret line, w))
  /\ (~ phones_hold_str c w ->
      Contact_str c w
      = (Raise (TypeError "sequence item: expected str instance"), w)).
Proof.
  unfold phones_hold_str, Contact_str. split.
  - intros Hall. apply Forall_values in Hall.
    destruct (str_items_Ret _ Hall) as [items Hitems].
    destruct (truthy (birthday c)); unfold bind at 1;
      rewrite mapM_Field_value_run; unfold bind, lift_res;
      rewrite Hitems; by eexists.
  - intros Hnot. rewrite <- Forall_values in Hnot.
    pose proof (str_items_Raise _ Hnot) as Hitems.
    destruct (truthy (birthday c)); unfold bind at 1;
      rewrite mapM_Field_value_run; unfold bind, lift_res;
      by rewrite Hitems.
Qed.

Lemma X20_contact_str_witness :
  (exists line, Contact_str alice two_phones = (Ret line, two_phones))
  /\ Contact_str (mkContact (u "Zed") [0%nat] PyNone) (world_with PyNone)
     = (Raise (TypeError "sequence item: expected str instance"),
        world_with PyNone).
Proof.
  split.
  - apply (X20_contact_str_needs_string_phones alice two_phones).
    apply (bool_decide_unpack _). vm_compute. exact I.
  - apply (X20_contact_str_needs_string_phones
             (mkContact (u "Zed") [0%nat] PyNone) (world_with PyNone)).
    intros H. apply Forall_cons_iff in H as [H _]. discriminate H.
Defined.

Lemma search_phones_Raise (w : world) (query : str) (record : Contact)
    (todo : list loc) (matches : list Contact) :
  ~ Forall (fun l => isinstance_str (heap w !!! l) = true) todo ->
  search_phones query record todo matches w
  = (Raise (TypeError "argument of type 'NoneType' is not iterable"), w).
Proof.
  revert matches. induction todo as [|phone todo IH]; intros matches Hnot.
  - exfalso. apply Hnot. constructor.
  - cbn [search_phones]. unfold bind at 1, Field_value at 1, read at 1.
    destruct (heap w !!! phone) as [|s] eqn:Hv; [done|].
    assert (~ Forall (fun l => isinstance_str (heap w !!! l) = true) todo)
      as Hrest.
    { intros H. apply Hnot. constructor; [by rewrite Hv|done]. }
    destruct (str_contains s query); by apply IH.
Qed.

(** X21.  [search] over a book in which some phone holds [None], as
    after a [set] of [None] that was refused, raises [TypeError] from the
    test [query in phone.value], whatever the query; the book is as it
    was. *)
Theorem X21_search_of_a_None_phone_raises
    (lower : str -> str) (data : dict) (w : world) (query : str) :
  Exists (fun kv => Exists (fun l => heap w !!! l = PyNone) (phones (snd kv)))
         data ->
  AddressBook_search lower query (data, w)
  = (Raise (TypeError "argument of type 'NoneType' is not iterable"),
     (data, w)).
Proof.
  intros Hnone. unfold AddressBook_search, bind, get_self, in_world.
  cbn [fst snd].
  assert (forall matches,
            search_loop lower query data matches w
            = (Raise (TypeError
                 "argument of type 'NoneType' is not iterable"), w)) as Hrun.
  { induction data as [|[nm record] data IH]; intros matches.
    - by apply Exists_nil in Hnone.
    - cbn [search_loop]. unfold bind at 1.
      destruct (decide (phones_hold_str record w)) as [Hrec|Hrec].
      + rewrite search_phones_run by exact Hrec. apply IH.
        apply Exists_cons in Hnone as [Hhere|Hlater]; [|done].
        exfalso. cbn [snd] in Hhere.
        apply Exists_exists in Hhere as (l & Hin & Hl).
        unfold phones_hold_str in Hrec.
        rewrite Forall_forall in Hrec. specialize (Hrec l Hin).
        by rewrite Hl in Hrec.
      + by rewrite search_phones_Raise. }
  by rewrite Hrun.
Qed.

Lemma X21_search_of_a_None_phone_witness :
  AddressBook_search ascii_lower (u "a")
    ([(u "Zed", mkContact (u "Zed") [0%nat] PyNone)], world_with PyNone)
  = (Raise (TypeError "argument of type 'NoneType' is not iterable"),
     ([(u "Zed", mkContact (u "Zed") [0%nat] PyNone)], world_with PyNone)).
Proof.
  apply (X21_search_of_a_None_phone_raises ascii_lower).
  apply Exists_cons_hd. cbn [snd phones]. apply Exists_cons_hd. reflexivity.
Defined.

(** ** What [add_phone] and [remove_phone] keep *)

Lemma remove_skip_sublist (hit : loc -> bool) (l : list loc) :
  sublist (remove_skip hit l) l.
Proof.
  revert l. fix IH 1. intros [|x rest]; [constructor|].
  cbn [remove_skip]. destruct (hit x).
  - destruct rest as [|y rest'].
    + apply sublist_nil_l.
    + apply sublist_cons. apply sublist_skip. apply IH.
  - apply sublist_skip. apply IH.
Qed.

(** X22.  [add_phone] and [remove_phone] of a valid number keep the
    phones of a contact what the constructor made them: objects of the
    store, none of them twice in the list. *)
Theorem X22_add_and_remove_keep_the_phones_distinct
    (c : Contact) (w : world) (p : pyval) :
  phones_allocated c w -> NoDup (phones c) -> phone_ok p = true ->
  (exists c' w',
     Contact_add_phone p (c, w) = (Ret tt, (c', w'))
     /\ phones_allocated c' w' /\ NoDup (phones c'))
  /\
  (exists c' w',
     Contact_remove_phone p (c, w) = (Ret tt, (c', w'))
     /\ phones_allocated c' w' /\ NoDup (phones c')).
Proof.
  intros Hc Hnd Hok. split.
  - rewrite (Contact_add_phone_run _ c w Hc Hok). eexists _, _.
    split; [done|]. split; [by apply phones_allocated_add|].
    cbn [phones]. apply list.NoDup_app. split; [done|]. split.
    + intros x Hx Hin. unfold phones_allocated in Hc.
      rewrite Forall_forall in Hc. apply list_elem_of_In, Hc in Hx.
      apply list_elem_of_In in Hin. cbn in Hin. lia.
    + apply NoDup_singleton.
  - rewrite (Contact_remove_phone_run c w p Hc Hnd Hok). eexists _, _.
    split; [done|]. cbn [phones].
    pose proof (remove_skip_sublist (holds w p) (phones c)) as Hsub.
    split.
    + unfold phones_allocated in *. cbn [phones heap set_heap].
      rewrite Forall_forall in Hc. apply Forall_forall. intros l Hl.
      apply list_elem_of_In in Hl.
      pose proof (elem_of_sublist _ _ _ Hl Hsub) as Hin.
      apply list_elem_of_In, Hc in Hin. rewrite length_app. cbn. lia.
    + by eapply sublist_NoDup.
Qed.

Lemma X22_add_and_remove_witness :
  (exists c' w',
     Contact_add_phone (PyStr (u "5551234567")) (alice, two_phones)
     = (Ret tt, (c', w'))
     /\ phones_allocated c' w' /\ NoDup (phones c'))
  /\
  (exists c' w',
     Contact_remove_phone (PyStr (u "5551234567")) (alice, two_phones)
     = (Ret tt, (c', w'))
     /\ phones_allocated c' w' /\ NoDup (phones c')).
Proof.
  apply (X22_add_and_remove_keep_the_phones_distinct
           alice two_phones (PyStr (u "5551234567"))).
  - apply (bool_decide_unpack _). vm_compute. exact I.
  - apply (bool_decide_unpack _). vm_compute. exact I.
  - reflexivity.
Defined.
